(** * go-ai: a shallow embedding of the chat adapters

    The development follows the Go sources of the [core], [openai],
    [claude] and [ollama] packages.  Go strings are byte sequences and are
    modelled by [string] (a list of 8-bit characters); slices of wire
    messages are modelled by lists; slices of [core.MessageUnion], whose
    sharing with the caller matters, live in an explicit store of backing
    arrays. *)

From Stdlib Require Import String Ascii ZArith List Lia Bool.
From Stdlib Require Import Numbers.DecimalString.
From stdpp Require Import base option list gmap strings.

Open Scope string_scope.
Open Scope list_scope.

(** ** Go strings *)

Module GoString.

(** [strings.HasPrefix(s, prefix)]. *)
Definition HasPrefix (s pre : string) : bool := String.prefix pre s.

(** The slice expression [s[n:]]; Go panics when [n > len(s)], every
    use in the sources is guarded by [HasPrefix]. *)
Definition slice_from (n : nat) (s : string) : string :=
  String.substring n (String.length s - n) s.

(** [strings.TrimPrefix(s, prefix)]. *)
Definition TrimPrefix (s pre : string) : string :=
  if HasPrefix s pre then slice_from (String.length pre) s else s.

(** [strings.Join(elems, sep)]. *)
Definition Join (elems : list string) (sep : string) : string :=
  String.concat sep elems.

(** Concatenation of a sequence of strings, in order. *)
Definition concat_all (l : list string) : string :=
  fold_right String.append "" l.

End GoString.
Export GoString.

(** ** The delta reconciler (package ollama, util.go) *)

Module Reconciler.

(** [appendStreamSegment(current, incoming) (next, delta)]. *)
Definition appendStreamSegment (current incoming : string) : string * string :=
  if String.eqb incoming "" then (current, "")
  else if HasPrefix incoming current then
    (incoming, slice_from (String.length current) incoming)
  else if HasPrefix current incoming then (current, "")
  else (current +:+ incoming, incoming).

(** Feeding a sequence of observed fragments through the reconciler,
    starting from the snapshot [current]: the final snapshot and the
    deltas returned on the way, in order. *)
Fixpoint reconcile_all (current : string) (fragments : list string)
  : string * list string :=
  match fragments with
  | [] => (current, [])
  | f :: rest =>
      let '(next, delta) := appendStreamSegment current f in
      let '(final, deltas) := reconcile_all next rest in
      (final, delta :: deltas)
  end.

End Reconciler.

(** ** Package core: the conversation model *)

Module Core.

(** Go [error] values are represented by their message, [err.Error()]. *)
Definition error := string.

(** A Go result pair [(T, error)] whose error, when set, is the only
    component looked at. *)
Inductive result (A : Type) : Type :=
| Ok (a : A)
| Err (e : error).
Arguments Ok {A} a.
Arguments Err {A} e.

Definition is_Ok {A} (r : result A) : bool :=
  match r with Ok _ => true | Err _ => false end.

(** The part of the Go runtime and standard library the adapters call
    and whose definition is outside the repository: Unicode-aware
    string functions, [fmt]'s [%q], values of dynamic type [any],
    [encoding/json], the process environment and the growth policy of
    [append]. *)
Class GoRuntime := {
  TrimSpace : string -> string;           (* strings.TrimSpace *)
  ToLower : string -> string;             (* strings.ToLower *)
  Quote : string -> string;               (* the %q verb *)
  Getenv : string -> string;              (* os.Getenv *)
  any : Type;                             (* non-nil values of type any *)
  float64 : Type;
  asString : any -> option string;        (* v.(string) *)
  asRawMessage : any -> option string;    (* v.(json.RawMessage) *)
  anyString : string -> any;
  anyBool : bool -> any;
  anyMap : gmap string (option any) -> any;   (* a map[string]any *)
  jsonUnmarshal : string -> result (option any);  (* json.Unmarshal into an any *)
  jsonMarshal : option any -> result string;      (* json.Marshal *)
  jsonMarshalIndent : gmap string (option any) -> result string;
  slack : nat -> nat -> nat               (* spare capacity left by append when it reallocates *)
}.

(** [%d] *)
Definition Itoa (z : Z) : string := NilZero.string_of_int (Z.to_int z).

Definition RoleSystem : string := "system".
Definition RoleUser : string := "user".
Definition RoleAssistant : string := "assistant".
Definition RoleToolCall : string := "tool_call".
Definition RoleToolResult : string := "tool_result".

Definition StreamChunkContent : string := "content".
Definition StreamChunkReasoning : string := "reasoning".
Definition StreamChunkToolCall : string := "tool_call".
Definition StreamChunkToolResult : string := "tool_result".
Definition StreamChunkDone : string := "done".
Definition StreamChunkError : string := "error".

Section Types.
Context `{GoRuntime}.

Record DataSource := { ds_Data : string; ds_MimeType : string }.
Record URLSource := { us_URL : string; us_MimeType : string }.

(** The interface [Source]: a value or a pointer (possibly nil) of
    either struct, or the nil interface. *)
Inductive Source :=
| SourceData (s : DataSource)
| SourceDataPtr (s : option DataSource)
| SourceURL (s : URLSource)
| SourceURLPtr (s : option URLSource)
| SourceNil.

Record TextPart := { tp_Text : string }.
Record ImagePart := { ip_Source : Source; ip_Metadata : gmap string (option any) }.
Record AudioPart := { ap_Source : Source; ap_Metadata : gmap string (option any) }.
Record DocumentPart := { dp_Source : Source; dp_Metadata : gmap string (option any) }.

Inductive ContentPart :=
| PartText (p : TextPart)
| PartTextPtr (p : option TextPart)
| PartImage (p : ImagePart)
| PartImagePtr (p : option ImagePart)
| PartAudio (p : AudioPart)
| PartAudioPtr (p : option AudioPart)
| PartDocument (p : DocumentPart)
| PartDocumentPtr (p : option DocumentPart)
| PartNil.

Record ToolCall := {
  tc_ID : string;
  tc_Name : string;
  tc_Arguments : option any   (* None is the nil interface *)
}.

Record TextMessagePart := { tm_Role : string; tm_Content : string }.
Record ContentMessagePart := { cm_Role : string; cm_Parts : list ContentPart }.
Record ToolCallMessagePart := { tcm_Role : string; tcm_ToolCalls : list ToolCall }.
Record ToolResultMessagePart := {
  trm_Role : string;
  trm_ToolCallID : string;
  trm_Name : string;
  trm_Content : string
}.

(** The interface [MessageUnion]; [AssistantToolCallMessagePart] is an
    alias of [ToolCallMessagePart]. *)
Inductive MessageUnion :=
| MsgText (m : TextMessagePart)
| MsgTextPtr (m : option TextMessagePart)
| MsgContent (m : ContentMessagePart)
| MsgContentPtr (m : option ContentMessagePart)
| MsgToolCall (m : ToolCallMessagePart)
| MsgToolCallPtr (m : option ToolCallMessagePart)
| MsgToolResult (m : ToolResultMessagePart)
| MsgToolResultPtr (m : option ToolResultMessagePart)
| MsgNil.

(** [Handler func(fn any) (string, error)], taken to be a pure
    function of its argument. *)
Definition HandlerFunc := option any -> string * option error.

Record ServerTool := {
  st_Name : string;
  st_Description : string;
  st_Parameters : option (gmap string (option any));
  st_Handler : option HandlerFunc
}.

Record ClientTool := {
  ct_Name : string;
  ct_Description : string;
  ct_Parameters : option (gmap string (option any))
}.

Inductive ToolUnion :=
| ToolServer (t : ServerTool)
| ToolServerPtr (t : option ServerTool)
| ToolClient (t : ClientTool)
| ToolClientPtr (t : option ClientTool)
| ToolNil.

Record Usage := {
  u_PromptTokens : Z;
  u_CompletionTokens : Z;
  u_TotalTokens : Z;
  u_ReasoningTokens : Z;
  u_Details : option (gmap string Z)
}.

Record StreamChunk := {
  sc_Type : string;
  sc_Role : string;
  sc_Delta : string;
  sc_Content : string;
  sc_Reasoning : string;
  sc_ToolCall : option ToolCall;
  sc_ToolCallID : string;
  sc_FinishReason : string;
  sc_Usage : option Usage;
  sc_Error : string
}.

(** The zero value of [StreamChunk], which composite literals fill in. *)
Definition chunk0 : StreamChunk :=
  {| sc_Type := ""; sc_Role := ""; sc_Delta := ""; sc_Content := "";
     sc_Reasoning := ""; sc_ToolCall := None; sc_ToolCallID := "";
     sc_FinishReason := ""; sc_Usage := None; sc_Error := "" |}.

Record Schema := {
  sch_Name : string;
  sch_Strict : bool;
  sch_Schema : option (gmap string (option any))
}.

(** *** Slices of [MessageUnion]

    A slice is a window on a backing array that lives in the store;
    the nil slice has no array. *)
Local Abbreviation loc := positive (only parsing).
Local Abbreviation store := (gmap positive (list MessageUnion)) (only parsing).

Record slice := {
  sl_array : option loc;
  sl_off : nat;
  sl_len : nat;
  sl_cap : nat
}.

Definition nil_slice : slice :=
  {| sl_array := None; sl_off := 0; sl_len := 0; sl_cap := 0 |}.

Definition array_of (h : store) (s : slice) : list MessageUnion :=
  match sl_array s with
  | Some l => default [] (h !! l)
  | None => []
  end.

(** The elements [s[0], ..., s[len(s)-1]]. *)
Definition elems (h : store) (s : slice) : list MessageUnion :=
  take (sl_len s) (drop (sl_off s) (array_of h s)).

(** [make([]MessageUnion, 0, n)] *)
Definition make_slice (h : store) (n : nat) : slice * store :=
  let l := fresh (dom h) in
  ({| sl_array := Some l; sl_off := 0; sl_len := 0; sl_cap := n |},
   <[l := replicate n MsgNil]> h).

(** [append(s, xs...)]: in place when the capacity suffices, in a new
    array otherwise. *)
Definition append_slice (h : store) (s : slice) (xs : list MessageUnion)
  : slice * store :=
  match xs with
  | [] => (s, h)
  | _ =>
    let need := sl_len s + length xs in
    match sl_array s with
    | Some l =>
      if decide (need <= sl_cap s) then
        let arr := array_of h s in
        let at_ := sl_off s + sl_len s in
        ({| sl_array := Some l; sl_off := sl_off s;
            sl_len := need; sl_cap := sl_cap s |},
         <[l := take at_ arr ++ xs ++ drop (at_ + length xs) arr]> h)
      else
        let extra := slack (sl_cap s) need in
        let l' := fresh (dom h) in
        ({| sl_array := Some l'; sl_off := 0;
            sl_len := need; sl_cap := need + extra |},
         <[l' := elems h s ++ xs ++ replicate extra MsgNil]> h)
    | None =>
      let extra := slack 0 need in
      let l' := fresh (dom h) in
      ({| sl_array := Some l'; sl_off := 0;
          sl_len := need; sl_cap := need + extra |},
       <[l' := xs ++ replicate extra MsgNil]> h)
    end
  end.

Record ChatResult := {
  cr_Text : string;
  cr_Reasoning : string;
  cr_Messages : slice;
  cr_ToolCalls : list ToolCall;
  cr_FinishReason : string;
  cr_Usage : option Usage
}.

Record ChatParams := {
  cp_Tools : list ToolUnion;
  cp_Output : option Schema;
  cp_Messages : slice;
  cp_MaxOutputTokens : option Z;
  cp_Temperature : option float64;
  cp_Thinking : string;
  cp_ReasoningEffort : string;
  cp_MaxAgenticLoops : Z;    (* int32 *)
  cp_MaxLength : Z           (* int64 *)
}.

End Types.

(** Locations of backing arrays, and the store that maps each to the
    contents of its array. *)
Abbreviation loc := positive (only parsing).
Abbreviation store := (gmap positive (list MessageUnion)) (only parsing).

End Core.

Export Core.

Notation "'check' x <- e 'in' k" :=
  (match e with Ok x => k | Err err => Err err end)
  (at level 10, x pattern, e at level 100, k at level 200, only parsing).

(** ** The transport collaborator

    What lies behind [postChatCompletions], [postMessages] and [postChat],
    and behind the HTTP exchange that opens a stream, is an oracle with a
    state of its own. *)

Module Transport.

(** How opening a stream and reading its body went: the request could
    not be marshalled, built or sent, the status was 400 or more (with
    the message of [decodeAPIError]), or the scanner delivered [lines]
    and then stopped, at the end of the body or on [readErr]. *)
Inductive streamOpen :=
| OpenMarshalError (e : error)
| OpenBuildError (e : error)
| OpenRequestError (e : error)
| OpenAPIError (message : string)
| OpenBody (lines : list string) (readErr : option error).

Record backend (adapter request response : Type) := {
  world : Type;
  post : world -> adapter -> request -> result response * world;
  openStream : world -> adapter -> request -> streamOpen * world
}.
Arguments world {adapter request response} b.
Arguments post {adapter request response} b w a r.
Arguments openStream {adapter request response} b w a r.

(** What a call of [Chat] leaves behind: its result, the states of the
    backend and of the store, and the requests it sent, in order. *)
Record chatRun `{GoRuntime} (W request : Type) := {
  run_result : result ChatResult;
  run_world : W;
  run_store : store;
  run_sent : list request
}.
Arguments run_result {_ W request} c.
Arguments run_world {_ W request} c.
Arguments run_store {_ W request} c.
Arguments run_sent {_ W request} c.

(** What a call of [ChatStream] leaves behind: an error and no channel,
    or the chunks sent on the channel before it is closed, in order. *)
Record streamRun `{GoRuntime} (W : Type) := {
  sr_chunks : result (list StreamChunk);
  sr_world : W;
  sr_store : store
}.
Arguments sr_chunks {_ W} s.
Arguments sr_world {_ W} s.
Arguments sr_store {_ W} s.

End Transport.
Export Transport.

(** ** Helpers the three adapter packages define identically

    [openai], [claude] and [ollama] each carry their own copy of the
    functions below; the copies differ only in the package name that
    prefixes error messages, which is the parameter [pkg]. *)

Module Common.
Section Common.
Context `{GoRuntime}.

Definition defaultMaxAgenticLoops : Z := 8.

Definition appendReasoningPart (parts : list string) (reasoning : string)
  : list string :=
  let reasoning := TrimSpace reasoning in
  if String.eqb reasoning "" then parts
  else match last parts with
       | Some p => if String.eqb p reasoning then parts else parts ++ [reasoning]
       | None => parts ++ [reasoning]
       end.

Definition joinReasoningParts (parts : list string) : string :=
  match parts with
  | [] => ""
  | _ => TrimSpace (Join parts (String "010"%char ""))
  end.

Definition defaultFinishReason (result : option ChatResult) : string :=
  match result with
  | Some r => match cr_ToolCalls r with
              | [] => "stop"
              | _ :: _ => "tool_calls"
              end
  | None => "stop"
  end.

Definition nonEmpty (value fallback : string) : string :=
  let value := TrimSpace value in
  if String.eqb value "" then fallback else value.

Definition paramsOutput (params : option ChatParams) : option Schema :=
  match params with
  | None => None
  | Some p => cp_Output p
  end.

Definition temperature (params : option ChatParams) : option float64 :=
  match params with
  | None => None
  | Some p => cp_Temperature p
  end.

Definition maxLoops (params : option ChatParams) (hasServerTools : bool) : Z :=
  if negb hasServerTools then 1
  else match params with
       | Some p =>
           if (0 <? cp_MaxAgenticLoops p)%Z then cp_MaxAgenticLoops p
           else defaultMaxAgenticLoops
       | None => defaultMaxAgenticLoops
       end.

Definition cloneCoreMessages (h : store) (params : option ChatParams)
  : slice * store :=
  match params with
  | None => (nil_slice, h)
  | Some p =>
      if Nat.eqb (sl_len (cp_Messages p)) 0 then (nil_slice, h)
      else
        let '(out, h1) := make_slice h (sl_len (cp_Messages p) + 8) in
        append_slice h1 out (elems h1 (cp_Messages p))
  end.

(** The chunks one message of the result contributes. *)
Definition chunksOfMessage (message : MessageUnion) : list StreamChunk :=
  let content (m : TextMessagePart) :=
    if String.eqb (tm_Role m) RoleAssistant then
      [ {| sc_Type := StreamChunkContent; sc_Role := RoleAssistant;
           sc_Delta := tm_Content m; sc_Content := tm_Content m;
           sc_Reasoning := ""; sc_ToolCall := None; sc_ToolCallID := "";
           sc_FinishReason := ""; sc_Usage := None; sc_Error := "" |} ]
    else [] in
  let calls (m : ToolCallMessagePart) :=
    map (fun c =>
           {| sc_Type := StreamChunkToolCall; sc_Role := "";
              sc_Delta := ""; sc_Content := "";
              sc_Reasoning := ""; sc_ToolCall := Some c; sc_ToolCallID := "";
              sc_FinishReason := ""; sc_Usage := None; sc_Error := "" |})
        (tcm_ToolCalls m) in
  let result (m : ToolResultMessagePart) :=
    [ {| sc_Type := StreamChunkToolResult; sc_Role := "";
         sc_Delta := ""; sc_Content := trm_Content m;
         sc_Reasoning := ""; sc_ToolCall := None;
         sc_ToolCallID := trm_ToolCallID m;
         sc_FinishReason := ""; sc_Usage := None; sc_Error := "" |} ] in
  match message with
  | MsgText m => content m
  | MsgTextPtr (Some m) => content m
  | MsgToolCall m => calls m
  | MsgToolCallPtr (Some m) => calls m
  | MsgToolResult m => result m
  | MsgToolResultPtr (Some m) => result m
  | _ => []
  end.

(** [emitChunksFromResult(out, params, result)]: the chunks sent on
    [out], in order. *)
Definition emitChunksFromResult (h : store) (params : option ChatParams)
    (result : option ChatResult) : list StreamChunk :=
  match result with
  | None => []
  | Some result =>
      let reasoningChunk :=
        if negb (String.eqb (TrimSpace (cr_Reasoning result)) "") then
          let reasoning := TrimSpace (cr_Reasoning result) in
          [ {| sc_Type := StreamChunkReasoning; sc_Role := RoleAssistant;
               sc_Delta := reasoning; sc_Content := "";
               sc_Reasoning := reasoning; sc_ToolCall := None;
               sc_ToolCallID := ""; sc_FinishReason := "";
               sc_Usage := None; sc_Error := "" |} ]
        else [] in
      let start := match params with
                   | Some p => sl_len (cp_Messages p)
                   | None => 0
                   end in
      let start :=
        if Nat.ltb (sl_len (cr_Messages result)) start then 0 else start in
      reasoningChunk
      ++ concat (map chunksOfMessage (drop start (elems h (cr_Messages result))))
  end.

(** [int64] addition. *)
Definition add64 (x y : Z) : Z :=
  ((x + y + 2 ^ 63) mod 2 ^ 64 - 2 ^ 63)%Z.

(** The closure [addDetail] of the usage conversions, as a function of
    the map it updates. *)
Definition addDetail (key : string) (value : Z) (details : option (gmap string Z))
  : option (gmap string Z) :=
  if (value <=? 0)%Z then details
  else Some (<[key := value]> (default ∅ details)).

Definition errorChunk (message : string) : StreamChunk :=
  {| sc_Type := StreamChunkError; sc_Role := ""; sc_Delta := "";
     sc_Content := ""; sc_Reasoning := ""; sc_ToolCall := None;
     sc_ToolCallID := ""; sc_FinishReason := ""; sc_Usage := None;
     sc_Error := message |}.

Definition doneChunk (finishReason reasoning : string) (usage : option Usage)
  : StreamChunk :=
  {| sc_Type := StreamChunkDone; sc_Role := ""; sc_Delta := "";
     sc_Content := ""; sc_Reasoning := reasoning; sc_ToolCall := None;
     sc_ToolCallID := ""; sc_FinishReason := finishReason; sc_Usage := usage;
     sc_Error := "" |}.

Definition reasoningChunk (delta reasoning : string) : StreamChunk :=
  {| sc_Type := StreamChunkReasoning; sc_Role := RoleAssistant;
     sc_Delta := delta; sc_Content := ""; sc_Reasoning := reasoning;
     sc_ToolCall := None; sc_ToolCallID := ""; sc_FinishReason := "";
     sc_Usage := None; sc_Error := "" |}.

Definition contentChunk (delta content : string) : StreamChunk :=
  {| sc_Type := StreamChunkContent; sc_Role := RoleAssistant;
     sc_Delta := delta; sc_Content := content; sc_Reasoning := "";
     sc_ToolCall := None; sc_ToolCallID := ""; sc_FinishReason := "";
     sc_Usage := None; sc_Error := "" |}.

(** The replay branch of [ChatStream], once [Chat] has returned. *)
Definition replayChunks (h : store) (params : option ChatParams)
    (r : result ChatResult) : list StreamChunk :=
  match r with
  | Err err => [errorChunk err]
  | Ok result =>
      emitChunksFromResult h params (Some result)
      ++ [doneChunk (nonEmpty (cr_FinishReason result)
                       (defaultFinishReason (Some result)))
                    (cr_Reasoning result) (cr_Usage result)]
  end.

(** The condition [len(serverTools) > 0 || len(clientTools) > 0 ||
    (params != nil && params.Output != nil)]. *)
Definition simulated (serverTools : gmap string ServerTool)
    (clientTools : gset string) (params : option ChatParams) : bool :=
  negb (Nat.eqb (size serverTools) 0) || negb (Nat.eqb (size clientTools) 0)
  || match paramsOutput params with Some _ => true | None => false end.

(** *** Tool registration *)

Record toolDefinition := {
  td_Name : string;
  td_Description : string;
  td_Parameters : gmap string (option any)
}.

Definition newToolDefinition (name description : string)
    (parameters : option (gmap string (option any))) : toolDefinition :=
  let parameters :=
    match parameters with
    | Some p => p
    | None =>
        <["type" := Some (anyString "object")]>
        (<["properties" := Some (anyMap ∅)]>
        (<["additionalProperties" := Some (anyBool false)]> ∅))
    end in
  {| td_Name := name; td_Description := description;
     td_Parameters := parameters |}.

Definition newServerTool (toolValue : ServerTool)
  : result (toolDefinition * ServerTool) :=
  let name := TrimSpace (st_Name toolValue) in
  if String.eqb name "" then Err "tool name is required"
  else match st_Handler toolValue with
       | None => Err ("tool " +:+ Quote name +:+ " handler is required")
       | Some _ =>
           Ok (newToolDefinition name (st_Description toolValue)
                 (st_Parameters toolValue),
               {| st_Name := name;
                  st_Description := st_Description toolValue;
                  st_Parameters := st_Parameters toolValue;
                  st_Handler := st_Handler toolValue |})
       end.

Definition newClientTool (toolValue : ClientTool) : result toolDefinition :=
  let name := TrimSpace (ct_Name toolValue) in
  if String.eqb name "" then Err "tool name is required"
  else Ok (newToolDefinition name (ct_Description toolValue)
             (ct_Parameters toolValue)).

(** [assertNewToolName(seen, name)], returning the updated set. *)
Definition assertNewToolName (pkg : string) (seen : gset string) (name : string)
  : result (gset string) :=
  if decide (name ∈ seen) then
    Err (pkg +:+ ": duplicate tool name " +:+ Quote name)
  else Ok ({[name]} ∪ seen).

Record toolTables := {
  tt_tools : list toolDefinition;
  tt_serverTools : gmap string ServerTool;
  tt_clientTools : gset string;
  tt_seenNames : gset string
}.

Definition registerServer (pkg : string) (i : nat) (toolValue : ServerTool)
    (acc : toolTables) : result toolTables :=
  match newServerTool toolValue with
  | Err err =>
      Err (pkg +:+ ": invalid server tool at index " +:+ Itoa (Z.of_nat i)
           +:+ ": " +:+ err)
  | Ok (definition, serverTool) =>
      check seen <- assertNewToolName pkg (tt_seenNames acc) (st_Name serverTool) in
      Ok {| tt_tools := tt_tools acc ++ [definition];
            tt_serverTools := <[st_Name serverTool := serverTool]> (tt_serverTools acc);
            tt_clientTools := tt_clientTools acc;
            tt_seenNames := seen |}
  end.

Definition registerClient (pkg : string) (i : nat) (toolValue : ClientTool)
    (acc : toolTables) : result toolTables :=
  match newClientTool toolValue with
  | Err err =>
      Err (pkg +:+ ": invalid client tool at index " +:+ Itoa (Z.of_nat i)
           +:+ ": " +:+ err)
  | Ok definition =>
      check seen <- assertNewToolName pkg (tt_seenNames acc) (td_Name definition) in
      Ok {| tt_tools := tt_tools acc ++ [definition];
            tt_serverTools := tt_serverTools acc;
            tt_clientTools := {[td_Name definition]} ∪ tt_clientTools acc;
            tt_seenNames := seen |}
  end.

(** The body of the loop [for i, union := range params.Tools]. *)
Fixpoint toTools_loop (pkg : string) (i : nat) (tools : list ToolUnion)
    (acc : toolTables) : result toolTables :=
  match tools with
  | [] => Ok acc
  | union :: rest =>
      check acc' <-
        match union with
        | ToolServer t => registerServer pkg i t acc
        | ToolServerPtr None =>
            Err (pkg +:+ ": server tool at index " +:+ Itoa (Z.of_nat i) +:+ " is nil")
        | ToolServerPtr (Some t) => registerServer pkg i t acc
        | ToolClient t => registerClient pkg i t acc
        | ToolClientPtr None =>
            Err (pkg +:+ ": client tool at index " +:+ Itoa (Z.of_nat i) +:+ " is nil")
        | ToolClientPtr (Some t) => registerClient pkg i t acc
        | ToolNil => Err (pkg +:+ ": unsupported tool type <nil>")
        end in
      toTools_loop pkg (S i) rest acc'
  end.

(** [toTools(params)] ([toChatTools] in package openai): the wire
    definitions, the server tools by name and the set of client tool
    names. *)
Definition toTools (pkg : string) (params : option ChatParams)
  : result (list toolDefinition * gmap string ServerTool * gset string) :=
  let empty := {| tt_tools := []; tt_serverTools := ∅;
                  tt_clientTools := ∅; tt_seenNames := ∅ |} in
  match params with
  | None => Ok ([], ∅, ∅)
  | Some p =>
      match cp_Tools p with
      | [] => Ok ([], ∅, ∅)
      | tools =>
          check acc <- toTools_loop pkg 0 tools empty in
          Ok (tt_tools acc, tt_serverTools acc, tt_clientTools acc)
      end
  end.

End Common.
End Common.

Export Common.

(** ** Package openai *)

Module OpenAI.
Section OpenAI.
Context `{GoRuntime}.

Definition pkg : string := "openai".
Definition defaultBaseURL : string := "https://api.openai.com/v1".

Record Adapter := { APIKey : string; Model : string; BaseURL : string }.

(** *** Wire types (types.go) *)

Record chatToolCallFunction := { tcf_Name : string; tcf_Arguments : string }.
Record chatToolCall := {
  ctc_ID : string;
  ctc_Type : string;
  ctc_Function : chatToolCallFunction
}.

Record chatImageURL := { iu_URL : string; iu_Detail : string }.
Record chatInputAudio := { ia_Data : string; ia_Format : string }.
Record chatContentPart := {
  ccp_Type : string;
  ccp_Text : string;
  ccp_ImageURL : option chatImageURL;
  ccp_InputAudio : option chatInputAudio
}.

(** The field [Content any] of a chat message holds nothing, a string
    or a slice of content parts. *)
Inductive chatContent :=
| ContentNil
| ContentString (s : string)
| ContentParts (parts : list chatContentPart).

Record chatMessage := {
  msg_Role : string;
  msg_Content : chatContent;
  msg_ToolCallID : string;
  msg_ToolCalls : list chatToolCall
}.

Record chatCompletionRequest := {
  req_Model : string;
  req_Messages : list chatMessage;
  req_Tools : list toolDefinition;
  req_ToolChoice : string;
  req_ResponseFormat : option Schema;
  req_MaxCompletionTokens : option Z;
  req_Temperature : option float64;
  req_ReasoningEffort : string;
  req_Stream : bool
}.

Record promptTokensDetails := { ptd_CachedTokens : Z; ptd_AudioTokens : Z }.
Record completionTokensDetail := {
  ctd_ReasoningTokens : Z;
  ctd_AudioTokens : Z;
  ctd_AcceptedPredictionTokens : Z;
  ctd_RejectedPredictionTokens : Z
}.
Record usage := {
  us_PromptTokens : Z;
  us_CompletionTokens : Z;
  us_TotalTokens : Z;
  us_PromptTokensDetails : option promptTokensDetails;
  us_CompletionTokensDetails : option completionTokensDetail
}.

Record chatResponseMessage := {
  rm_Content : string;               (* json.RawMessage *)
  rm_ToolCalls : list chatToolCall;
  rm_ReasoningContent : string;
  rm_Refusal : string
}.
Record chatChoice := {
  ch_Message : chatResponseMessage;
  ch_Text : string;
  ch_DeltaText : string;
  ch_Reasoning : string;
  ch_FinishReason : string
}.
Record chatCompletionResponse := {
  resp_Choices : list chatChoice;
  resp_Usage : option usage;
  resp_RawChoices : list string
}.

Record streamDelta := {
  sd_Content : string;               (* json.RawMessage *)
  sd_Text : string;
  sd_ReasoningContent : string;
  sd_Refusal : string
}.
Record streamChoice := {
  sch_Delta : streamDelta;
  sch_Text : string;
  sch_Reasoning : string;
  sch_FinishReason : string
}.
Record streamEvent := {
  ev_Choices : list streamChoice;
  ev_Usage : option usage
}.

(** *** JSON decoding taken as given

    The decoders of raw JSON payloads are parameters: the typed decode
    of a stream event, [parseAssistantContent], and the two defensive
    extractors applied to a raw payload ([json.Unmarshal] followed by
    [extractTextFromAny] or [extractReasoningFromAny]). *)
Class Decoders := {
  unmarshalStreamEvent : string -> result streamEvent;
  unmarshalRawChoices : string -> list string;
  parseAssistantContent : string -> result string;
  extractTextFromRaw : string -> result string;
  extractReasoningFromRaw : string -> result string
}.
Context `{Decoders}.

(** *** adapter.go *)

Definition validate (a : option Adapter) : result Adapter :=
  match a with
  | None => Err "openai: adapter is nil"
  | Some a =>
      let a :=
        if String.eqb (TrimSpace (APIKey a)) "" then
          {| APIKey := TrimSpace (Getenv "OPENAI_API_KEY");
             Model := Model a; BaseURL := BaseURL a |}
        else a in
      if String.eqb (TrimSpace (APIKey a)) "" then
        Err "openai: API key is required (set OPENAI_API_KEY or use openai.WithAPIKey)"
      else if String.eqb (TrimSpace (Model a)) "" then
        Err "openai: model is required"
      else Ok a
  end.

(** *** convert.go: messages *)

Definition newTextChatMessage (role content : string) : result chatMessage :=
  let role := TrimSpace role in
  if String.eqb role "" then Err "text message role is required"
  else Ok {| msg_Role := role; msg_Content := ContentString content;
             msg_ToolCallID := ""; msg_ToolCalls := [] |}.

Definition urlFromURLSource (source : URLSource) : result string :=
  let url := TrimSpace (us_URL source) in
  if String.eqb url "" then Err "image URL is required" else Ok url.

Definition dataURLFromDataSource (source : DataSource) : result string :=
  let data := TrimSpace (ds_Data source) in
  if String.eqb data "" then Err "image data is required"
  else if HasPrefix data "data:" then Err "image data must be raw base64"
  else
    let mimeType := TrimSpace (ds_MimeType source) in
    if String.eqb mimeType "" then Err "image mime type is required"
    else Ok ("data:" +:+ mimeType +:+ ";base64," +:+ data).

Definition imageURLFromSource (source : Source) : result string :=
  match source with
  | SourceURL s => urlFromURLSource s
  | SourceURLPtr None => Err "image URL source is nil"
  | SourceURLPtr (Some s) => urlFromURLSource s
  | SourceData s => dataURLFromDataSource s
  | SourceDataPtr None => Err "image data source is nil"
  | SourceDataPtr (Some s) => dataURLFromDataSource s
  | SourceNil => Err "unsupported image source type <nil>"
  end.

Definition imageDetail (metadata : gmap string (option any)) : string :=
  match metadata !! "detail" with
  | Some (Some value) =>
      match asString value with
      | Some detail => TrimSpace detail
      | None => ""
      end
  | _ => ""
  end.

Definition imageContentPart (source : Source)
    (metadata : gmap string (option any)) : result chatContentPart :=
  match source with
  | SourceNil => Err "image source is required"
  | _ =>
      check url <- imageURLFromSource source in
      Ok {| ccp_Type := "image_url"; ccp_Text := "";
            ccp_ImageURL := Some {| iu_URL := url; iu_Detail := imageDetail metadata |};
            ccp_InputAudio := None |}
  end.

Definition audioFormatFromMime (mimeType : string) : string :=
  let m := ToLower (TrimSpace mimeType) in
  if String.eqb m "audio/mp3" || String.eqb m "audio/mpeg" then "mp3"
  else if String.eqb m "audio/wav" || String.eqb m "audio/wave"
          || String.eqb m "audio/x-wav" then "wav"
  else if String.eqb m "audio/flac" then "flac"
  else if String.eqb m "audio/ogg" then "ogg"
  else if String.eqb m "audio/webm" then "webm"
  else "".

Definition audioPayloadFromDataSource (source : DataSource)
  : result (string * string) :=
  let data := TrimSpace (ds_Data source) in
  if String.eqb data "" then Err "audio data is required"
  else
    let mimeType := TrimSpace (ds_MimeType source) in
    if String.eqb mimeType "" then Err "audio mime type is required"
    else
      let format := audioFormatFromMime mimeType in
      if String.eqb format "" then
        Err ("unsupported audio mime type " +:+ Quote mimeType)
      else Ok (data, format).

Definition audioPayloadFromSource (source : Source) : result (string * string) :=
  match source with
  | SourceData s => audioPayloadFromDataSource s
  | SourceDataPtr None => Err "audio data source is nil"
  | SourceDataPtr (Some s) => audioPayloadFromDataSource s
  | SourceURL _ =>
      Err "unsupported audio source type core.URLSource (only DataSource is supported)"
  | SourceURLPtr _ =>
      Err "unsupported audio source type *core.URLSource (only DataSource is supported)"
  | SourceNil =>
      Err "unsupported audio source type <nil> (only DataSource is supported)"
  end.

Definition audioContentPart (source : Source) : result chatContentPart :=
  match source with
  | SourceNil => Err "audio source is required"
  | _ =>
      check p <- audioPayloadFromSource source in
      Ok {| ccp_Type := "input_audio"; ccp_Text := ""; ccp_ImageURL := None;
            ccp_InputAudio := Some {| ia_Data := fst p; ia_Format := snd p |} |}
  end.

Definition documentContentPart (source : Source) : result chatContentPart :=
  match source with
  | SourceNil => Err "document source is required"
  | _ => Err "openai: document content is not supported"
  end.

Definition textContentPart (p : TextPart) : chatContentPart :=
  {| ccp_Type := "text"; ccp_Text := tp_Text p; ccp_ImageURL := None;
     ccp_InputAudio := None |}.

Definition toChatContentPart (part : ContentPart) : result chatContentPart :=
  match part with
  | PartText p => Ok (textContentPart p)
  | PartTextPtr None => Err "text part is nil"
  | PartTextPtr (Some p) => Ok (textContentPart p)
  | PartImage p => imageContentPart (ip_Source p) (ip_Metadata p)
  | PartImagePtr None => Err "image part is nil"
  | PartImagePtr (Some p) => imageContentPart (ip_Source p) (ip_Metadata p)
  | PartAudio p => audioContentPart (ap_Source p)
  | PartAudioPtr None => Err "audio part is nil"
  | PartAudioPtr (Some p) => audioContentPart (ap_Source p)
  | PartDocument p => documentContentPart (dp_Source p)
  | PartDocumentPtr None => Err "document part is nil"
  | PartDocumentPtr (Some p) => documentContentPart (dp_Source p)
  | PartNil => Err "unsupported content part type <nil>"
  end.

Fixpoint toChatContentParts_loop (i : nat) (parts : list ContentPart)
  : result (list chatContentPart) :=
  match parts with
  | [] => Ok []
  | part :: rest =>
      match toChatContentPart part with
      | Err err =>
          Err ("content part at index " +:+ Itoa (Z.of_nat i) +:+ ": " +:+ err)
      | Ok contentPart =>
          check out <- toChatContentParts_loop (S i) rest in
          Ok (contentPart :: out)
      end
  end.

Definition toChatContentParts (parts : list ContentPart)
  : result (list chatContentPart) :=
  match parts with
  | [] => Err "content message must include at least one content part"
  | _ => toChatContentParts_loop 0 parts
  end.

Definition newContentChatMessage (role : string) (parts : list ContentPart)
  : result chatMessage :=
  let role := TrimSpace role in
  if String.eqb role "" then Err "content message role is required"
  else
    check contentParts <- toChatContentParts parts in
    Ok {| msg_Role := role; msg_Content := ContentParts contentParts;
          msg_ToolCallID := ""; msg_ToolCalls := [] |}.

Definition stringifyToolArguments (arguments : option any) : result string :=
  match arguments with
  | None => Ok "{}"
  | Some v =>
      let text :=
        match asString v with
        | Some s => Some s
        | None => asRawMessage v
        end in
      match text with
      | Some s =>
          let trimmed := TrimSpace s in
          if String.eqb trimmed "" then Ok "{}"
          else if is_Ok (jsonUnmarshal trimmed) then Ok trimmed
          else jsonMarshal arguments
      | None => jsonMarshal arguments
      end
  end.

Fixpoint toChatToolCalls_loop (i : nat) (calls : list ToolCall)
  : result (list chatToolCall) :=
  match calls with
  | [] => Ok []
  | call :: rest =>
      let name := TrimSpace (tc_Name call) in
      if String.eqb name "" then
        Err ("tool call at index " +:+ Itoa (Z.of_nat i) +:+ " is missing a name")
      else
        let id := TrimSpace (tc_ID call) in
        let id := if String.eqb id "" then "call_" +:+ Itoa (Z.of_nat i + 1) else id in
        match stringifyToolArguments (tc_Arguments call) with
        | Err err => Err ("tool call " +:+ Quote name +:+ " arguments: " +:+ err)
        | Ok arguments =>
            check out <- toChatToolCalls_loop (S i) rest in
            Ok ({| ctc_ID := id; ctc_Type := "function";
                   ctc_Function := {| tcf_Name := name; tcf_Arguments := arguments |} |}
                :: out)
        end
  end.

Definition toChatToolCalls (calls : list ToolCall) : result (list chatToolCall) :=
  match calls with
  | [] => Err "assistant tool call message must include at least one tool call"
  | _ => toChatToolCalls_loop 0 calls
  end.

Definition newAssistantToolCallChatMessage (role : string)
    (toolCalls : list ToolCall) : result chatMessage :=
  let role := ToLower (TrimSpace role) in
  let role := if String.eqb role "" then RoleToolCall else role in
  if negb (String.eqb role RoleToolCall) && negb (String.eqb role RoleAssistant) then
    Err ("tool call message role must be " +:+ Quote RoleToolCall +:+ " or "
         +:+ Quote RoleAssistant +:+ ", got " +:+ Quote role)
  else
    check calls <- toChatToolCalls toolCalls in
    Ok {| msg_Role := RoleAssistant; msg_Content := ContentNil;
          msg_ToolCallID := ""; msg_ToolCalls := calls |}.

Definition newToolResultChatMessage (role toolCallID content : string)
  : result chatMessage :=
  let role := ToLower (TrimSpace role) in
  let role := if String.eqb role "" then RoleToolResult else role in
  if negb (String.eqb role RoleToolResult) && negb (String.eqb role "tool")
     && negb (String.eqb role RoleUser) then
    Err ("tool result message role must be " +:+ Quote RoleToolResult +:+ ", "
         +:+ Quote "tool" +:+ ", or " +:+ Quote RoleUser +:+ ", got " +:+ Quote role)
  else if String.eqb (TrimSpace toolCallID) "" then
    Err "tool result message tool call ID is required"
  else
    Ok {| msg_Role := "tool"; msg_Content := ContentString content;
          msg_ToolCallID := TrimSpace toolCallID; msg_ToolCalls := [] |}.

Definition toChatMessage (union : MessageUnion) : result chatMessage :=
  match union with
  | MsgText m => newTextChatMessage (tm_Role m) (tm_Content m)
  | MsgTextPtr None => Err "text message is nil"
  | MsgTextPtr (Some m) => newTextChatMessage (tm_Role m) (tm_Content m)
  | MsgContent m => newContentChatMessage (cm_Role m) (cm_Parts m)
  | MsgContentPtr None => Err "content message is nil"
  | MsgContentPtr (Some m) => newContentChatMessage (cm_Role m) (cm_Parts m)
  | MsgToolCall m => newAssistantToolCallChatMessage (tcm_Role m) (tcm_ToolCalls m)
  | MsgToolCallPtr None => Err "assistant tool call message is nil"
  | MsgToolCallPtr (Some m) =>
      newAssistantToolCallChatMessage (tcm_Role m) (tcm_ToolCalls m)
  | MsgToolResult m =>
      newToolResultChatMessage (trm_Role m) (trm_ToolCallID m) (trm_Content m)
  | MsgToolResultPtr None => Err "tool result message is nil"
  | MsgToolResultPtr (Some m) =>
      newToolResultChatMessage (trm_Role m) (trm_ToolCallID m) (trm_Content m)
  | MsgNil => Err "unsupported message type <nil>"
  end.

Fixpoint toChatMessages_loop (i : nat) (messages : list MessageUnion)
  : result (list chatMessage) :=
  match messages with
  | [] => Ok []
  | union :: rest =>
      match toChatMessage union with
      | Err err =>
          Err ("openai: invalid message at index " +:+ Itoa (Z.of_nat i)
               +:+ ": " +:+ err)
      | Ok message =>
          check out <- toChatMessages_loop (S i) rest in
          Ok (message :: out)
      end
  end.

Definition toChatMessages (h : store) (params : option ChatParams)
  : result (list chatMessage) :=
  match params with
  | None => Err "openai: chat params are required"
  | Some p => toChatMessages_loop 0 (elems h (cp_Messages p))
  end.

(** *** parse.go *)

Definition parseToolArguments (raw : string) : result (option any) :=
  let raw := TrimSpace raw in
  if String.eqb raw "" then Ok (Some (anyMap ∅))
  else jsonUnmarshal raw.

Definition parseAssistantMessage (message : chatResponseMessage) : result string :=
  check text <- parseAssistantContent (rm_Content message) in
  if negb (String.eqb (TrimSpace text) "") then Ok text
  else if negb (String.eqb (TrimSpace (rm_Refusal message)) "") then
    Ok (rm_Refusal message)
  else Ok "".

Definition parseAssistantChoice (choice : chatChoice) : result string :=
  check text <- parseAssistantMessage (ch_Message choice) in
  if negb (String.eqb (TrimSpace text) "") then Ok text
  else if negb (String.eqb (TrimSpace (ch_Text choice)) "") then Ok (ch_Text choice)
  else if negb (String.eqb (TrimSpace (ch_DeltaText choice)) "") then
    Ok (ch_DeltaText choice)
  else Ok "".

Definition parseAssistantChoiceRaw (raw : string) : result string :=
  if Nat.eqb (String.length raw) 0 then Ok "" else extractTextFromRaw raw.

Definition parseAssistantMessageReasoning (message : chatResponseMessage) : string :=
  if negb (String.eqb (TrimSpace (rm_ReasoningContent message)) "") then
    TrimSpace (rm_ReasoningContent message)
  else if Nat.eqb (String.length (rm_Content message)) 0 then ""
  else match extractReasoningFromRaw (rm_Content message) with
       | Ok r => r
       | Err _ => ""
       end.

Definition parseAssistantChoiceReasoning (choice : chatChoice) : string :=
  let reasoning := parseAssistantMessageReasoning (ch_Message choice) in
  if negb (String.eqb reasoning "") then reasoning
  else TrimSpace (ch_Reasoning choice).

Definition parseAssistantChoiceRawReasoning (raw : string) : result string :=
  if Nat.eqb (String.length raw) 0 then Ok "" else extractReasoningFromRaw raw.

Definition parseStreamDeltaText (delta : streamDelta) : result string :=
  check text <- parseAssistantContent (sd_Content delta) in
  if negb (String.eqb (TrimSpace text) "") then Ok text
  else if negb (String.eqb (TrimSpace (sd_Refusal delta)) "") then Ok (sd_Refusal delta)
  else if negb (String.eqb (TrimSpace (sd_Text delta)) "") then Ok (sd_Text delta)
  else Ok "".

Definition parseStreamChoiceText (choice : streamChoice) : result string :=
  check text <- parseStreamDeltaText (sch_Delta choice) in
  if negb (String.eqb (TrimSpace text) "") then Ok text
  else if negb (String.eqb (TrimSpace (sch_Text choice)) "") then Ok (sch_Text choice)
  else Ok "".

Definition parseStreamChoiceRaw (raw : string) : result string :=
  if Nat.eqb (String.length raw) 0 then Ok "" else extractTextFromRaw raw.

Definition parseStreamDeltaReasoning (delta : streamDelta) : string :=
  if negb (String.eqb (TrimSpace (sd_ReasoningContent delta)) "") then
    TrimSpace (sd_ReasoningContent delta)
  else if Nat.eqb (String.length (sd_Content delta)) 0 then ""
  else match extractReasoningFromRaw (sd_Content delta) with
       | Ok r => r
       | Err _ => ""
       end.

Definition parseStreamChoiceReasoning (choice : streamChoice) : string :=
  let reasoning := parseStreamDeltaReasoning (sch_Delta choice) in
  if negb (String.eqb reasoning "") then reasoning
  else TrimSpace (sch_Reasoning choice).

Definition parseStreamChoiceRawReasoning (raw : string) : result string :=
  if Nat.eqb (String.length raw) 0 then Ok "" else extractReasoningFromRaw raw.

(** *** convert.go: tool calls, tools and request options *)

Fixpoint toCoreToolCalls (calls : list chatToolCall) : result (list ToolCall) :=
  match calls with
  | [] => Ok []
  | call :: rest =>
      match parseToolArguments (tcf_Arguments (ctc_Function call)) with
      | Err err =>
          Err ("openai: invalid arguments for tool "
               +:+ Quote (tcf_Name (ctc_Function call)) +:+ ": " +:+ err)
      | Ok arguments =>
          check out <- toCoreToolCalls rest in
          Ok ({| tc_ID := ctc_ID call;
                 tc_Name := tcf_Name (ctc_Function call);
                 tc_Arguments := arguments |} :: out)
      end
  end.

Definition toChatTools := toTools pkg.

Definition maxTokens (params : option ChatParams) : option Z :=
  match params with
  | None => None
  | Some p =>
      match cp_MaxOutputTokens p with
      | Some v => Some v
      | None => if (0 <? cp_MaxLength p)%Z then Some (cp_MaxLength p) else None
      end
  end.

Definition reasoningEffort (params : option ChatParams) : string :=
  match params with
  | None => ""
  | Some p => TrimSpace (cp_ReasoningEffort p)
  end.

(** *** chat.go *)

Definition toCoreUsage (in_ : option usage) : option Usage :=
  match in_ with
  | None => None
  | Some u =>
      let reasoningTokens :=
        match us_CompletionTokensDetails u with
        | Some d => ctd_ReasoningTokens d
        | None => 0%Z
        end in
      let details :=
        match us_CompletionTokensDetails u with
        | Some d =>
            addDetail "rejected_prediction_tokens" (ctd_RejectedPredictionTokens d)
              (addDetail "accepted_prediction_tokens" (ctd_AcceptedPredictionTokens d)
                 (addDetail "completion_audio_tokens" (ctd_AudioTokens d) None))
        | None => None
        end in
      let details :=
        match us_PromptTokensDetails u with
        | Some d =>
            addDetail "prompt_audio_tokens" (ptd_AudioTokens d)
              (addDetail "cached_prompt_tokens" (ptd_CachedTokens d) details)
        | None => details
        end in
      Some {| u_PromptTokens := us_PromptTokens u;
              u_CompletionTokens := us_CompletionTokens u;
              u_TotalTokens := us_TotalTokens u;
              u_ReasoningTokens := reasoningTokens;
              u_Details := details |}
  end.

Definition buildRequestTemplate (a : Adapter) (h : store) (params : option ChatParams)
  : result (chatCompletionRequest * list chatMessage
            * gmap string ServerTool * gset string * Z) :=
  check messages <- toChatMessages h params in
  check t <- toChatTools params in
  let '(tools, serverTools, clientTools) := t in
  let request :=
    {| req_Model := Model a;
       req_Messages := [];
       req_Tools := tools;
       req_ToolChoice := match tools with [] => "" | _ => "auto" end;
       req_ResponseFormat := paramsOutput params;
       req_MaxCompletionTokens := maxTokens params;
       req_Temperature := temperature params;
       req_ReasoningEffort := reasoningEffort params;
       req_Stream := false |} in
  Ok (request, messages, serverTools, clientTools,
      maxLoops params (negb (Nat.eqb (size serverTools) 0))).

Definition withMessages (request : chatCompletionRequest)
    (messages : list chatMessage) (stream : bool) : chatCompletionRequest :=
  {| req_Model := req_Model request;
     req_Messages := messages;
     req_Tools := req_Tools request;
     req_ToolChoice := req_ToolChoice request;
     req_ResponseFormat := req_ResponseFormat request;
     req_MaxCompletionTokens := req_MaxCompletionTokens request;
     req_Temperature := req_Temperature request;
     req_ReasoningEffort := req_ReasoningEffort request;
     req_Stream := stream |}.

Variable B : backend Adapter chatCompletionRequest chatCompletionResponse.

(** The variables the loop over the tool calls of one assistant turn
    updates. *)
Record dispatchState := {
  d_messages : list chatMessage;
  d_conversation : slice;
  d_store : store;
  d_pending : list ToolCall
}.

(** [for idx, call := range assistant.ToolCalls { ... }]: the error
    [Chat] returns from inside the loop, if any, and the variables as
    the loop leaves them. *)
Fixpoint dispatch (serverTools : gmap string ServerTool) (clientTools : gset string)
    (coreCalls : list ToolCall) (idx : nat) (calls : list chatToolCall)
    (d : dispatchState) : option error * dispatchState :=
  match calls with
  | [] => (None, d)
  | call :: rest =>
      let name := tcf_Name (ctc_Function call) in
      match serverTools !! name with
      | Some serverTool =>
          match coreCalls !! idx, st_Handler serverTool with
          | Some coreCall, Some handler =>
              let '(result, callErr) := handler (tc_Arguments coreCall) in
              let result :=
                match callErr with
                | Some e => "tool_error: " +:+ e
                | None => result
                end in
              let '(conversation, h) :=
                append_slice (d_store d) (d_conversation d)
                  [MsgToolResult {| trm_Role := RoleToolResult;
                                    trm_ToolCallID := ctc_ID call;
                                    trm_Name := name;
                                    trm_Content := result |}] in
              dispatch serverTools clientTools coreCalls (S idx) rest
                {| d_messages :=
                     d_messages d
                     ++ [{| msg_Role := "tool"; msg_Content := ContentString result;
                            msg_ToolCallID := ctc_ID call; msg_ToolCalls := [] |}];
                   d_conversation := conversation;
                   d_store := h;
                   d_pending := d_pending d |}
          | None, _ => (Some "runtime error: index out of range", d)
          | _, None =>
              (Some "runtime error: invalid memory address or nil pointer dereference", d)
          end
      | None =>
          if decide (name ∈ clientTools) then
            match coreCalls !! idx with
            | Some coreCall =>
                dispatch serverTools clientTools coreCalls (S idx) rest
                  {| d_messages := d_messages d;
                     d_conversation := d_conversation d;
                     d_store := d_store d;
                     d_pending := d_pending d ++ [coreCall] |}
            | None => (Some "runtime error: index out of range", d)
            end
          else
            (Some ("openai: tool " +:+ Quote name
                   +:+ " was requested but not registered"), d)
      end
  end.

Record loopState := {
  ls_world : world B;
  ls_store : store;
  ls_messages : list chatMessage;
  ls_conversation : slice;
  ls_reasoningParts : list string;
  ls_sent : list chatCompletionRequest
}.

Definition finish (w : world B) (h : store)
    (sent : list chatCompletionRequest) (r : result ChatResult)
  : chatRun (world B) chatCompletionRequest :=
  {| run_result := r; run_world := w; run_store := h; run_sent := sent |}.

(** The reasoning of the first choice: what the typed decoding found
    or, when that is empty and the raw choices were kept, what the raw
    choice holds. *)
Definition choiceReasoning (response : chatCompletionResponse)
    (choice : chatChoice) : result string :=
  let reasoning := parseAssistantChoiceReasoning choice in
  match resp_RawChoices response with
  | raw0 :: _ =>
      if String.eqb reasoning "" then
        match parseAssistantChoiceRawReasoning raw0 with
        | Ok rawReasoning => Ok rawReasoning
        | Err rawErr =>
            Err ("openai: decode raw choice reasoning: " +:+ rawErr)
        end
      else Ok reasoning
  | [] => Ok reasoning
  end.

Section Loop.
Variables (a : Adapter) (requestTemplate : chatCompletionRequest)
          (serverTools : gmap string ServerTool) (clientTools : gset string)
          (maxLoopCount : Z).

(** [for range maxLoopCount { ... }] followed by the final error; [n]
    counts the iterations that remain. *)
Fixpoint chatLoop (n : nat) (st : loopState)
  : chatRun (world B) chatCompletionRequest :=
  match n with
  | O =>
      finish (ls_world st) (ls_store st) (ls_sent st)
        (Err ("openai: reached max tool loop count (" +:+ Itoa maxLoopCount +:+ ")"))
  | S n' =>
      let request := withMessages requestTemplate (ls_messages st) false in
      let '(posted, w) := post B (ls_world st) a request in
      let sent := ls_sent st ++ [request] in
      let fail e := finish w (ls_store st) sent (Err e) in
      match posted with
      | Err err => fail err
      | Ok response =>
        match resp_Choices response with
        | [] => fail "openai: empty response choices"
        | choice :: _ =>
          let assistant := ch_Message choice in
          match choiceReasoning response choice with
          | Err e => fail e
          | Ok reasoning =>
            let reasoningParts := appendReasoningPart (ls_reasoningParts st) reasoning in
            match rm_ToolCalls assistant with
            | [] =>
              match parseAssistantChoice choice with
              | Err err => fail err
              | Ok text =>
                let textR :=
                  match resp_RawChoices response with
                  | raw0 :: _ =>
                      if String.eqb (TrimSpace text) "" then
                        match parseAssistantChoiceRaw raw0 with
                        | Ok rawText => Ok rawText
                        | Err rawErr => Err ("openai: decode raw choice: " +:+ rawErr)
                        end
                      else Ok text
                  | [] => Ok text
                  end in
                match textR with
                | Err e => fail e
                | Ok text =>
                  let '(conversation, h1) :=
                    append_slice (ls_store st) (ls_conversation st)
                      [MsgText {| tm_Role := RoleAssistant; tm_Content := text |}] in
                  let '(messages, h2) :=
                    append_slice h1 nil_slice (elems h1 conversation) in
                  finish w h2 sent
                    (Ok {| cr_Text := text;
                           cr_Reasoning := joinReasoningParts reasoningParts;
                           cr_Messages := messages;
                           cr_ToolCalls := [];
                           cr_FinishReason := nonEmpty (ch_FinishReason choice) "stop";
                           cr_Usage := toCoreUsage (resp_Usage response) |})
                end
              end
            | toolCalls =>
              let messages :=
                ls_messages st
                ++ [{| msg_Role := "assistant"; msg_Content := ContentNil;
                       msg_ToolCallID := ""; msg_ToolCalls := toolCalls |}] in
              match toCoreToolCalls toolCalls with
              | Err err => fail err
              | Ok coreCalls =>
                let '(conversation, h1) :=
                  append_slice (ls_store st) (ls_conversation st)
                    [MsgToolCall {| tcm_Role := RoleToolCall;
                                    tcm_ToolCalls := coreCalls |}] in
                match dispatch serverTools clientTools coreCalls 0 toolCalls
                        {| d_messages := messages; d_conversation := conversation;
                           d_store := h1; d_pending := [] |} with
                | (Some err, d) => finish w (d_store d) sent (Err err)
                | (None, d) =>
                  match d_pending d with
                  | _ :: _ =>
                    let '(resultMessages, h2) :=
                      append_slice (d_store d) nil_slice
                        (elems (d_store d) (d_conversation d)) in
                    finish w h2 sent
                      (Ok {| cr_Text := "";
                             cr_Reasoning := joinReasoningParts reasoningParts;
                             cr_Messages := resultMessages;
                             cr_ToolCalls := d_pending d;
                             cr_FinishReason := "tool_calls";
                             cr_Usage := toCoreUsage (resp_Usage response) |})
                  | [] =>
                    chatLoop n'
                      {| ls_world := w; ls_store := d_store d;
                         ls_messages := d_messages d;
                         ls_conversation := d_conversation d;
                         ls_reasoningParts := reasoningParts;
                         ls_sent := sent |}
                  end
                end
              end
            end
          end
        end
      end
  end.
End Loop.

(** The method [Chat(ctx, params)] of the adapter. *)
Definition Chat (a : option Adapter) (params : option ChatParams)
    (h : store) (w : world B) : chatRun (world B) chatCompletionRequest :=
  let stop e := {| run_result := Err e; run_world := w; run_store := h;
                   run_sent := [] |} in
  match validate a with
  | Err err => stop err
  | Ok a =>
    match buildRequestTemplate a h params with
    | Err err => stop err
    | Ok (requestTemplate, messages, serverTools, clientTools, maxLoopCount) =>
      let '(conversation, h1) := cloneCoreMessages h params in
      chatLoop a requestTemplate serverTools clientTools maxLoopCount
        (Z.to_nat maxLoopCount)
        {| ls_world := w; ls_store := h1; ls_messages := messages;
           ls_conversation := conversation; ls_reasoningParts := [];
           ls_sent := [] |}
    end
  end.

(** *** chat.go: ChatStream *)

Record streamState := {
  ss_content : string;
  ss_reasoningParts : list string;
  ss_finishReason : string;
  ss_usage : option Usage
}.

(** One round of [for idx, choice := range event.Choices]: the chunks
    sent, and the variables afterwards unless an [Error] chunk ended
    the stream. *)
Definition streamChoice1 (rawChoices : list string) (idx : nat)
    (choice : streamChoice) (ss : streamState)
  : list StreamChunk * option streamState :=
  let finishReason :=
    if negb (String.eqb (sch_FinishReason choice) "") then sch_FinishReason choice
    else ss_finishReason ss in
  let reasoning := parseStreamChoiceReasoning choice in
  let reasoningR :=
    match rawChoices !! idx with
    | Some raw =>
        if String.eqb reasoning "" then parseStreamChoiceRawReasoning raw
        else Ok reasoning
    | None => Ok reasoning
    end in
  match reasoningR with
  | Err rawErr =>
      ([errorChunk ("openai: decode raw stream choice reasoning: " +:+ rawErr)], None)
  | Ok reasoning =>
    let before := length (ss_reasoningParts ss) in
    let reasoningParts := appendReasoningPart (ss_reasoningParts ss) reasoning in
    let out1 :=
      if Nat.ltb before (length reasoningParts) then
        [reasoningChunk (TrimSpace reasoning) (joinReasoningParts reasoningParts)]
      else [] in
    match parseStreamChoiceText choice with
    | Err err => (out1 ++ [errorChunk ("openai: decode stream delta: " +:+ err)], None)
    | Ok deltaText =>
      let deltaR :=
        match rawChoices !! idx with
        | Some raw =>
            if String.eqb deltaText "" then parseStreamChoiceRaw raw else Ok deltaText
        | None => Ok deltaText
        end in
      match deltaR with
      | Err rawErr =>
          (out1 ++ [errorChunk ("openai: decode raw stream choice: " +:+ rawErr)], None)
      | Ok deltaText =>
        if String.eqb deltaText "" then
          (out1, Some {| ss_content := ss_content ss;
                         ss_reasoningParts := reasoningParts;
                         ss_finishReason := finishReason;
                         ss_usage := ss_usage ss |})
        else
          let content := ss_content ss +:+ deltaText in
          (out1 ++ [contentChunk deltaText content],
           Some {| ss_content := content;
                   ss_reasoningParts := reasoningParts;
                   ss_finishReason := finishReason;
                   ss_usage := ss_usage ss |})
      end
    end
  end.

Fixpoint streamChoices (rawChoices : list string) (idx : nat)
    (choices : list streamChoice) (ss : streamState)
  : list StreamChunk * option streamState :=
  match choices with
  | [] => ([], Some ss)
  | choice :: rest =>
      match streamChoice1 rawChoices idx choice ss with
      | (out, None) => (out, None)
      | (out, Some ss') =>
          let '(out', r) := streamChoices rawChoices (S idx) rest ss' in
          (out ++ out', r)
      end
  end.

Definition streamDone (ss : streamState) : StreamChunk :=
  doneChunk (nonEmpty (ss_finishReason ss) "stop")
            (joinReasoningParts (ss_reasoningParts ss)) (ss_usage ss).

(** [for scanner.Scan() { ... }] and what follows it. *)
Fixpoint streamLines (lines : list string) (readErr : option error)
    (ss : streamState) : list StreamChunk :=
  match lines with
  | [] =>
      match readErr with
      | Some err => [errorChunk ("openai: stream read failed: " +:+ err)]
      | None => [streamDone ss]
      end
  | text :: rest =>
      let line := TrimSpace text in
      if String.eqb line "" || HasPrefix line ":" || negb (HasPrefix line "data:") then
        streamLines rest readErr ss
      else
        let payload := TrimSpace (TrimPrefix line "data:") in
        if String.eqb payload "[DONE]" then [streamDone ss]
        else
          match unmarshalStreamEvent payload with
          | Err err => [errorChunk ("openai: decode stream event: " +:+ err)]
          | Ok event =>
              let rawChoices := unmarshalRawChoices payload in
              let usage :=
                match ev_Usage event with
                | Some u => toCoreUsage (Some u)
                | None => ss_usage ss
                end in
              match streamChoices rawChoices 0 (ev_Choices event)
                      {| ss_content := ss_content ss;
                         ss_reasoningParts := ss_reasoningParts ss;
                         ss_finishReason := ss_finishReason ss;
                         ss_usage := usage |} with
              | (out, None) => out
              | (out, Some ss') => out ++ streamLines rest readErr ss'
              end
          end
  end.

(** The live branch of the goroutine of [ChatStream]. *)
Definition liveChunks (opened : streamOpen) : list StreamChunk :=
  match opened with
  | OpenMarshalError err => [errorChunk ("openai: marshal stream request: " +:+ err)]
  | OpenBuildError err => [errorChunk ("openai: build stream request: " +:+ err)]
  | OpenRequestError err => [errorChunk ("openai: stream request failed: " +:+ err)]
  | OpenAPIError message => [errorChunk message]
  | OpenBody lines readErr =>
      streamLines lines readErr
        {| ss_content := ""; ss_reasoningParts := [];
           ss_finishReason := ""; ss_usage := None |}
  end.

(** The method [ChatStream(ctx, params)] of the adapter. *)
Definition ChatStream (a : option Adapter) (params : option ChatParams)
    (h : store) (w : world B) : streamRun (world B) :=
  let stop e := {| sr_chunks := Err e; sr_world := w; sr_store := h |} in
  match validate a with
  | Err err => stop err
  | Ok a =>
    match buildRequestTemplate a h params with
    | Err err => stop err
    | Ok (request, messages, serverTools, clientTools, _) =>
      if simulated serverTools clientTools params then
        let run := Chat (Some a) params h w in
        {| sr_chunks := Ok (replayChunks (run_store run) params (run_result run));
           sr_world := run_world run; sr_store := run_store run |}
      else
        let '(opened, w') := openStream B w a (withMessages request messages true) in
        {| sr_chunks := Ok (liveChunks opened); sr_world := w'; sr_store := h |}
    end
  end.

End OpenAI.
End OpenAI.

(** ** Package claude *)

Module Claude.
Section Claude.
Context `{GoRuntime}.

Definition pkg : string := "claude".

Record Adapter := {
  APIKey : string;
  Model : string;
  BaseURL : string;
  AnthropicVersion : string
}.

(** *** Wire types (types.go) *)

Record mediaSource := {
  ms_Type : string;
  ms_MediaType : string;
  ms_Data : string;
  ms_URL : string
}.

Record contentBlock := {
  cb_Type : string;
  cb_Text : string;
  cb_Thinking : string;
  cb_Signature : string;
  cb_Source : option mediaSource;
  cb_ID : string;
  cb_Name : string;
  cb_Input : option any;
  cb_ToolUseID : string;
  cb_Content : option any
}.

(** The zero value of [contentBlock]. *)
Definition block0 : contentBlock :=
  {| cb_Type := ""; cb_Text := ""; cb_Thinking := ""; cb_Signature := "";
     cb_Source := None; cb_ID := ""; cb_Name := ""; cb_Input := None;
     cb_ToolUseID := ""; cb_Content := None |}.

Record message := { m_Role : string; m_Content : list contentBlock }.

Record messageRequest := {
  req_Model : string;
  req_System : string;
  req_Messages : list message;
  req_MaxTokens : option Z;
  req_Temperature : option float64;
  req_Tools : list toolDefinition;
  req_ToolChoice : option string;
  req_Stream : bool
}.

Record usage := {
  us_InputTokens : Z;
  us_OutputTokens : Z;
  us_CacheCreationInputTokens : Z;
  us_CacheReadInputTokens : Z
}.

Record messageResponse := {
  resp_ID : string;
  resp_Role : string;
  resp_Content : list contentBlock;
  resp_StopReason : string;
  resp_Usage : option usage
}.

Record streamDelta := { sd_Type : string; sd_Text : string; sd_Thinking : string }.
Record streamError := { se_Type : string; se_Message : string }.
Record streamEvent := {
  ev_Type : string;
  ev_Delta : option streamDelta;
  ev_Error : option streamError;
  ev_Usage : option usage
}.

(** The typed decode of one stream event, [json.Unmarshal], is a
    parameter. *)
Class Decoders := { unmarshalStreamEvent : string -> result streamEvent }.
Context `{Decoders}.

(** *** adapter.go *)

Definition resolveAPIKey : string :=
  let key := TrimSpace (Getenv "ANTHROPIC_API_KEY") in
  if negb (String.eqb key "") then key else TrimSpace (Getenv "CLAUDE_API_KEY").

Definition validate (a : option Adapter) : result Adapter :=
  match a with
  | None => Err "claude: adapter is nil"
  | Some a =>
      let a :=
        if String.eqb (TrimSpace (APIKey a)) "" then
          {| APIKey := resolveAPIKey; Model := Model a; BaseURL := BaseURL a;
             AnthropicVersion := AnthropicVersion a |}
        else a in
      if String.eqb (TrimSpace (APIKey a)) "" then
        Err "claude: API key is required (set ANTHROPIC_API_KEY/CLAUDE_API_KEY or pass apiKey)"
      else if String.eqb (TrimSpace (Model a)) "" then
        Err "claude: model is required"
      else Ok a
  end.

(** *** convert.go *)

Definition normalizeRole (role : string) : result string :=
  let normalized := ToLower (TrimSpace role) in
  if String.eqb normalized "" then Err "message role is required"
  else if String.eqb normalized "user" || String.eqb normalized "assistant"
          || String.eqb normalized "system" then Ok normalized
  else Err ("unsupported role " +:+ Quote role).

(** [textMessage], [contentMessage], [assistantToolCallMessage] and
    [toolResultMessage] return a message pointer (nil for a system
    text), the system text and an error. *)
Definition textMessage (role content : string) : result (option message * string) :=
  check normalizedRole <- normalizeRole role in
  if String.eqb normalizedRole "system" then Ok (None, content)
  else
    Ok (Some {| m_Role := normalizedRole;
                m_Content := [ {| cb_Type := "text"; cb_Text := content;
                                  cb_Thinking := ""; cb_Signature := "";
                                  cb_Source := None; cb_ID := ""; cb_Name := "";
                                  cb_Input := None; cb_ToolUseID := "";
                                  cb_Content := None |} ] |}, "").

Definition urlMediaSource (source : URLSource) : result mediaSource :=
  let url := TrimSpace (us_URL source) in
  if String.eqb url "" then Err "source URL is required"
  else Ok {| ms_Type := "url"; ms_MediaType := ""; ms_Data := ""; ms_URL := url |}.

Definition dataMediaSource (source : DataSource) : result mediaSource :=
  let data := TrimSpace (ds_Data source) in
  if String.eqb data "" then Err "source data is required"
  else
    let mimeType := TrimSpace (ds_MimeType source) in
    if String.eqb mimeType "" then Err "source mime type is required"
    else Ok {| ms_Type := "base64"; ms_MediaType := mimeType; ms_Data := data;
               ms_URL := "" |}.

Definition mediaSourceFromSource (source : Source) : result mediaSource :=
  match source with
  | SourceURL s => urlMediaSource s
  | SourceURLPtr None => Err "URL source is nil"
  | SourceURLPtr (Some s) => urlMediaSource s
  | SourceData s => dataMediaSource s
  | SourceDataPtr None => Err "data source is nil"
  | SourceDataPtr (Some s) => dataMediaSource s
  | SourceNil => Err "unsupported source type <nil>"
  end.

(** [imageBlock], [audioBlock] and [documentBlock] differ in the kind
    they name. *)
Definition mediaBlock (kind : string) (source : Source) : result contentBlock :=
  match source with
  | SourceNil => Err (kind +:+ " source is required")
  | _ =>
      check ms <- mediaSourceFromSource source in
      Ok {| cb_Type := kind; cb_Text := ""; cb_Thinking := ""; cb_Signature := "";
            cb_Source := Some ms; cb_ID := ""; cb_Name := ""; cb_Input := None;
            cb_ToolUseID := ""; cb_Content := None |}
  end.

Definition imageBlock := mediaBlock "image".
Definition audioBlock := mediaBlock "audio".
Definition documentBlock := mediaBlock "document".

Definition textBlock (p : TextPart) : contentBlock :=
  {| cb_Type := "text"; cb_Text := tp_Text p; cb_Thinking := "";
     cb_Signature := ""; cb_Source := None; cb_ID := ""; cb_Name := "";
     cb_Input := None; cb_ToolUseID := ""; cb_Content := None |}.

Definition toContentBlock (part : ContentPart) : result contentBlock :=
  match part with
  | PartText p => Ok (textBlock p)
  | PartTextPtr None => Err "text part is nil"
  | PartTextPtr (Some p) => Ok (textBlock p)
  | PartImage p => imageBlock (ip_Source p)
  | PartImagePtr None => Err "image part is nil"
  | PartImagePtr (Some p) => imageBlock (ip_Source p)
  | PartAudio p => audioBlock (ap_Source p)
  | PartAudioPtr None => Err "audio part is nil"
  | PartAudioPtr (Some p) => audioBlock (ap_Source p)
  | PartDocument p => documentBlock (dp_Source p)
  | PartDocumentPtr None => Err "document part is nil"
  | PartDocumentPtr (Some p) => documentBlock (dp_Source p)
  | PartNil => Err "unsupported content part type <nil>"
  end.

Fixpoint toContentBlocks_loop (i : nat) (parts : list ContentPart)
  : result (list contentBlock) :=
  match parts with
  | [] => Ok []
  | part :: rest =>
      match toContentBlock part with
      | Err err =>
          Err ("content part at index " +:+ Itoa (Z.of_nat i) +:+ ": " +:+ err)
      | Ok block =>
          check out <- toContentBlocks_loop (S i) rest in
          Ok (block :: out)
      end
  end.

Definition toContentBlocks (parts : list ContentPart) : result (list contentBlock) :=
  match parts with
  | [] => Err "content message must include at least one content part"
  | _ => toContentBlocks_loop 0 parts
  end.

Definition contentMessage (role : string) (parts : list ContentPart)
  : result (option message * string) :=
  check normalizedRole <- normalizeRole role in
  if String.eqb normalizedRole "system" then
    Err "content messages cannot use system role"
  else
    check blocks <- toContentBlocks parts in
    Ok (Some {| m_Role := normalizedRole; m_Content := blocks |}, "").

Fixpoint toolUseBlocks (i : nat) (calls : list ToolCall) : result (list contentBlock) :=
  match calls with
  | [] => Ok []
  | call :: rest =>
      let name := TrimSpace (tc_Name call) in
      if String.eqb name "" then
        Err ("tool call at index " +:+ Itoa (Z.of_nat i) +:+ " is missing a name")
      else
        let id := TrimSpace (tc_ID call) in
        let id := if String.eqb id "" then "call_" +:+ Itoa (Z.of_nat i + 1) else id in
        let input := match tc_Arguments call with
                     | Some v => Some v
                     | None => Some (anyMap ∅)
                     end in
        check out <- toolUseBlocks (S i) rest in
        Ok ({| cb_Type := "tool_use"; cb_Text := ""; cb_Thinking := "";
               cb_Signature := ""; cb_Source := None; cb_ID := id; cb_Name := name;
               cb_Input := input; cb_ToolUseID := ""; cb_Content := None |} :: out)
  end.

Definition assistantToolCallMessage (role : string) (calls : list ToolCall)
  : result (option message * string) :=
  let role := TrimSpace (ToLower role) in
  let role := if String.eqb role "" then RoleToolCall else role in
  if negb (String.eqb role RoleToolCall) && negb (String.eqb role RoleAssistant) then
    Err ("tool call message role must be " +:+ Quote RoleToolCall +:+ " or "
         +:+ Quote RoleAssistant +:+ ", got " +:+ Quote role)
  else
    match calls with
    | [] => Err "assistant tool call message must include at least one tool call"
    | _ =>
        check blocks <- toolUseBlocks 0 calls in
        Ok (Some {| m_Role := "assistant"; m_Content := blocks |}, "")
    end.

Definition toolResultBlock (toolUseID result : string) : contentBlock :=
  {| cb_Type := "tool_result"; cb_Text := ""; cb_Thinking := "";
     cb_Signature := ""; cb_Source := None; cb_ID := ""; cb_Name := "";
     cb_Input := None; cb_ToolUseID := toolUseID;
     cb_Content := Some (anyString result) |}.

Definition toolResultMessage (role toolCallID content : string)
  : result (option message * string) :=
  let role := TrimSpace (ToLower role) in
  let role := if String.eqb role "" then RoleToolResult else role in
  if negb (String.eqb role RoleToolResult) && negb (String.eqb role "tool")
     && negb (String.eqb role RoleUser) then
    Err ("tool result message role must be " +:+ Quote RoleToolResult +:+ ", "
         +:+ Quote "tool" +:+ ", or " +:+ Quote RoleUser +:+ ", got " +:+ Quote role)
  else if String.eqb (TrimSpace toolCallID) "" then
    Err "tool result message tool call ID is required"
  else
    Ok (Some {| m_Role := "user";
                m_Content := [toolResultBlock (TrimSpace toolCallID) content] |}, "").

Definition toMessage (union : MessageUnion) : result (option message * string) :=
  match union with
  | MsgText m => textMessage (tm_Role m) (tm_Content m)
  | MsgTextPtr None => Err "text message is nil"
  | MsgTextPtr (Some m) => textMessage (tm_Role m) (tm_Content m)
  | MsgContent m => contentMessage (cm_Role m) (cm_Parts m)
  | MsgContentPtr None => Err "content message is nil"
  | MsgContentPtr (Some m) => contentMessage (cm_Role m) (cm_Parts m)
  | MsgToolCall m => assistantToolCallMessage (tcm_Role m) (tcm_ToolCalls m)
  | MsgToolCallPtr None => Err "assistant tool call message is nil"
  | MsgToolCallPtr (Some m) => assistantToolCallMessage (tcm_Role m) (tcm_ToolCalls m)
  | MsgToolResult m => toolResultMessage (trm_Role m) (trm_ToolCallID m) (trm_Content m)
  | MsgToolResultPtr None => Err "tool result message is nil"
  | MsgToolResultPtr (Some m) =>
      toolResultMessage (trm_Role m) (trm_ToolCallID m) (trm_Content m)
  | MsgNil => Err "unsupported message type <nil>"
  end.

(** The loop of [toMessagesAndSystem]: the messages and the system
    parts collected. *)
Fixpoint toMessagesAndSystem_loop (i : nat) (unions : list MessageUnion)
  : result (list message * list string) :=
  match unions with
  | [] => Ok ([], [])
  | union :: rest =>
      match toMessage union with
      | Err err =>
          Err ("claude: invalid message at index " +:+ Itoa (Z.of_nat i)
               +:+ ": " +:+ err)
      | Ok (msg, systemText) =>
          check r <- toMessagesAndSystem_loop (S i) rest in
          Ok (match msg with Some m => m :: fst r | None => fst r end,
              if negb (String.eqb systemText "") then systemText :: snd r
              else snd r)
      end
  end.

Definition toMessagesAndSystem (h : store) (params : option ChatParams)
  : result (list message * string) :=
  match params with
  | None => Err "claude: chat params are required"
  | Some p =>
      check r <- toMessagesAndSystem_loop 0 (elems h (cp_Messages p)) in
      Ok (fst r, Join (snd r) (String "010"%char (String "010"%char "")))
  end.

Definition toCoreToolCalls (blocks : list contentBlock) : list ToolCall :=
  map (fun block => {| tc_ID := cb_ID block; tc_Name := cb_Name block;
                       tc_Arguments := cb_Input block |})
      (filter (fun block => cb_Type block = "tool_use") blocks).

Definition maxTokens (params : option ChatParams) : option Z :=
  match params with
  | None => None
  | Some p =>
      match cp_MaxOutputTokens p with
      | Some v => if (0 <? v)%Z then Some v
                  else if (0 <? cp_MaxLength p)%Z then Some (cp_MaxLength p) else None
      | None => if (0 <? cp_MaxLength p)%Z then Some (cp_MaxLength p) else None
      end
  end.

Definition outputInstruction (schema : option Schema) : string :=
  match schema with
  | None => ""
  | Some s =>
      match sch_Schema s with
      | None => ""
      | Some m =>
          match jsonMarshalIndent m with
          | Err _ => ""
          | Ok b =>
              "Return only valid JSON that strictly matches this JSON Schema:"
              +:+ String "010"%char "" +:+ b
          end
      end
  end.

(** *** util.go *)

Definition applyOutputInstruction (system : string) (output : option Schema) : string :=
  let instruction := outputInstruction output in
  if String.eqb instruction "" then system
  else if String.eqb (TrimSpace system) "" then instruction
  else TrimSpace system +:+ String "010"%char (String "010"%char "") +:+ instruction.

Definition extractText (content : list contentBlock) : string :=
  concat_all (map cb_Text (filter (fun block => cb_Type block = "text") content)).

Definition reasoningOfBlock (block : contentBlock) : list string :=
  if String.eqb (cb_Type block) "thinking" || String.eqb (cb_Type block) "reasoning" then
    if negb (String.eqb (TrimSpace (cb_Thinking block)) "") then
      [TrimSpace (cb_Thinking block)]
    else if negb (String.eqb (TrimSpace (cb_Text block)) "") then
      [TrimSpace (cb_Text block)]
    else []
  else [].

Definition extractReasoning (content : list contentBlock) : string :=
  match concat (map reasoningOfBlock content) with
  | [] => ""
  | parts => TrimSpace (Join parts (String "010"%char ""))
  end.

Definition extractToolUses (content : list contentBlock) : list contentBlock :=
  filter (fun block => cb_Type block = "tool_use") content.

Definition toCoreUsage (in_ : option usage) : option Usage :=
  match in_ with
  | None => None
  | Some u =>
      Some {| u_PromptTokens := us_InputTokens u;
              u_CompletionTokens := us_OutputTokens u;
              u_TotalTokens := add64 (us_InputTokens u) (us_OutputTokens u);
              u_ReasoningTokens := 0;
              u_Details :=
                addDetail "cache_read_input_tokens" (us_CacheReadInputTokens u)
                  (addDetail "cache_creation_input_tokens"
                     (us_CacheCreationInputTokens u) None) |}
  end.

(** *** chat.go *)

Definition buildRequestTemplate (a : Adapter) (h : store) (params : option ChatParams)
  : result (messageRequest * list message
            * gmap string ServerTool * gset string * Z) :=
  check ms <- toMessagesAndSystem h params in
  check t <- toTools pkg params in
  let '(tools, serverTools, clientTools) := t in
  let request :=
    {| req_Model := Model a;
       req_System := applyOutputInstruction (snd ms) (paramsOutput params);
       req_Messages := [];
       req_MaxTokens := maxTokens params;
       req_Temperature := temperature params;
       req_Tools := tools;
       req_ToolChoice := match tools with [] => None | _ => Some "auto" end;
       req_Stream := false |} in
  Ok (request, fst ms, serverTools, clientTools,
      maxLoops params (negb (Nat.eqb (size serverTools) 0))).

Definition withMessages (request : messageRequest) (messages : list message)
    (stream : bool) : messageRequest :=
  {| req_Model := req_Model request;
     req_System := req_System request;
     req_Messages := messages;
     req_MaxTokens := req_MaxTokens request;
     req_Temperature := req_Temperature request;
     req_Tools := req_Tools request;
     req_ToolChoice := req_ToolChoice request;
     req_Stream := stream |}.

Variable B : backend Adapter messageRequest messageResponse.

Record dispatchState := {
  d_resultBlocks : list contentBlock;
  d_conversation : slice;
  d_store : store;
  d_pending : list ToolCall
}.

(** [for idx, use := range toolUses { ... }]: the error [Chat] returns
    from inside the loop, if any, and the variables as the loop leaves
    them. *)
Fixpoint dispatch (serverTools : gmap string ServerTool) (clientTools : gset string)
    (coreCalls : list ToolCall) (idx : nat) (toolUses : list contentBlock)
    (d : dispatchState) : option error * dispatchState :=
  match toolUses with
  | [] => (None, d)
  | use :: rest =>
      match serverTools !! cb_Name use with
      | Some serverTool =>
          match coreCalls !! idx, st_Handler serverTool with
          | Some coreCall, Some handler =>
              let '(result, callErr) := handler (tc_Arguments coreCall) in
              let result :=
                match callErr with
                | Some e => "tool_error: " +:+ e
                | None => result
                end in
              let '(conversation, h) :=
                append_slice (d_store d) (d_conversation d)
                  [MsgToolResult {| trm_Role := RoleToolResult;
                                    trm_ToolCallID := cb_ID use;
                                    trm_Name := cb_Name use;
                                    trm_Content := result |}] in
              dispatch serverTools clientTools coreCalls (S idx) rest
                {| d_resultBlocks :=
                     d_resultBlocks d ++ [toolResultBlock (cb_ID use) result];
                   d_conversation := conversation;
                   d_store := h;
                   d_pending := d_pending d |}
          | None, _ => (Some "runtime error: index out of range", d)
          | _, None =>
              (Some "runtime error: invalid memory address or nil pointer dereference", d)
          end
      | None =>
          if decide (cb_Name use ∈ clientTools) then
            match coreCalls !! idx with
            | Some coreCall =>
                dispatch serverTools clientTools coreCalls (S idx) rest
                  {| d_resultBlocks := d_resultBlocks d;
                     d_conversation := d_conversation d;
                     d_store := d_store d;
                     d_pending := d_pending d ++ [coreCall] |}
            | None => (Some "runtime error: index out of range", d)
            end
          else
            (Some ("claude: tool " +:+ Quote (cb_Name use)
                   +:+ " was requested but not registered"), d)
      end
  end.

Record loopState := {
  ls_world : world B;
  ls_store : store;
  ls_messages : list message;
  ls_conversation : slice;
  ls_reasoningParts : list string;
  ls_sent : list messageRequest
}.

Definition finish (w : world B) (h : store) (sent : list messageRequest)
    (r : result ChatResult) : chatRun (world B) messageRequest :=
  {| run_result := r; run_world := w; run_store := h; run_sent := sent |}.

Section Loop.
Variables (a : Adapter) (requestTemplate : messageRequest)
          (serverTools : gmap string ServerTool) (clientTools : gset string)
          (maxLoopCount : Z).

(** [for i := 0; i < maxLoopCount; i++ { ... }] followed by the final
    error; [n] counts the iterations that remain. *)
Fixpoint chatLoop (n : nat) (st : loopState) : chatRun (world B) messageRequest :=
  match n with
  | O =>
      finish (ls_world st) (ls_store st) (ls_sent st)
        (Err ("claude: reached max tool loop count (" +:+ Itoa maxLoopCount +:+ ")"))
  | S n' =>
      let request := withMessages requestTemplate (ls_messages st) false in
      let '(posted, w) := post B (ls_world st) a request in
      let sent := ls_sent st ++ [request] in
      match posted with
      | Err err => finish w (ls_store st) sent (Err err)
      | Ok response =>
        let reasoningParts :=
          appendReasoningPart (ls_reasoningParts st)
            (extractReasoning (resp_Content response)) in
        match extractToolUses (resp_Content response) with
        | [] =>
          let text := extractText (resp_Content response) in
          let '(conversation, h1) :=
            append_slice (ls_store st) (ls_conversation st)
              [MsgText {| tm_Role := RoleAssistant; tm_Content := text |}] in
          let '(messages, h2) := append_slice h1 nil_slice (elems h1 conversation) in
          finish w h2 sent
            (Ok {| cr_Text := text;
                   cr_Reasoning := joinReasoningParts reasoningParts;
                   cr_Messages := messages;
                   cr_ToolCalls := [];
                   cr_FinishReason := nonEmpty (resp_StopReason response) "stop";
                   cr_Usage := toCoreUsage (resp_Usage response) |})
        | toolUses =>
          let messages :=
            ls_messages st
            ++ [{| m_Role := "assistant"; m_Content := resp_Content response |}] in
          let coreCalls := toCoreToolCalls toolUses in
          let '(conversation, h1) :=
            append_slice (ls_store st) (ls_conversation st)
              [MsgToolCall {| tcm_Role := RoleToolCall; tcm_ToolCalls := coreCalls |}] in
          match dispatch serverTools clientTools coreCalls 0 toolUses
                  {| d_resultBlocks := []; d_conversation := conversation;
                     d_store := h1; d_pending := [] |} with
          | (Some err, d) => finish w (d_store d) sent (Err err)
          | (None, d) =>
            match d_pending d with
            | _ :: _ =>
              let '(resultMessages, h2) :=
                append_slice (d_store d) nil_slice
                  (elems (d_store d) (d_conversation d)) in
              finish w h2 sent
                (Ok {| cr_Text := "";
                       cr_Reasoning := joinReasoningParts reasoningParts;
                       cr_Messages := resultMessages;
                       cr_ToolCalls := d_pending d;
                       cr_FinishReason := "tool_calls";
                       cr_Usage := toCoreUsage (resp_Usage response) |})
            | [] =>
              let messages :=
                match d_resultBlocks d with
                | [] => messages
                | blocks => messages ++ [{| m_Role := "user"; m_Content := blocks |}]
                end in
              chatLoop n'
                {| ls_world := w; ls_store := d_store d;
                   ls_messages := messages;
                   ls_conversation := d_conversation d;
                   ls_reasoningParts := reasoningParts;
                   ls_sent := sent |}
            end
          end
        end
      end
  end.
End Loop.

(** The method [Chat(ctx, params)] of the adapter. *)
Definition Chat (a : option Adapter) (params : option ChatParams)
    (h : store) (w : world B) : chatRun (world B) messageRequest :=
  let stop e := {| run_result := Err e; run_world := w; run_store := h;
                   run_sent := [] |} in
  match validate a with
  | Err err => stop err
  | Ok a =>
    match buildRequestTemplate a h params with
    | Err err => stop err
    | Ok (requestTemplate, messages, serverTools, clientTools, maxLoopCount) =>
      let '(conversation, h1) := cloneCoreMessages h params in
      chatLoop a requestTemplate serverTools clientTools maxLoopCount
        (Z.to_nat maxLoopCount)
        {| ls_world := w; ls_store := h1; ls_messages := messages;
           ls_conversation := conversation; ls_reasoningParts := [];
           ls_sent := [] |}
    end
  end.

(** *** chat.go: ChatStream *)

Record streamState := {
  ss_content : string;
  ss_reasoningParts : list string;
  ss_usage : option Usage
}.

Definition streamDone (ss : streamState) : StreamChunk :=
  doneChunk "stop" (joinReasoningParts (ss_reasoningParts ss)) (ss_usage ss).

(** The handling of a [content_block_delta] event. *)
Definition streamDelta1 (delta : streamDelta) (ss : streamState)
  : list StreamChunk * streamState :=
  if String.eqb (sd_Type delta) "text_delta" && negb (String.eqb (sd_Text delta) "") then
    let content := ss_content ss +:+ sd_Text delta in
    ([contentChunk (sd_Text delta) content],
     {| ss_content := content; ss_reasoningParts := ss_reasoningParts ss;
        ss_usage := ss_usage ss |})
  else if String.eqb (sd_Type delta) "thinking_delta" then
    let reasoningDelta := TrimSpace (nonEmpty (sd_Thinking delta) (sd_Text delta)) in
    let before := length (ss_reasoningParts ss) in
    let reasoningParts := appendReasoningPart (ss_reasoningParts ss) reasoningDelta in
    (if Nat.ltb before (length reasoningParts) then
       [reasoningChunk reasoningDelta (joinReasoningParts reasoningParts)]
     else [],
     {| ss_content := ss_content ss; ss_reasoningParts := reasoningParts;
        ss_usage := ss_usage ss |})
  else ([], ss).

(** [for scanner.Scan() { ... }] and what follows it. *)
Fixpoint streamLines (lines : list string) (readErr : option error)
    (ss : streamState) : list StreamChunk :=
  match lines with
  | [] =>
      match readErr with
      | Some err => [errorChunk ("claude: stream read failed: " +:+ err)]
      | None => [streamDone ss]
      end
  | text :: rest =>
      let line := TrimSpace text in
      if String.eqb line "" || HasPrefix line ":" || negb (HasPrefix line "data:") then
        streamLines rest readErr ss
      else
        let payload := TrimSpace (TrimPrefix line "data:") in
        if String.eqb payload "" || String.eqb payload "[DONE]" then
          streamLines rest readErr ss
        else
          match unmarshalStreamEvent payload with
          | Err err => [errorChunk ("claude: decode stream event: " +:+ err)]
          | Ok event =>
              let ss :=
                match ev_Usage event with
                | Some u =>
                    {| ss_content := ss_content ss;
                       ss_reasoningParts := ss_reasoningParts ss;
                       ss_usage := toCoreUsage (Some u) |}
                | None => ss
                end in
              match (if String.eqb (ev_Type event) "error" then ev_Error event
                     else None) with
              | Some e =>
                  [errorChunk ("claude: stream error (" +:+ se_Type e +:+ "): "
                               +:+ se_Message e)]
              | None =>
                  let '(out, ss) :=
                    match (if String.eqb (ev_Type event) "content_block_delta"
                           then ev_Delta event else None) with
                    | Some delta => streamDelta1 delta ss
                    | None => ([], ss)
                    end in
                  if String.eqb (ev_Type event) "message_stop" then
                    out ++ [streamDone ss]
                  else out ++ streamLines rest readErr ss
              end
          end
  end.

Definition liveChunks (opened : streamOpen) : list StreamChunk :=
  match opened with
  | OpenMarshalError err => [errorChunk ("claude: marshal stream request: " +:+ err)]
  | OpenBuildError err => [errorChunk ("claude: build stream request: " +:+ err)]
  | OpenRequestError err => [errorChunk ("claude: stream request failed: " +:+ err)]
  | OpenAPIError message => [errorChunk message]
  | OpenBody lines readErr =>
      streamLines lines readErr
        {| ss_content := ""; ss_reasoningParts := []; ss_usage := None |}
  end.

(** The method [ChatStream(ctx, params)] of the adapter. *)
Definition ChatStream (a : option Adapter) (params : option ChatParams)
    (h : store) (w : world B) : streamRun (world B) :=
  let stop e := {| sr_chunks := Err e; sr_world := w; sr_store := h |} in
  match validate a with
  | Err err => stop err
  | Ok a =>
    match buildRequestTemplate a h params with
    | Err err => stop err
    | Ok (request, messages, serverTools, clientTools, _) =>
      if simulated serverTools clientTools params then
        let run := Chat (Some a) params h w in
        {| sr_chunks := Ok (replayChunks (run_store run) params (run_result run));
           sr_world := run_world run; sr_store := run_store run |}
      else
        let '(opened, w') := openStream B w a (withMessages request messages true) in
        {| sr_chunks := Ok (liveChunks opened); sr_world := w'; sr_store := h |}
    end
  end.

End Claude.
End Claude.

(** ** Package ollama *)

Module Ollama.
Import Reconciler.
Section Ollama.
Context `{GoRuntime}.

Definition pkg : string := "ollama".

Record Adapter := { APIKey : string; Model : string; BaseURL : string }.

(** *** Wire types (types.go) *)

Record toolCallFunction := {
  tcf_Index : Z;
  tcf_Name : string;
  tcf_Arguments : option any
}.
Record toolCall := { otc_ID : string; otc_Function : toolCallFunction }.

Record message := {
  m_Role : string;
  m_Content : string;
  m_Thinking : string;
  m_Images : list string;
  m_ToolCalls : list toolCall;
  m_ToolName : string;
  m_ToolCallID : string
}.

(** The field [Think any]: nothing, a boolean or a string. *)
Inductive think := ThinkNil | ThinkBool (b : bool) | ThinkString (s : string).

(** The map [Options] holds at most the two entries the adapter sets. *)
Record options := { opt_num_predict : option Z; opt_temperature : option float64 }.

Record chatRequest := {
  req_Model : string;
  req_Messages : list message;
  req_Tools : list toolDefinition;
  req_Format : option string;          (* json.RawMessage *)
  req_Stream : option bool;
  req_Think : think;
  req_Options : option options
}.

Record chatResponse := {
  resp_Model : string;
  resp_CreatedAt : string;
  resp_Message : message;
  resp_Done : bool;
  resp_DoneReason : string;
  resp_TotalDuration : Z;
  resp_LoadDuration : Z;
  resp_PromptEvalCount : Z;
  resp_PromptEvalDuration : Z;
  resp_EvalCount : Z;
  resp_EvalDuration : Z
}.

(** The typed decode of one line of the stream, [json.Unmarshal], is a
    parameter. *)
Class Decoders := { unmarshalChatResponse : string -> result chatResponse }.
Context `{Decoders}.

(** *** adapter.go *)

Definition validate (a : option Adapter) : result Adapter :=
  match a with
  | None => Err "ollama: adapter is nil"
  | Some a =>
      if String.eqb (TrimSpace (Model a)) "" then Err "ollama: model is required"
      else if String.eqb (TrimSpace (APIKey a)) "" then
        Ok {| APIKey := TrimSpace (Getenv "OLLAMA_API_KEY"); Model := Model a;
              BaseURL := BaseURL a |}
      else Ok a
  end.

(** *** util.go *)

Definition toCoreUsageWithMetrics
    (promptEvalCount evalCount totalDuration loadDuration
     promptEvalDuration evalDuration : Z) : option Usage :=
  if (promptEvalCount <=? 0)%Z && (evalCount <=? 0)%Z && (totalDuration <=? 0)%Z
     && (loadDuration <=? 0)%Z && (promptEvalDuration <=? 0)%Z
     && (evalDuration <=? 0)%Z then None
  else
    let totalTokens := add64 promptEvalCount evalCount in
    let totalTokens := if (totalTokens =? 0)%Z then promptEvalCount else totalTokens in
    Some {| u_PromptTokens := promptEvalCount;
            u_CompletionTokens := evalCount;
            u_TotalTokens := totalTokens;
            u_ReasoningTokens := 0;
            u_Details :=
              addDetail "eval_duration_ns" evalDuration
                (addDetail "prompt_eval_duration_ns" promptEvalDuration
                   (addDetail "load_duration_ns" loadDuration
                      (addDetail "total_duration_ns" totalDuration None))) |}.

Definition toCoreChatUsage (in_ : option chatResponse) : option Usage :=
  match in_ with
  | None => None
  | Some r =>
      toCoreUsageWithMetrics (resp_PromptEvalCount r) (resp_EvalCount r)
        (resp_TotalDuration r) (resp_LoadDuration r)
        (resp_PromptEvalDuration r) (resp_EvalDuration r)
  end.

(** *** convert.go *)

Definition normalizeRole (role : string) : result string :=
  let normalized := ToLower (TrimSpace role) in
  if String.eqb normalized "" then Err "message role is required"
  else if String.eqb normalized RoleSystem || String.eqb normalized RoleUser
          || String.eqb normalized RoleAssistant then Ok normalized
  else if String.eqb normalized RoleToolResult || String.eqb normalized "tool" then
    Ok "tool"
  else Err ("unsupported role " +:+ Quote role).

Definition message0 : message :=
  {| m_Role := ""; m_Content := ""; m_Thinking := ""; m_Images := [];
     m_ToolCalls := []; m_ToolName := ""; m_ToolCallID := "" |}.

Definition textMessage (role content : string) : result message :=
  check normalizedRole <- normalizeRole role in
  Ok {| m_Role := normalizedRole; m_Content := content; m_Thinking := "";
        m_Images := []; m_ToolCalls := []; m_ToolName := ""; m_ToolCallID := "" |}.

Definition dataImageSource (source : DataSource) : result string :=
  let data := TrimSpace (ds_Data source) in
  if String.eqb data "" then Err "image data is required"
  else if HasPrefix (ToLower data) "data:" then Err "image data must be raw base64"
  else if String.eqb (TrimSpace (ds_MimeType source)) "" then
    Err "image mime type is required"
  else Ok data.

Definition imageDataFromSource (source : Source) : result string :=
  match source with
  | SourceNil => Err "image source is required"
  | SourceData s => dataImageSource s
  | SourceDataPtr None => Err "image data source is nil"
  | SourceDataPtr (Some s) => dataImageSource s
  | SourceURL _ | SourceURLPtr _ =>
      Err "image URL source is not supported (use DataSource with base64 image data)"
  end.

(** The loop of [contentAndImages]: the text written to the builder
    and the images appended. *)
Fixpoint contentAndImages_loop (i : nat) (parts : list ContentPart)
  : result (string * list string) :=
  let at_ := "content part at index " +:+ Itoa (Z.of_nat i) +:+ ": " in
  let text (p : TextPart) rest :=
    check r <- contentAndImages_loop (S i) rest in
    Ok (tp_Text p +:+ fst r, snd r) in
  let image (p : ImagePart) rest :=
    match imageDataFromSource (ip_Source p) with
    | Err err => Err (at_ +:+ err)
    | Ok imageData =>
        check r <- contentAndImages_loop (S i) rest in
        Ok (fst r, imageData :: snd r)
    end in
  match parts with
  | [] => Ok ("", [])
  | part :: rest =>
      match part with
      | PartText p => text p rest
      | PartTextPtr None => Err (at_ +:+ "text part is nil")
      | PartTextPtr (Some p) => text p rest
      | PartImage p => image p rest
      | PartImagePtr None => Err (at_ +:+ "image part is nil")
      | PartImagePtr (Some p) => image p rest
      | PartAudio _ | PartAudioPtr _ =>
          Err (at_ +:+ "ollama: audio content is not supported")
      | PartDocument _ | PartDocumentPtr _ =>
          Err (at_ +:+ "ollama: document content is not supported")
      | PartNil => Err (at_ +:+ "unsupported content part type <nil>")
      end
  end.

Definition contentAndImages (parts : list ContentPart) : result (string * list string) :=
  match parts with
  | [] => Err "content message must include at least one content part"
  | _ => contentAndImages_loop 0 parts
  end.

Definition contentMessage (role : string) (parts : list ContentPart) : result message :=
  check normalizedRole <- normalizeRole role in
  if String.eqb normalizedRole "tool" then Err "content messages cannot use tool role"
  else
    check r <- contentAndImages parts in
    Ok {| m_Role := normalizedRole; m_Content := fst r; m_Thinking := "";
          m_Images := snd r; m_ToolCalls := []; m_ToolName := "";
          m_ToolCallID := "" |}.

Fixpoint toToolCalls_loop (i : nat) (calls : list ToolCall) : result (list toolCall) :=
  match calls with
  | [] => Ok []
  | call :: rest =>
      let name := TrimSpace (tc_Name call) in
      if String.eqb name "" then
        Err ("tool call at index " +:+ Itoa (Z.of_nat i) +:+ " is missing a name")
      else
        let id := TrimSpace (tc_ID call) in
        let id := if String.eqb id "" then "call_" +:+ Itoa (Z.of_nat i + 1) else id in
        let arguments := match tc_Arguments call with
                         | Some v => Some v
                         | None => Some (anyMap ∅)
                         end in
        check out <- toToolCalls_loop (S i) rest in
        Ok ({| otc_ID := id;
               otc_Function := {| tcf_Index := Z.of_nat i; tcf_Name := name;
                                  tcf_Arguments := arguments |} |} :: out)
  end.

Definition toToolCalls (calls : list ToolCall) : result (list toolCall) :=
  match calls with
  | [] => Err "assistant tool call message must include at least one tool call"
  | _ => toToolCalls_loop 0 calls
  end.

Definition assistantToolCallMessage (role : string) (calls : list ToolCall)
  : result message :=
  let role := ToLower (TrimSpace role) in
  let role := if String.eqb role "" then RoleToolCall else role in
  if negb (String.eqb role RoleToolCall) && negb (String.eqb role RoleAssistant) then
    Err ("tool call message role must be " +:+ Quote RoleToolCall +:+ " or "
         +:+ Quote RoleAssistant +:+ ", got " +:+ Quote role)
  else
    check toolCalls <- toToolCalls calls in
    Ok {| m_Role := RoleAssistant; m_Content := ""; m_Thinking := ""; m_Images := [];
          m_ToolCalls := toolCalls; m_ToolName := ""; m_ToolCallID := "" |}.

Definition toolResultMessage (role toolCallID name content : string) : result message :=
  let role := ToLower (TrimSpace role) in
  let role := if String.eqb role "" then RoleToolResult else role in
  if negb (String.eqb role RoleToolResult) && negb (String.eqb role "tool")
     && negb (String.eqb role RoleUser) then
    Err ("tool result message role must be " +:+ Quote RoleToolResult +:+ ", "
         +:+ Quote "tool" +:+ ", or " +:+ Quote RoleUser +:+ ", got " +:+ Quote role)
  else if String.eqb (TrimSpace toolCallID) "" then
    Err "tool result message tool call ID is required"
  else
    Ok {| m_Role := "tool"; m_Content := content; m_Thinking := ""; m_Images := [];
          m_ToolCalls := [];
          m_ToolName := if negb (String.eqb (TrimSpace name) "") then TrimSpace name
                        else "";
          m_ToolCallID := TrimSpace toolCallID |}.

Definition toMessage (union : MessageUnion) : result message :=
  match union with
  | MsgText m => textMessage (tm_Role m) (tm_Content m)
  | MsgTextPtr None => Err "text message is nil"
  | MsgTextPtr (Some m) => textMessage (tm_Role m) (tm_Content m)
  | MsgContent m => contentMessage (cm_Role m) (cm_Parts m)
  | MsgContentPtr None => Err "content message is nil"
  | MsgContentPtr (Some m) => contentMessage (cm_Role m) (cm_Parts m)
  | MsgToolCall m => assistantToolCallMessage (tcm_Role m) (tcm_ToolCalls m)
  | MsgToolCallPtr None => Err "assistant tool call message is nil"
  | MsgToolCallPtr (Some m) => assistantToolCallMessage (tcm_Role m) (tcm_ToolCalls m)
  | MsgToolResult m =>
      toolResultMessage (trm_Role m) (trm_ToolCallID m) (trm_Name m) (trm_Content m)
  | MsgToolResultPtr None => Err "tool result message is nil"
  | MsgToolResultPtr (Some m) =>
      toolResultMessage (trm_Role m) (trm_ToolCallID m) (trm_Name m) (trm_Content m)
  | MsgNil => Err "unsupported message type <nil>"
  end.

Fixpoint toMessages_loop (i : nat) (unions : list MessageUnion) : result (list message) :=
  match unions with
  | [] => Ok []
  | union :: rest =>
      match toMessage union with
      | Err err =>
          Err ("ollama: invalid message at index " +:+ Itoa (Z.of_nat i)
               +:+ ": " +:+ err)
      | Ok msg =>
          check out <- toMessages_loop (S i) rest in
          Ok (msg :: out)
      end
  end.

Definition toMessages (h : store) (params : option ChatParams) : result (list message) :=
  match params with
  | None => Err "ollama: chat params are required"
  | Some p => toMessages_loop 0 (elems h (cp_Messages p))
  end.

Definition normalizeToolArguments (arguments : option any) : result (option any) :=
  match arguments with
  | None => Ok (Some (anyMap ∅))
  | Some v =>
      match asString v with
      | Some typed =>
          let trimmed := TrimSpace typed in
          if String.eqb trimmed "" then Ok (Some (anyMap ∅))
          else match jsonUnmarshal trimmed with
               | Ok decoded => Ok decoded
               | Err _ => Ok (Some v)
               end
      | None =>
          match asRawMessage v with
          | Some typed =>
              let trimmed := TrimSpace typed in
              if String.eqb trimmed "" then Ok (Some (anyMap ∅))
              else jsonUnmarshal trimmed
          | None => Ok arguments
          end
      end
  end.

Fixpoint toCoreToolCalls_loop (i : nat) (calls : list toolCall) : result (list ToolCall) :=
  match calls with
  | [] => Ok []
  | call :: rest =>
      let name := TrimSpace (tcf_Name (otc_Function call)) in
      if String.eqb name "" then
        Err ("ollama: tool call at index " +:+ Itoa (Z.of_nat i)
             +:+ " is missing a function name")
      else
        let id := TrimSpace (otc_ID call) in
        let id := if String.eqb id "" then "call_" +:+ Itoa (Z.of_nat i + 1) else id in
        match normalizeToolArguments (tcf_Arguments (otc_Function call)) with
        | Err err =>
            Err ("ollama: invalid arguments for tool " +:+ Quote name +:+ ": " +:+ err)
        | Ok arguments =>
            check out <- toCoreToolCalls_loop (S i) rest in
            Ok ({| tc_ID := id; tc_Name := name; tc_Arguments := arguments |} :: out)
        end
  end.

Definition toCoreToolCalls (calls : list toolCall) : result (list ToolCall) :=
  toCoreToolCalls_loop 0 calls.

Definition maxTokens (params : option ChatParams) : option Z :=
  match params with
  | None => None
  | Some p =>
      match cp_MaxOutputTokens p with
      | Some v => if (0 <? v)%Z then Some v
                  else if (0 <? cp_MaxLength p)%Z then Some (cp_MaxLength p) else None
      | None => if (0 <? cp_MaxLength p)%Z then Some (cp_MaxLength p) else None
      end
  end.

Definition requestOptions (params : option ChatParams) : option options :=
  match params with
  | None => None
  | Some _ =>
      match maxTokens params, temperature params with
      | None, None => None
      | max, temp => Some {| opt_num_predict := max; opt_temperature := temp |}
      end
  end.

Definition thinkValue (params : option ChatParams) : think :=
  match params with
  | None => ThinkNil
  | Some p =>
      let raw := TrimSpace (cp_Thinking p) in
      let raw := if String.eqb raw "" then TrimSpace (cp_ReasoningEffort p) else raw in
      if String.eqb raw "" then ThinkNil
      else
        let lower := ToLower raw in
        if String.eqb lower "true" then ThinkBool true
        else if String.eqb lower "false" then ThinkBool false
        else ThinkString lower
  end.

Definition formatFromOutput (output : option Schema) : result (option string) :=
  match output with
  | None => Ok None
  | Some o =>
      match sch_Schema o with
      | None => Err "ollama: output schema is required"
      | Some m =>
          match jsonMarshal (Some (anyMap m)) with
          | Err err => Err ("ollama: marshal output schema: " +:+ err)
          | Ok payload => Ok (Some payload)
          end
      end
  end.

(** *** chat.go *)

Definition buildRequestTemplate (a : Adapter) (h : store) (params : option ChatParams)
  : result (chatRequest * list message * gmap string ServerTool * gset string * Z) :=
  check messages <- toMessages h params in
  check t <- toTools pkg params in
  let '(tools, serverTools, clientTools) := t in
  check format <- formatFromOutput (paramsOutput params) in
  let request :=
    {| req_Model := Model a;
       req_Messages := [];
       req_Tools := tools;
       req_Format := match format with
                     | Some f => if Nat.ltb 0 (String.length f) then Some f else None
                     | None => None
                     end;
       req_Stream := None;
       req_Think := thinkValue params;
       req_Options := requestOptions params |} in
  Ok (request, messages, serverTools, clientTools,
      maxLoops params (negb (Nat.eqb (size serverTools) 0))).

Definition withMessages (request : chatRequest) (messages : list message)
    (stream : bool) : chatRequest :=
  {| req_Model := req_Model request;
     req_Messages := messages;
     req_Tools := req_Tools request;
     req_Format := req_Format request;
     req_Stream := Some stream;
     req_Think := req_Think request;
     req_Options := req_Options request |}.

Variable B : backend Adapter chatRequest chatResponse.

Record dispatchState := {
  d_messages : list message;
  d_conversation : slice;
  d_store : store;
  d_pending : list ToolCall
}.

(** [for _, call := range coreCalls { ... }]: the error [Chat] returns
    from inside the loop, if any, and the variables as the loop leaves
    them. *)
Fixpoint dispatch (serverTools : gmap string ServerTool) (clientTools : gset string)
    (coreCalls : list ToolCall) (d : dispatchState) : option error * dispatchState :=
  match coreCalls with
  | [] => (None, d)
  | call :: rest =>
      match serverTools !! tc_Name call with
      | Some serverTool =>
          match st_Handler serverTool with
          | Some handler =>
              let '(result, callErr) := handler (tc_Arguments call) in
              let result :=
                match callErr with
                | Some e => "tool_error: " +:+ e
                | None => result
                end in
              let '(conversation, h) :=
                append_slice (d_store d) (d_conversation d)
                  [MsgToolResult {| trm_Role := RoleToolResult;
                                    trm_ToolCallID := tc_ID call;
                                    trm_Name := tc_Name call;
                                    trm_Content := result |}] in
              dispatch serverTools clientTools rest
                {| d_messages :=
                     d_messages d
                     ++ [{| m_Role := "tool"; m_Content := result; m_Thinking := "";
                            m_Images := []; m_ToolCalls := [];
                            m_ToolName := tc_Name call;
                            m_ToolCallID := tc_ID call |}];
                   d_conversation := conversation;
                   d_store := h;
                   d_pending := d_pending d |}
          | None =>
              (Some "runtime error: invalid memory address or nil pointer dereference", d)
          end
      | None =>
          if decide (tc_Name call ∈ clientTools) then
            dispatch serverTools clientTools rest
              {| d_messages := d_messages d;
                 d_conversation := d_conversation d;
                 d_store := d_store d;
                 d_pending := d_pending d ++ [call] |}
          else
            (Some ("ollama: tool " +:+ Quote (tc_Name call)
                   +:+ " was requested but not registered"), d)
      end
  end.

Record loopState := {
  ls_world : world B;
  ls_store : store;
  ls_messages : list message;
  ls_conversation : slice;
  ls_reasoningParts : list string;
  ls_sent : list chatRequest
}.

Definition finish (w : world B) (h : store) (sent : list chatRequest)
    (r : result ChatResult) : chatRun (world B) chatRequest :=
  {| run_result := r; run_world := w; run_store := h; run_sent := sent |}.

Section Loop.
Variables (a : Adapter) (requestTemplate : chatRequest)
          (serverTools : gmap string ServerTool) (clientTools : gset string)
          (maxLoopCount : Z).

(** [for i := 0; i < maxLoopCount; i++ { ... }] followed by the final
    error; [n] counts the iterations that remain. *)
Fixpoint chatLoop (n : nat) (st : loopState) : chatRun (world B) chatRequest :=
  match n with
  | O =>
      finish (ls_world st) (ls_store st) (ls_sent st)
        (Err ("ollama: reached max tool loop count (" +:+ Itoa maxLoopCount +:+ ")"))
  | S n' =>
      let request := withMessages requestTemplate (ls_messages st) false in
      let '(posted, w) := post B (ls_world st) a request in
      let sent := ls_sent st ++ [request] in
      match posted with
      | Err err => finish w (ls_store st) sent (Err err)
      | Ok response =>
        let reasoningParts :=
          appendReasoningPart (ls_reasoningParts st)
            (m_Thinking (resp_Message response)) in
        let assistantText := m_Content (resp_Message response) in
        match m_ToolCalls (resp_Message response) with
        | [] =>
          let '(conversation, h1) :=
            append_slice (ls_store st) (ls_conversation st)
              [MsgText {| tm_Role := RoleAssistant; tm_Content := assistantText |}] in
          let '(messages, h2) := append_slice h1 nil_slice (elems h1 conversation) in
          finish w h2 sent
            (Ok {| cr_Text := assistantText;
                   cr_Reasoning := joinReasoningParts reasoningParts;
                   cr_Messages := messages;
                   cr_ToolCalls := [];
                   cr_FinishReason := nonEmpty (resp_DoneReason response) "stop";
                   cr_Usage := toCoreChatUsage (Some response) |})
        | toolCalls =>
          let messages := ls_messages st ++ [resp_Message response] in
          match toCoreToolCalls toolCalls with
          | Err err => finish w (ls_store st) sent (Err err)
          | Ok coreCalls =>
            let '(conversation, h0) :=
              if negb (String.eqb (TrimSpace assistantText) "") then
                append_slice (ls_store st) (ls_conversation st)
                  [MsgText {| tm_Role := RoleAssistant; tm_Content := assistantText |}]
              else (ls_conversation st, ls_store st) in
            let '(conversation, h1) :=
              append_slice h0 conversation
                [MsgToolCall {| tcm_Role := RoleToolCall;
                                tcm_ToolCalls := coreCalls |}] in
            match dispatch serverTools clientTools coreCalls
                    {| d_messages := messages; d_conversation := conversation;
                       d_store := h1; d_pending := [] |} with
            | (Some err, d) => finish w (d_store d) sent (Err err)
            | (None, d) =>
              match d_pending d with
              | _ :: _ =>
                let '(resultMessages, h2) :=
                  append_slice (d_store d) nil_slice
                    (elems (d_store d) (d_conversation d)) in
                finish w h2 sent
                  (Ok {| cr_Text := "";
                         cr_Reasoning := joinReasoningParts reasoningParts;
                         cr_Messages := resultMessages;
                         cr_ToolCalls := d_pending d;
                         cr_FinishReason := "tool_calls";
                         cr_Usage := toCoreChatUsage (Some response) |})
              | [] =>
                chatLoop n'
                  {| ls_world := w; ls_store := d_store d;
                     ls_messages := d_messages d;
                     ls_conversation := d_conversation d;
                     ls_reasoningParts := reasoningParts;
                     ls_sent := sent |}
              end
            end
          end
        end
      end
  end.
End Loop.

(** The method [Chat(ctx, params)] of the adapter. *)
Definition Chat (a : option Adapter) (params : option ChatParams)
    (h : store) (w : world B) : chatRun (world B) chatRequest :=
  let stop e := {| run_result := Err e; run_world := w; run_store := h;
                   run_sent := [] |} in
  match validate a with
  | Err err => stop err
  | Ok a =>
    match buildRequestTemplate a h params with
    | Err err => stop err
    | Ok (requestTemplate, messages, serverTools, clientTools, maxLoopCount) =>
      let '(conversation, h1) := cloneCoreMessages h params in
      chatLoop a requestTemplate serverTools clientTools maxLoopCount
        (Z.to_nat maxLoopCount)
        {| ls_world := w; ls_store := h1; ls_messages := messages;
           ls_conversation := conversation; ls_reasoningParts := [];
           ls_sent := [] |}
    end
  end.

(** *** chat.go: ChatStream *)

Record streamState := {
  ss_content : string;
  ss_reasoning : string;
  ss_finishReason : string;
  ss_usage : option Usage
}.

(** The chunks one decoded line contributes before the test of
    [event.Done], and the variables afterwards. *)
Definition streamEvent1 (event : chatResponse) (ss : streamState)
  : list StreamChunk * streamState :=
  let usage := toCoreChatUsage (Some event) in
  let '(nextReasoning, reasoningDelta) :=
    appendStreamSegment (ss_reasoning ss) (TrimSpace (m_Thinking (resp_Message event))) in
  let out1 :=
    if negb (String.eqb reasoningDelta "") then
      [reasoningChunk reasoningDelta (TrimSpace nextReasoning)]
    else [] in
  let '(nextContent, delta) :=
    appendStreamSegment (ss_content ss) (m_Content (resp_Message event)) in
  let out2 :=
    if negb (String.eqb delta "") then [contentChunk delta nextContent] else [] in
  (out1 ++ out2,
   {| ss_content := nextContent; ss_reasoning := nextReasoning;
      ss_finishReason := ss_finishReason ss; ss_usage := usage |}).

(** [for scanner.Scan() { ... }] and what follows it. *)
Fixpoint streamLines (lines : list string) (readErr : option error)
    (ss : streamState) : list StreamChunk :=
  match lines with
  | [] =>
      match readErr with
      | Some err => [errorChunk ("ollama: stream read failed: " +:+ err)]
      | None =>
          [doneChunk (nonEmpty (ss_finishReason ss) "stop")
                     (TrimSpace (ss_reasoning ss)) (ss_usage ss)]
      end
  | text :: rest =>
      let line := TrimSpace text in
      if String.eqb line "" then streamLines rest readErr ss
      else
        match unmarshalChatResponse line with
        | Err err => [errorChunk ("ollama: decode stream event: " +:+ err)]
        | Ok event =>
            let '(out, ss) := streamEvent1 event ss in
            if resp_Done event then
              out ++ [doneChunk (nonEmpty (resp_DoneReason event) "stop")
                                (TrimSpace (ss_reasoning ss)) (ss_usage ss)]
            else out ++ streamLines rest readErr ss
        end
  end.

Definition liveChunks (opened : streamOpen) : list StreamChunk :=
  match opened with
  | OpenMarshalError err => [errorChunk ("ollama: marshal stream request: " +:+ err)]
  | OpenBuildError err => [errorChunk ("ollama: build stream request: " +:+ err)]
  | OpenRequestError err => [errorChunk ("ollama: stream request failed: " +:+ err)]
  | OpenAPIError message => [errorChunk message]
  | OpenBody lines readErr =>
      streamLines lines readErr
        {| ss_content := ""; ss_reasoning := ""; ss_finishReason := "";
           ss_usage := None |}
  end.

(** The method [ChatStream(ctx, params)] of the adapter. *)
Definition ChatStream (a : option Adapter) (params : option ChatParams)
    (h : store) (w : world B) : streamRun (world B) :=
  let stop e := {| sr_chunks := Err e; sr_world := w; sr_store := h |} in
  match validate a with
  | Err err => stop err
  | Ok a =>
    match buildRequestTemplate a h params with
    | Err err => stop err
    | Ok (request, messages, serverTools, clientTools, _) =>
      if simulated serverTools clientTools params then
        let run := Chat (Some a) params h w in
        {| sr_chunks := Ok (replayChunks (run_store run) params (run_result run));
           sr_world := run_world run; sr_store := run_store run |}
      else
        let '(opened, w') := openStream B w a (withMessages request messages true) in
        {| sr_chunks := Ok (liveChunks opened); sr_world := w'; sr_store := h |}
    end
  end.

End Ollama.
End Ollama.


(** ** Well-formed slices *)

Module Slices.
Section Slices.
Context `{GoRuntime}.

(** The slice [s] is a window of its backing array in the store [h]:
    [len(s) <= cap(s)] and the capacity fits the array. *)
Definition slice_ok (h : store) (s : slice) : Prop :=
  sl_len s <= sl_cap s
  /\ match sl_array s with
     | Some l => exists arr, h !! l = Some arr /\ sl_off s + sl_cap s <= length arr
     | None => sl_cap s = 0
     end.

(** The backing array of [s] was allocated after the store [h0] was
    taken: [s] shares nothing with the slices of [h0]. *)
Definition fresh_for (h0 : store) (s : slice) : Prop :=
  match sl_array s with
  | Some l => l ∉ dom h0
  | None => True
  end.

(** Every array of [h0] is in [h] with the same contents. *)
Definition preserves (h0 h : store) : Prop :=
  forall l arr, h0 !! l = Some arr -> h !! l = Some arr.

(** A slice that [Chat] owns with respect to the store [h0] of the
    caller: well formed, on an array of its own, in a store that keeps
    the arrays of [h0] as they were. *)
Definition owned (h0 h : store) (s : slice) : Prop :=
  slice_ok h s /\ fresh_for h0 s /\ preserves h0 h.

End Slices.
End Slices.
Export Slices.

(** ** Vocabulary of the properties *)

Module Spec.
Section Spec.
Context `{GoRuntime}.



(** A turn [Chat] generates: an assistant text, the tool calls of
    the assistant or the result of a server tool. *)
Definition generated_turn (m : MessageUnion) : Prop :=
  match m with
  | MsgText t => tm_Role t = RoleAssistant
  | MsgToolCall t => tcm_Role t = RoleToolCall
  | MsgToolResult t => trm_Role t = RoleToolResult
  | _ => False
  end.

(** The messages of the request, as the caller's store holds them. *)
Definition input_messages (h : store) (params : option ChatParams)
  : list MessageUnion :=
  match params with
  | Some p => elems h (cp_Messages p)
  | None => []
  end.

Definition input_ok (h : store) (params : option ChatParams) : Prop :=
  match params with
  | Some p => slice_ok h (cp_Messages p)
  | None => True
  end.

(** What holds of the conversation when [Chat] returns a result:
    its messages live in an array the caller's store does not
    have, and read as the input followed by generated turns. *)
Definition conversation_law {W R} (h0 : store) (input : list MessageUnion)
    (run : chatRun W R) : Prop :=
  forall result, run_result run = Ok result ->
    owned h0 (run_store run) (cr_Messages result)
    /\ sl_array (cr_Messages result) <> None
    /\ exists gen,
         elems (run_store run) (cr_Messages result) = input ++ gen
         /\ Forall generated_turn gen.

(** The run left the caller's messages as they were: every array of
    the caller's store is unchanged, so [params.Messages] reads the
    same before and after. *)
Definition input_untouched {W R} (h0 : store) (params : option ChatParams)
    (run : chatRun W R) : Prop :=
  preserves h0 (run_store run)
  /\ input_messages (run_store run) params = input_messages h0 params.

(** What claim C10 says of one call of [Chat]. *)
Definition chat_messages_law {W R} (h0 : store) (params : option ChatParams)
    (run : chatRun W R) : Prop :=
  input_untouched h0 params run
  /\ conversation_law h0 (input_messages h0 params) run.

(** What a server tool's handler contributes as the content of the
    tool-result turn. *)
Definition toolOutput (handler : HandlerFunc) (arguments : option any) : string :=
  let '(result, callErr) := handler arguments in
  match callErr with
  | Some e => "tool_error: " +:+ e
  | None => result
  end.


(** The run ended with a fatal error after sending the requests
    [sent] and no other. *)
Definition aborted_after {W R} (run : chatRun W R) (sent : list R) : Prop :=
  run_sent run = sent /\ exists e, run_result run = Err e.

(** After the requests [sent], the run sent [request] next. *)
Definition sends_next {W R} (run : chatRun W R) (sent : list R) (request : R)
  : Prop :=
  exists more, run_sent run = sent ++ request :: more.

(** A terminal chunk: [Done] or [Error]. *)
Definition terminal (c : StreamChunk) : bool :=
  String.eqb (sc_Type c) StreamChunkDone || String.eqb (sc_Type c) StreamChunkError.

(** The chunks end with a terminal chunk and hold no other one. *)
Fixpoint ends_once (chunks : list StreamChunk) : bool :=
  match chunks with
  | [] => false
  | [c] => terminal c
  | c :: rest => negb (terminal c) && ends_once rest
  end.

(** No chunk of the list is terminal. *)
Definition open_chunks (chunks : list StreamChunk) : Prop :=
  forallb (fun c => negb (terminal c)) chunks = true.

(** The chunks of one type, the deltas they carry, and the cumulative
    fields of the last content and of the last reasoning chunk. *)
Definition chunks_of (kind : string) (chunks : list StreamChunk) : list StreamChunk :=
  List.filter (fun c => String.eqb (sc_Type c) kind) chunks.

Definition deltas (kind : string) (chunks : list StreamChunk) : list string :=
  map sc_Delta (chunks_of kind chunks).

Definition final_content (chunks : list StreamChunk) : string :=
  match last (chunks_of StreamChunkContent chunks) with
  | Some c => sc_Content c
  | None => ""
  end.

Definition final_reasoning (chunks : list StreamChunk) : string :=
  match last (chunks_of StreamChunkReasoning chunks) with
  | Some c => sc_Reasoning c
  | None => ""
  end.

(** The same fields for chunks that continue a stream whose content
    or reasoning so far is [before]. *)
Definition content_from (before : string) (chunks : list StreamChunk) : string :=
  match last (chunks_of StreamChunkContent chunks) with
  | Some c => sc_Content c
  | None => before
  end.

Definition reasoning_from (before : string) (chunks : list StreamChunk) : string :=
  match last (chunks_of StreamChunkReasoning chunks) with
  | Some c => sc_Reasoning c
  | None => before
  end.

(** The chunks continue the content [before]: what they add to it is
    the concatenation of their deltas. *)
Definition extends_content (before : string) (chunks : list StreamChunk) : Prop :=
  content_from before chunks
  = before +:+ concat_all (deltas StreamChunkContent chunks).

(** The chunks continue the reasoning made of [parts]: each delta,
    seen through [f], is one more part. *)
Definition extends_parts (f : string -> string) (parts : list string)
    (chunks : list StreamChunk) : Prop :=
  reasoning_from (joinReasoningParts parts) chunks
  = joinReasoningParts (parts ++ map f (deltas StreamChunkReasoning chunks)).

(** The chunks continue the reasoning [before], which they show
    trimmed. *)
Definition extends_trimmed (before : string) (chunks : list StreamChunk) : Prop :=
  reasoning_from (TrimSpace before) chunks
  = TrimSpace (before +:+ concat_all (deltas StreamChunkReasoning chunks)).

(** The deltas of the content chunks, put together, are the content of
    the last one. *)
Definition content_law (chunks : list StreamChunk) : Prop :=
  concat_all (deltas StreamChunkContent chunks) = final_content chunks.

(** The same for the reasoning chunks. *)
Definition reasoning_law (chunks : list StreamChunk) : Prop :=
  concat_all (deltas StreamChunkReasoning chunks) = final_reasoning chunks.





(** The call names a registered client tool, and no server tool. *)
Definition client_call (serverTools : gmap string ServerTool)
    (clientTools : gset string) (call : ToolCall) : Prop :=
  tc_Name call ∈ clientTools /\ serverTools !! tc_Name call = None.

(** The shape of a result of [Chat]: its tool calls are calls of
    client tools, and when there are some the finish reason is
    [tool_calls] and the text is empty. *)
Definition handoff_shape (serverTools : gmap string ServerTool)
    (clientTools : gset string) (r : ChatResult) : Prop :=
  Forall (client_call serverTools clientTools) (cr_ToolCalls r)
  /\ (cr_ToolCalls r <> [] -> cr_FinishReason r = "tool_calls" /\ cr_Text r = "").

(** What the tables of registered tools satisfy: the names of the
    definitions are not empty and all different, a name is defined
    when it is a server or a client tool and never both, and a server
    tool is stored under its own name, with a handler. *)
Definition tables_ok (tools : list toolDefinition)
    (serverTools : gmap string ServerTool) (clientTools : gset string) : Prop :=
  NoDup (map td_Name tools)
  /\ Forall (fun t => td_Name t <> "") tools
  /\ (forall name, name ∈ map td_Name tools
                   <-> is_Some (serverTools !! name) \/ name ∈ clientTools)
  /\ (forall name, name ∈ clientTools -> serverTools !! name = None)
  /\ (forall name tool, serverTools !! name = Some tool ->
        st_Name tool = name /\ st_Handler tool <> None).

(** The same for the tables while [toTools] fills them, with the set
    of the names seen. *)
Definition acc_ok (acc : toolTables) : Prop :=
  tables_ok (tt_tools acc) (tt_serverTools acc) (tt_clientTools acc)
  /\ forall name, name ∈ tt_seenNames acc <-> name ∈ map td_Name (tt_tools acc).

(** The roles the Ollama adapter sends. *)
Definition ollama_role (role : string) : Prop :=
  role = "system" \/ role = "user" \/ role = "assistant" \/ role = "tool".

(** The lines of a stream an adapter passes over: blank lines,
    comments and lines that are not data lines and, in the Claude
    adapter, data lines without a payload or with the payload
    [[DONE]]; in the Ollama adapter, blank lines. *)
Definition openai_skips (text : string) : bool :=
  let line := TrimSpace text in
  String.eqb line "" || HasPrefix line ":" || negb (HasPrefix line "data:").

Definition claude_skips (text : string) : bool :=
  openai_skips text
  || (let payload := TrimSpace (TrimPrefix (TrimSpace text) "data:") in
      String.eqb payload "" || String.eqb payload "[DONE]").

Definition ollama_skips (text : string) : bool :=
  String.eqb (TrimSpace text) "".

(** The data line that ends a stream of the OpenAI adapter. *)
Definition openai_done (text : string) : bool :=
  negb (openai_skips text)
  && String.eqb (TrimSpace (TrimPrefix (TrimSpace text) "data:")) "[DONE]".



(** What the loop over the tool calls of one turn leaves behind for
    the call [call]: a server tool's call gives a tool-result turn
    with the output of its handler, any other call none. *)
Definition served (serverTools : gmap string ServerTool) (call : ToolCall)
    : option string :=
  match serverTools !! tc_Name call with
  | Some serverTool =>
      match st_Handler serverTool with
      | Some handler => Some (toolOutput handler (tc_Arguments call))
      | None => None
      end
  | None => None
  end.

Definition resultTurn (serverTools : gmap string ServerTool) (call : ToolCall)
    : option MessageUnion :=
  match served serverTools call with
  | Some content =>
      Some (MsgToolResult {| trm_Role := RoleToolResult;
                             trm_ToolCallID := tc_ID call;
                             trm_Name := tc_Name call;
                             trm_Content := content |})
  | None => None
  end.

Definition ollama_resultMessage (serverTools : gmap string ServerTool)
    (call : ToolCall) : option Ollama.message :=
  match served serverTools call with
  | Some content =>
      Some {| Ollama.m_Role := "tool"; Ollama.m_Content := content;
              Ollama.m_Thinking := ""; Ollama.m_Images := [];
              Ollama.m_ToolCalls := []; Ollama.m_ToolName := tc_Name call;
              Ollama.m_ToolCallID := tc_ID call |}
  | None => None
  end.

(** The calls that are left to the caller. *)
Definition unserved (serverTools : gmap string ServerTool)
    (calls : list ToolCall) : list ToolCall :=
  List.filter (fun call => match serverTools !! tc_Name call with
                           | Some _ => false
                           | None => true
                           end) calls.

End Spec.
End Spec.
Export Spec.

(** ** A runtime to run the adapters on

    An instance of the runtime for ASCII text, a toy wire format in
    place of JSON, and backends that answer from a script. *)

Module Example.

Definition isSpace (c : ascii) : bool :=
  match c with
  | "009"%char | "010"%char | "011"%char | "012"%char | "013"%char | " "%char => true
  | _ => false
  end.

Fixpoint trimLeft (s : string) : string :=
  match s with
  | String c rest => if isSpace c then trimLeft rest else s
  | EmptyString => EmptyString
  end.

Fixpoint trimRight (s : string) : string :=
  match s with
  | EmptyString => EmptyString
  | String c rest =>
      match trimRight rest with
      | EmptyString => if isSpace c then EmptyString else String c EmptyString
      | t => String c t
      end
  end.

Definition lowerChar (c : ascii) : ascii :=
  let n := nat_of_ascii c in
  if Nat.leb 65 n && Nat.leb n 90 then ascii_of_nat (n + 32) else c.

Fixpoint lower (s : string) : string :=
  match s with
  | EmptyString => EmptyString
  | String c rest => String (lowerChar c) (lower rest)
  end.

Definition doubleQuote : string := String "034"%char EmptyString.

Definition quote (s : string) : string := doubleQuote +:+ s +:+ doubleQuote.

(** Values of type [any]: a string, a raw JSON text, a boolean, or an
    object whose field values are kept as JSON text. *)
Inductive value :=
| VString (s : string)
| VRaw (text : string)
| VBool (b : bool)
| VObject (fields : list (string * string)).

Definition encode (v : option value) : string :=
  match v with
  | None => "null"
  | Some (VString s) => quote s
  | Some (VRaw text) => text
  | Some (VBool true) => "true"
  | Some (VBool false) => "false"
  | Some (VObject fields) =>
      "{" +:+ Join (map (fun kv => quote (fst kv) +:+ ":" +:+ snd kv) fields) ","
      +:+ "}"
  end.

Definition object (m : gmap string (option value)) : value :=
  VObject (map (fun kv => (fst kv, encode (snd kv))) (map_to_list m)).

(** The JSON texts the decoder knows. *)
Definition decode (text : string) : result (option value) :=
  if String.eqb text "null" then Ok None
  else if String.eqb text "true" then Ok (Some (VBool true))
  else if String.eqb text "false" then Ok (Some (VBool false))
  else if String.eqb text "{}" then Ok (Some (VObject []))
  else Err "invalid character".

Definition runtime : GoRuntime :=
  {| TrimSpace := fun s => trimRight (trimLeft s);
     ToLower := lower;
     Quote := quote;
     Getenv := fun _ => "";
     any := value;
     float64 := Z;
     asString := fun v => match v with VString s => Some s | _ => None end;
     asRawMessage := fun v => match v with VRaw s => Some s | _ => None end;
     anyString := VString;
     anyBool := VBool;
     anyMap := object;
     jsonUnmarshal := decode;
     jsonMarshal := fun v => Ok (encode v);
     jsonMarshalIndent := fun m => Ok (encode (Some (object m)));
     slack := fun _ need => need |}.
#[local] Existing Instance runtime.

(** *** The toy wire format

    A payload is a tag, a colon and a text: [reasoning:...] and
    [content:...] (also [thinking:...] and [text:...] for Claude), or
    the bare tags [stop] and [done]. *)

Definition tagged (tag payload : string) : option string :=
  if HasPrefix payload (tag +:+ ":") then Some (TrimPrefix payload (tag +:+ ":"))
  else None.

Definition openaiStreamChoice (content reasoning : string) : OpenAI.streamChoice :=
  {| OpenAI.sch_Delta :=
       {| OpenAI.sd_Content := content; OpenAI.sd_Text := "";
          OpenAI.sd_ReasoningContent := reasoning; OpenAI.sd_Refusal := "" |};
     OpenAI.sch_Text := ""; OpenAI.sch_Reasoning := "";
     OpenAI.sch_FinishReason := "" |}.

Definition openaiDecoders : OpenAI.Decoders :=
  {| OpenAI.unmarshalStreamEvent := fun payload =>
       match tagged "reasoning" payload, tagged "content" payload with
       | Some text, _ =>
           Ok {| OpenAI.ev_Choices := [openaiStreamChoice "" text];
                 OpenAI.ev_Usage := None |}
       | None, Some text =>
           Ok {| OpenAI.ev_Choices := [openaiStreamChoice text ""];
                 OpenAI.ev_Usage := None |}
       | None, None => Err "invalid character"
       end;
     OpenAI.unmarshalRawChoices := fun _ => [];
     OpenAI.parseAssistantContent := fun raw => Ok raw;
     OpenAI.extractTextFromRaw := fun _ => Ok "";
     OpenAI.extractReasoningFromRaw := fun _ => Ok "" |}.

Definition claudeEvent (type : string) (delta : option Claude.streamDelta)
  : Claude.streamEvent :=
  {| Claude.ev_Type := type; Claude.ev_Delta := delta;
     Claude.ev_Error := None; Claude.ev_Usage := None |}.

Definition claudeDecoders : Claude.Decoders :=
  {| Claude.unmarshalStreamEvent := fun payload =>
       match tagged "thinking" payload, tagged "text" payload with
       | Some text, _ =>
           Ok (claudeEvent "content_block_delta"
                 (Some {| Claude.sd_Type := "thinking_delta"; Claude.sd_Text := "";
                          Claude.sd_Thinking := text |}))
       | None, Some text =>
           Ok (claudeEvent "content_block_delta"
                 (Some {| Claude.sd_Type := "text_delta"; Claude.sd_Text := text;
                          Claude.sd_Thinking := "" |}))
       | None, None =>
           if String.eqb payload "stop" then Ok (claudeEvent "message_stop" None)
           else Err "invalid character"
       end |}.

Definition ollamaResponse (message : Ollama.message) (done : bool)
  : Ollama.chatResponse :=
  {| Ollama.resp_Model := "llama"; Ollama.resp_CreatedAt := "";
     Ollama.resp_Message := message; Ollama.resp_Done := done;
     Ollama.resp_DoneReason := if done then "stop" else "";
     Ollama.resp_TotalDuration := 0; Ollama.resp_LoadDuration := 0;
     Ollama.resp_PromptEvalCount := 0; Ollama.resp_PromptEvalDuration := 0;
     Ollama.resp_EvalCount := 0; Ollama.resp_EvalDuration := 0 |}.

Definition ollamaMessage (content thinking : string) (calls : list Ollama.toolCall)
  : Ollama.message :=
  {| Ollama.m_Role := "assistant"; Ollama.m_Content := content;
     Ollama.m_Thinking := thinking; Ollama.m_Images := [];
     Ollama.m_ToolCalls := calls; Ollama.m_ToolName := "";
     Ollama.m_ToolCallID := "" |}.

Definition ollamaDecoders : Ollama.Decoders :=
  {| Ollama.unmarshalChatResponse := fun line =>
       match tagged "thinking" line, tagged "content" line with
       | Some text, _ => Ok (ollamaResponse (ollamaMessage "" text []) false)
       | None, Some text => Ok (ollamaResponse (ollamaMessage text "" []) false)
       | None, None =>
           if String.eqb line "done" then Ok (ollamaResponse (ollamaMessage "" "" []) true)
           else Err "invalid character"
       end |}.
#[local] Existing Instance openaiDecoders.
#[local] Existing Instance claudeDecoders.
#[local] Existing Instance ollamaDecoders.

(** *** Scripted backends

    The world is the list of the responses still to give; a stream
    always opens and delivers the lines of the script. *)
Definition scripted (A Req Resp : Type) (lines : list string)
  : backend A Req Resp :=
  {| world := list Resp;
     post := fun w _ _ =>
       match w with
       | response :: rest => (Ok response, rest)
       | [] => (Err "connection refused", [])
       end;
     openStream := fun w _ _ => (OpenBody lines None, w) |}.

Definition openaiBackend lines :=
  scripted OpenAI.Adapter OpenAI.chatCompletionRequest OpenAI.chatCompletionResponse lines.
Definition claudeBackend lines :=
  scripted Claude.Adapter Claude.messageRequest Claude.messageResponse lines.
Definition ollamaBackend lines :=
  scripted Ollama.Adapter Ollama.chatRequest Ollama.chatResponse lines.

Definition openaiAdapter : OpenAI.Adapter :=
  {| OpenAI.APIKey := "test-key"; OpenAI.Model := "gpt-4o-mini"; OpenAI.BaseURL := "" |}.
Definition claudeAdapter : Claude.Adapter :=
  {| Claude.APIKey := "test-key"; Claude.Model := "claude-test";
     Claude.BaseURL := ""; Claude.AnthropicVersion := "" |}.

(** The store of a caller that holds one slice of messages, and the
    parameters of a request with these messages. *)
Definition callerStore (messages : list MessageUnion) : gmap positive (list MessageUnion) :=
  {[ 1%positive := messages ]}.

Definition callerSlice (messages : list MessageUnion) : slice :=
  {| sl_array := Some 1%positive; sl_off := 0;
     sl_len := length messages; sl_cap := length messages |}.

Definition request (messages : list MessageUnion) (tools : list ToolUnion)
    (loops : Z) : ChatParams :=
  {| cp_Tools := tools; cp_Output := None; cp_Messages := callerSlice messages;
     cp_MaxOutputTokens := None; cp_Temperature := None; cp_Thinking := "";
     cp_ReasoningEffort := ""; cp_MaxAgenticLoops := loops; cp_MaxLength := 0 |}.

Definition userSaysHi : list MessageUnion :=
  [MsgText {| tm_Role := RoleUser; tm_Content := "hi" |}].

(** The stream of the test of the OpenAI adapter on reasoning: two
    thoughts around a piece of content. *)
Definition twoThoughts : list string :=
  ["data: reasoning:first thought"; "";
   "data: content:hello"; "";
   "data: reasoning:second thought"; "";
   "data: [DONE]"; ""].

(** *** Tools and answers of the examples *)

Definition clock : ServerTool :=
  {| st_Name := "clock"; st_Description := "the time of day";
     st_Parameters := None;
     st_Handler := Some (fun _ => ("12:00", None)) |}.

Definition broken : ServerTool :=
  {| st_Name := "broken"; st_Description := "a tool that fails";
     st_Parameters := None;
     st_Handler := Some (fun _ => ("", Some "boom")) |}.

Definition lookup : ClientTool :=
  {| ct_Name := "lookup"; ct_Description := "look a word up";
     ct_Parameters := None |}.

Definition serverTable : gmap string ServerTool :=
  {[ "clock" := clock; "broken" := broken ]}.

Definition clientTable : gset string := {[ "lookup" ]}.

Definition openaiCall (id name : string) : OpenAI.chatToolCall :=
  {| OpenAI.ctc_ID := id; OpenAI.ctc_Type := "function";
     OpenAI.ctc_Function :=
       {| OpenAI.tcf_Name := name; OpenAI.tcf_Arguments := "{}" |} |}.

Definition openaiChoice (content : string) (calls : list OpenAI.chatToolCall)
  : OpenAI.chatChoice :=
  {| OpenAI.ch_Message :=
       {| OpenAI.rm_Content := content; OpenAI.rm_ToolCalls := calls;
          OpenAI.rm_ReasoningContent := ""; OpenAI.rm_Refusal := "" |};
     OpenAI.ch_Text := ""; OpenAI.ch_DeltaText := "";
     OpenAI.ch_Reasoning := ""; OpenAI.ch_FinishReason := "" |}.

Definition openaiReply (content : string) (calls : list OpenAI.chatToolCall)
  : OpenAI.chatCompletionResponse :=
  {| OpenAI.resp_Choices := [openaiChoice content calls];
     OpenAI.resp_Usage := None;
     OpenAI.resp_RawChoices := [] |}.

Definition claudeUse (id name : string) : Claude.contentBlock :=
  {| Claude.cb_Type := "tool_use"; Claude.cb_Text := ""; Claude.cb_Thinking := "";
     Claude.cb_Signature := ""; Claude.cb_Source := None; Claude.cb_ID := id;
     Claude.cb_Name := name; Claude.cb_Input := None; Claude.cb_ToolUseID := "";
     Claude.cb_Content := None |}.


Definition claudeReply (content : list Claude.contentBlock) : Claude.messageResponse :=
  {| Claude.resp_ID := "msg_1"; Claude.resp_Role := "assistant";
     Claude.resp_Content := content; Claude.resp_StopReason := "";
     Claude.resp_Usage := None |}.

Definition ollamaCall (id name : string) : Ollama.toolCall :=
  {| Ollama.otc_ID := id;
     Ollama.otc_Function :=
       {| Ollama.tcf_Index := 0; Ollama.tcf_Name := name;
          Ollama.tcf_Arguments := None |} |}.


(** The state of the loop of [Chat] before its first request, for a
    conversation that is still empty. *)
Definition openaiStart (answers : list OpenAI.chatCompletionResponse)
  : OpenAI.loopState (openaiBackend []) :=
  {| OpenAI.ls_world := (answers : world (openaiBackend [])); OpenAI.ls_store := ∅;
     OpenAI.ls_messages := []; OpenAI.ls_conversation := nil_slice;
     OpenAI.ls_reasoningParts := []; OpenAI.ls_sent := [] |}.

Definition claudeStart (answers : list Claude.messageResponse)
  : Claude.loopState (claudeBackend []) :=
  {| Claude.ls_world := (answers : world (claudeBackend [])); Claude.ls_store := ∅;
     Claude.ls_messages := []; Claude.ls_conversation := nil_slice;
     Claude.ls_reasoningParts := []; Claude.ls_sent := [] |}.

Definition ollamaStart (answers : list Ollama.chatResponse)
  : Ollama.loopState (ollamaBackend []) :=
  {| Ollama.ls_world := (answers : world (ollamaBackend [])); Ollama.ls_store := ∅;
     Ollama.ls_messages := []; Ollama.ls_conversation := nil_slice;
     Ollama.ls_reasoningParts := []; Ollama.ls_sent := [] |}.

(** The request template of the examples at the level of the loop. *)
Definition openaiTemplate : OpenAI.chatCompletionRequest :=
  {| OpenAI.req_Model := "gpt-4o-mini"; OpenAI.req_Messages := [];
     OpenAI.req_Tools := []; OpenAI.req_ToolChoice := "";
     OpenAI.req_ResponseFormat := None; OpenAI.req_MaxCompletionTokens := None;
     OpenAI.req_Temperature := None; OpenAI.req_ReasoningEffort := "";
     OpenAI.req_Stream := false |}.

(** The tools a request registers in the examples. *)
Definition exampleTools : list ToolUnion :=
  [ToolServer clock; ToolServer broken; ToolClient lookup].

(** A result to replay: the caller said hi, the assistant answered. *)
Definition greeted : list MessageUnion :=
  [MsgText {| tm_Role := RoleUser; tm_Content := "hi" |};
   MsgText {| tm_Role := RoleAssistant; tm_Content := "hello" |}].

Definition greeting : ChatResult :=
  {| cr_Text := "hello"; cr_Reasoning := "a greeting";
     cr_Messages := callerSlice greeted; cr_ToolCalls := [];
     cr_FinishReason := "stop"; cr_Usage := None |}.



End Example.

(** * Properties *)

(** ** Go strings *)

Lemma append_nil_l (t : string) : "" +:+ t = t.
Proof. reflexivity. Qed.

Lemma append_cons (c : ascii) (s t : string) :
  String c s +:+ t = String c (s +:+ t).
Proof. reflexivity. Qed.

Lemma append_empty_r (s : string) : s +:+ "" = s.
Proof.
  induction s as [|c s IH]; [reflexivity|].
  now rewrite append_cons, IH.
Qed.

Lemma append_assoc (a b c : string) : (a +:+ b) +:+ c = a +:+ (b +:+ c).
Proof.
  induction a as [|x a IH]; [reflexivity|].
  now rewrite !append_cons, IH.
Qed.

Lemma substring_all (s : string) : String.substring 0 (String.length s) s = s.
Proof. induction s as [|c s IH]; simpl; [reflexivity | now rewrite IH]. Qed.

Lemma slice_from_0 (s : string) : slice_from 0 s = s.
Proof. unfold slice_from. rewrite Nat.sub_0_r. apply substring_all. Qed.

(** A string that has [pre] as a prefix is [pre] followed by the slice
    beyond [len(pre)]. *)
Lemma HasPrefix_split (s pre : string) :
  HasPrefix s pre = true -> s = pre +:+ slice_from (String.length pre) s.
Proof.
  unfold HasPrefix. revert s.
  induction pre as [|c pre IH]; intros s H.
  - now rewrite slice_from_0.
  - destruct s as [|d s]; simpl in H; [discriminate|].
    destruct (Ascii.ascii_dec c d) as [->|]; [|discriminate].
    rewrite append_cons. f_equal. apply IH in H. exact H.
Qed.

Lemma HasPrefix_append (pre rest : string) : HasPrefix (pre +:+ rest) pre = true.
Proof.
  unfold HasPrefix. induction pre as [|c pre IH].
  - now destruct rest.
  - rewrite append_cons. simpl.
    destruct (Ascii.ascii_dec c c); [exact IH | congruence].
Qed.

Lemma HasPrefix_length (s pre : string) :
  HasPrefix s pre = true -> String.length pre <= String.length s.
Proof.
  unfold HasPrefix. revert s. induction pre as [|c pre IH]; intros s H; simpl.
  - lia.
  - destruct s as [|d s]; simpl in H; [discriminate|].
    destruct (Ascii.ascii_dec c d); [|discriminate].
    apply IH in H. simpl. lia.
Qed.

(** Two strings that are prefixes of each other are equal. *)
Lemma HasPrefix_antisym (a b : string) :
  HasPrefix a b = true -> HasPrefix b a = true -> a = b.
Proof.
  unfold HasPrefix. revert b. induction a as [|c a IH]; intros b H1 H2.
  - destruct b; [reflexivity | discriminate].
  - destruct b as [|d b]; [discriminate|]. simpl in *.
    destruct (Ascii.ascii_dec d c) as [->|]; [|discriminate].
    destruct (Ascii.ascii_dec c c); [|congruence].
    f_equal. now apply IH.
Qed.

Lemma concat_all_app (l1 l2 : list string) :
  concat_all (l1 ++ l2) = concat_all l1 +:+ concat_all l2.
Proof.
  induction l1 as [|x l1 IH]; simpl; [reflexivity|].
  now rewrite IH, append_assoc.
Qed.

(** ** The delta reconciler *)

Import Reconciler.

(** One step of the reconciler extends the snapshot by exactly the
    delta it returns. *)
Lemma appendStreamSegment_next (current incoming : string) :
  fst (appendStreamSegment current incoming)
  = current +:+ snd (appendStreamSegment current incoming).
Proof.
  unfold appendStreamSegment.
  destruct (String.eqb incoming "") eqn:He; simpl.
  - now rewrite append_empty_r.
  - destruct (HasPrefix incoming current) eqn:H1; simpl.
    + now apply HasPrefix_split.
    + destruct (HasPrefix current incoming) eqn:H2; simpl.
      * now rewrite append_empty_r.
      * reflexivity.
Qed.

Lemma reconcile_all_concat (current : string) (fragments : list string) :
  fst (reconcile_all current fragments)
  = current +:+ concat_all (snd (reconcile_all current fragments)).
Proof.
  revert current. induction fragments as [|f rest IH]; intros current; simpl.
  - now rewrite append_empty_r.
  - pose proof (appendStreamSegment_next current f) as Hstep.
    destruct (appendStreamSegment current f) as [next delta]. simpl in Hstep.
    specialize (IH next).
    destruct (reconcile_all next rest) as [final deltas]. simpl in *.
    rewrite IH, Hstep. apply append_assoc.
Qed.

(** A fragment that is a prefix of the snapshot is absorbed. *)
Lemma appendStreamSegment_absorb (current incoming : string) :
  HasPrefix current incoming = true ->
  appendStreamSegment current incoming = (current, "").
Proof.
  intros H. unfold appendStreamSegment.
  destruct (String.eqb incoming "") eqn:He; [reflexivity|].
  destruct (HasPrefix incoming current) eqn:H1.
  - assert (incoming = current) as -> by now apply HasPrefix_antisym.
    f_equal. unfold slice_from. rewrite Nat.sub_diag.
    clear. induction current; simpl; auto. 
  - now rewrite H.
Qed.

(** C1. Folding [appendStreamSegment] over any finite sequence of observed
    fragments, from the empty snapshot, ends in a snapshot equal to the
    concatenation of the returned deltas (whatever the style of the
    fragments: cumulative, incremental or repeated); and a fragment that is
    a prefix of the current snapshot yields an empty delta and leaves the
    snapshot unchanged. *)
Theorem C1_reconciler_round_trip :
  (forall fragments : list string,
     fst (reconcile_all "" fragments)
     = concat_all (snd (reconcile_all "" fragments)))
  /\ (forall current incoming : string,
        HasPrefix current incoming = true ->
        appendStreamSegment current incoming = (current, "")).
Proof.
  split.
  - intros fragments. now rewrite reconcile_all_concat.
  - apply appendStreamSegment_absorb.
Qed.

(** C9. The snapshot returned by [appendStreamSegment] always starts with
    the previous snapshot, and the returned delta is the new snapshot with
    that prefix removed. *)
Theorem C9_snapshot_extends_previous (current incoming : string) :
  let '(next, delta) := appendStreamSegment current incoming in
  HasPrefix next current = true
  /\ delta = slice_from (String.length current) next.
Proof.
  pose proof (appendStreamSegment_next current incoming) as H.
  destruct (appendStreamSegment current incoming) as [next delta].
  simpl in H. subst next. split.
  - apply HasPrefix_append.
  - clear. unfold slice_from.
    induction current as [|c current IH].
    + simpl. rewrite Nat.sub_0_r. symmetry. apply substring_all.
    + rewrite append_cons. simpl. exact IH.
Qed.

(** ** Tool registration *)

Section ToolFacts.
Context `{GoRuntime}.




Lemma maxLoops_no_server params : maxLoops params false = 1%Z.
Proof. reflexivity. Qed.

End ToolFacts.

(** ** The loop bound *)

Section LoopBound.
Context `{GoRuntime} `{!OpenAI.Decoders} `{!Claude.Decoders} `{!Ollama.Decoders}.








End LoopBound.

(** ** The store of backing arrays *)

Section StoreFacts.
Context `{GoRuntime}.

Lemma preserves_refl (h : store) : preserves h h.
Proof. intros l arr Hl. exact Hl. Qed.

Lemma preserves_trans (h0 h1 h2 : store) :
  preserves h0 h1 -> preserves h1 h2 -> preserves h0 h2.
Proof. intros H1 H2 l arr Hl. auto. Qed.

Lemma preserves_dom (h0 h : store) l : preserves h0 h -> l ∈ dom h0 -> l ∈ dom h.
Proof.
  intros Hp Hl. apply elem_of_dom in Hl as [arr Harr].
  apply elem_of_dom. exists arr. auto.
Qed.

Lemma preserves_fresh (h0 h : store) (s : slice) :
  preserves h0 h -> fresh_for h s -> fresh_for h0 s.
Proof.
  unfold fresh_for. intros Hp. destruct (sl_array s); [|trivial].
  intros Hn Hin. apply Hn. eapply preserves_dom; eauto.
Qed.

Lemma preserves_insert_fresh (h : store) arr :
  preserves h (<[fresh (dom h) := arr]> h).
Proof.
  intros l a Hl. rewrite lookup_insert_ne; [exact Hl|].
  intros <-. assert (fresh (dom h) ∈ dom h) by (apply elem_of_dom; eauto).
  now apply (is_fresh (dom h)).
Qed.

Lemma elems_preserved (h h' : store) (s : slice) :
  slice_ok h s -> preserves h h' -> elems h' s = elems h s.
Proof.
  intros [_ Hok] Hp. unfold elems, array_of.
  destruct (sl_array s) as [l|]; [|reflexivity].
  destruct Hok as (arr & Harr & _). now rewrite Harr, (Hp _ _ Harr).
Qed.

Lemma slice_ok_preserved (h h' : store) (s : slice) :
  slice_ok h s -> preserves h h' -> slice_ok h' s.
Proof.
  intros [Hlen Hok] Hp. split; [exact Hlen|].
  destruct (sl_array s) as [l|]; [|exact Hok].
  destruct Hok as (arr & Harr & Hcap). exists arr. auto.
Qed.


Lemma slice_ok_nil (h : store) : slice_ok h nil_slice.
Proof. split; simpl; [lia | reflexivity]. Qed.

Lemma make_slice_spec (h : store) (n : nat) s h' :
  make_slice h n = (s, h') ->
  slice_ok h' s /\ elems h' s = [] /\ preserves h h' /\ fresh_for h s
  /\ sl_len s = 0 /\ sl_cap s = n.
Proof.
  unfold make_slice. intros [= <- <-]. repeat split; simpl.
  - lia.
  - exists (replicate n MsgNil). rewrite lookup_insert_eq, length_replicate. split; [reflexivity|lia].
  - apply preserves_insert_fresh.
  - unfold fresh_for. simpl. apply is_fresh.
Qed.

(** [append] returns a slice holding the old elements followed by the
    new ones; it writes either beyond the length of the slice it was
    given, in the same array, or in an array allocated for the purpose,
    and leaves every other array alone. *)
Lemma append_slice_spec (h : store) (s : slice) (xs : list MessageUnion) s' h' :
  slice_ok h s ->
  append_slice h s xs = (s', h') ->
  slice_ok h' s'
  /\ elems h' s' = elems h s ++ xs
  /\ (forall l arr, h !! l = Some arr -> sl_array s <> Some l -> h' !! l = Some arr)
  /\ (sl_array s' = sl_array s \/ fresh_for h s' /\ sl_array s' <> None)
  /\ (forall l, l ∈ dom h -> l ∈ dom h').
Proof.
  intros [Hlen Hok] Happ. unfold append_slice in Happ.
  destruct xs as [|x xs'].
  { injection Happ as <- <-. rewrite app_nil_r.
    repeat split; auto. }
  cbv iota in Happ. remember (x :: xs') as xs eqn:Hxs.
  destruct (sl_array s) as [l|] eqn:El.
  - destruct Hok as (arr & Harr & Hcap).
    destruct (decide (sl_len s + length xs <= sl_cap s)) as [Hfit|Hnofit].
    + injection Happ as <- <-. unfold array_of. rewrite El, Harr. simpl.
      set (at_ := sl_off s + sl_len s).
      assert (Hat : at_ + length xs <= length arr) by (unfold at_; lia).
      repeat split; simpl.
      * lia.
      * eexists. rewrite lookup_insert_eq. split; [reflexivity|].
        rewrite !length_app, length_take, length_drop. lia.
      * unfold elems, array_of. simpl. rewrite El, lookup_insert_eq, Harr. simpl.
        rewrite drop_app_le by (rewrite length_take; unfold at_; lia).
        unfold at_. rewrite <- take_drop_commute.
        rewrite app_assoc. apply take_app_length'.
        rewrite length_app, length_take, length_drop. lia.
      * intros l0 arr0 Hl0 Hne. rewrite lookup_insert_ne; [exact Hl0|congruence].
      * now left.
      * intros l0 Hl0. apply elem_of_dom. apply elem_of_dom in Hl0 as [a0 Ha0].
        destruct (decide (l = l0)) as [->|Hne].
        -- rewrite lookup_insert_eq. eauto.
        -- rewrite lookup_insert_ne by exact Hne. eauto.
    + injection Happ as <- <-. repeat split; simpl.
      * lia.
      * eexists. rewrite lookup_insert_eq. split; [reflexivity|].
        rewrite !length_app, length_replicate. unfold elems.
        rewrite length_take, length_drop. unfold array_of. rewrite El, Harr. simpl. lia.
      * unfold elems at 1. unfold array_of at 1. simpl. rewrite lookup_insert_eq. simpl.
        rewrite drop_0, app_assoc. apply take_app_length'.
        rewrite length_app. unfold elems. rewrite length_take, length_drop.
        unfold array_of. rewrite El, Harr. simpl. lia.
      * intros l0 arr0 Hl0 _. now apply preserves_insert_fresh.
      * right. split; [|discriminate]. unfold fresh_for. simpl. apply is_fresh.
      * intros l0 Hl0. eapply preserves_dom; [apply preserves_insert_fresh|exact Hl0].
  - injection Happ as <- <-. repeat split; simpl.
    + lia.
    + eexists. rewrite lookup_insert_eq. split; [reflexivity|].
      rewrite !length_app, length_replicate. simpl in *. lia.
    + unfold elems at 1. unfold array_of at 1. simpl. rewrite lookup_insert_eq. simpl.
      assert (Hz : sl_len s = 0) by lia. rewrite Hz. simpl.
      unfold elems, array_of. rewrite El, Hz. simpl.
      apply (take_app_length' xs). reflexivity.
    + intros l0 arr0 Hl0 _. now apply preserves_insert_fresh.
    + right. split; [|discriminate]. unfold fresh_for. simpl. apply is_fresh.
    + intros l0 Hl0. eapply preserves_dom; [apply preserves_insert_fresh|exact Hl0].
Qed.

End StoreFacts.

Section OwnedSlices.
Context `{GoRuntime}.

Lemma owned_nil h0 h : preserves h0 h -> owned h0 h nil_slice.
Proof. intros Hp. split; [apply slice_ok_nil|]. split; [exact I | exact Hp]. Qed.

(** Appending to an owned slice gives an owned slice with the new
    elements at the end. *)
Lemma append_owned h0 h s xs s' h' :
  owned h0 h s ->
  append_slice h s xs = (s', h') ->
  owned h0 h' s' /\ elems h' s' = elems h s ++ xs.
Proof.
  intros (Hok & Hfr & Hp) Happ.
  destruct (append_slice_spec _ _ _ _ _ Hok Happ) as (Hok' & Hel & Hkeep & Harr & Hdom).
  split; [|exact Hel]. split; [exact Hok'|]. split.
  - destruct Harr as [Heq | [Hfr' _]].
    + unfold fresh_for in *. now rewrite Heq.
    + eapply preserves_fresh; eauto.
  - intros l arr Hl. apply Hkeep; [now apply Hp|].
    intros Hs. unfold fresh_for in Hfr. rewrite Hs in Hfr.
    apply Hfr. apply elem_of_dom. eauto.
Qed.

Lemma owned_weaken h0 h s : owned h0 h s -> preserves h0 h.
Proof. now intros (_ & _ & Hp). Qed.

(** [cloneCoreMessages] copies the messages of the caller into a
    slice of its own. *)
Lemma cloneCoreMessages_spec h params conv h1 :
  input_ok h params ->
  cloneCoreMessages h params = (conv, h1) ->
  owned h h1 conv /\ elems h1 conv = input_messages h params.
Proof.
  unfold input_ok, input_messages. intros Hin Hc. unfold cloneCoreMessages in Hc.
  destruct params as [p|].
  - destruct (Nat.eqb (sl_len (cp_Messages p)) 0) eqn:E.
    + injection Hc as <- <-. split; [apply owned_nil, preserves_refl|].
      apply Nat.eqb_eq in E. unfold elems. rewrite E. reflexivity.
    + destruct (make_slice h (sl_len (cp_Messages p) + 8)) as [out h0'] eqn:Em.
      destruct (make_slice_spec _ _ _ _ Em) as (Hok & Hel & Hp & Hfr & _ & _).
      assert (Ho : owned h h0' out) by (split; [exact Hok|split; assumption]).
      destruct (append_owned _ _ _ _ _ _ Ho Hc) as [Ho' Hel'].
      split; [exact Ho'|]. rewrite Hel', Hel. simpl.
      now apply elems_preserved.
  - injection Hc as <- <-. split; [apply owned_nil, preserves_refl|reflexivity].
Qed.

End OwnedSlices.

(** ** The conversation [Chat] builds *)

Arguments append_slice : simpl never.
Arguments cloneCoreMessages : simpl never.

Section Conversation.
Context `{GoRuntime} `{!OpenAI.Decoders} `{!Claude.Decoders} `{!Ollama.Decoders}.

(** The copy [append([]core.MessageUnion(nil), conversation...)] of a
    conversation that is not empty. *)
Lemma copy_owned h0 h conv xs s' h' :
  owned h0 h conv ->
  elems h conv = xs -> xs <> [] ->
  append_slice h nil_slice xs = (s', h') ->
  owned h0 h' s' /\ elems h' s' = xs /\ sl_array s' <> None.
Proof.
  intros Ho Hel Hne Happ.
  destruct (append_owned h0 h nil_slice xs s' h') as [Ho' Hel'];
    [apply owned_nil; now apply owned_weaken in Ho | exact Happ |].
  split; [exact Ho'|]. split; [exact Hel'|].
  unfold append_slice in Happ. destruct xs; [congruence|].
  simpl in Happ. injection Happ as <- _. discriminate.
Qed.

Lemma openai_dispatch_owned h0 sT cT coreCalls calls : forall idx d e d',
  owned h0 (OpenAI.d_store d) (OpenAI.d_conversation d) ->
  OpenAI.dispatch sT cT coreCalls idx calls d = (e, d') ->
  owned h0 (OpenAI.d_store d') (OpenAI.d_conversation d')
  /\ exists gen,
       elems (OpenAI.d_store d') (OpenAI.d_conversation d')
       = elems (OpenAI.d_store d) (OpenAI.d_conversation d) ++ gen
       /\ Forall generated_turn gen.
Proof.
  induction calls as [|call rest IH]; intros idx d e d' Ho Hd; simpl in Hd.
  - injection Hd as <- <-. split; [exact Ho|]. exists []. now rewrite app_nil_r.
  - destruct (sT !! _) as [tool|].
    + destruct (coreCalls !! idx) as [coreCall|];
        [|injection Hd as <- <-; split; [exact Ho|]; exists []; now rewrite app_nil_r].
      destruct (st_Handler tool) as [handler|];
        [|injection Hd as <- <-; split; [exact Ho|]; exists []; now rewrite app_nil_r].
      destruct (handler _) as [res callErr].
      destruct (append_slice _ _ _) as [conv h1] eqn:Ea.
      destruct (append_owned _ _ _ _ _ _ Ho Ea) as [Ho1 Hel1].
      apply IH in Hd; [|exact Ho1]. destruct Hd as (Ho' & gen & Hel & Hgen).
      split; [exact Ho'|]. eexists (_ :: gen). simpl in Hel. rewrite Hel, Hel1.
      rewrite <- app_assoc. split; [reflexivity|].
      constructor; [exact eq_refl | exact Hgen].
    + destruct (decide _);
        [|injection Hd as <- <-; split; [exact Ho|]; exists []; now rewrite app_nil_r].
      destruct (coreCalls !! idx) as [coreCall|];
        [|injection Hd as <- <-; split; [exact Ho|]; exists []; now rewrite app_nil_r].
      apply IH in Hd; [exact Hd | exact Ho].
Qed.

Arguments OpenAI.dispatch : simpl never.
Arguments OpenAI.toCoreToolCalls : simpl never.

Lemma openai_chatLoop_conversation B a req sT cT m h0 input n : forall st gen0,
  owned h0 (OpenAI.ls_store B st) (OpenAI.ls_conversation B st) ->
  elems (OpenAI.ls_store B st) (OpenAI.ls_conversation B st) = input ++ gen0 ->
  Forall generated_turn gen0 ->
  conversation_law h0 input (OpenAI.chatLoop B a req sT cT m n st).
Proof.
  induction n as [|n IH]; intros st gen0 Ho Hel Hgen result; [discriminate|].
  simpl.
  destruct (post B _ _ _) as [[response|err] w]; [|discriminate].
  destruct (OpenAI.resp_Choices response) as [|choice choices]; [discriminate|].
  match goal with |- context [match ?r with Ok _ => _ | Err _ => _ end] =>
    destruct r as [reasoning|]; [|discriminate] end.
  destruct (OpenAI.rm_ToolCalls _) as [|tc tcs] eqn:Etc.
  - destruct (OpenAI.parseAssistantChoice choice) as [text|]; [|discriminate].
    match goal with |- context [match ?r with Ok _ => _ | Err _ => _ end] =>
      destruct r as [text'|]; [|discriminate] end.
    destruct (append_slice _ _ _) as [conv h1] eqn:Ea.
    destruct (append_owned _ _ _ _ _ _ Ho Ea) as [Ho1 Hel1].
    destruct (append_slice h1 _ _) as [msgs h2] eqn:Ec.
    simpl. intros [= <-]. simpl.
    assert (Hne : elems h1 conv <> []) by (rewrite Hel1; now destruct (elems _ _)).
    destruct (copy_owned h0 h1 conv _ _ _ Ho1 eq_refl Hne Ec) as (Ho2 & Hel2 & Hnn).
    split; [exact Ho2|]. split; [exact Hnn|].
    exists (gen0 ++ [MsgText {| tm_Role := RoleAssistant; tm_Content := text' |}]).
    rewrite Hel2, Hel1, Hel, <- app_assoc. split; [reflexivity|].
    apply Forall_app. split; [exact Hgen|]. constructor; [exact eq_refl|constructor].
  - simpl. destruct (OpenAI.toCoreToolCalls _) as [coreCalls|]; [|discriminate].
    destruct (append_slice _ _ _) as [conv h1] eqn:Ea.
    destruct (append_owned _ _ _ _ _ _ Ho Ea) as [Ho1 Hel1].
    destruct (OpenAI.dispatch _ _ _ _ _ _) as [[e|] d] eqn:Ed; [discriminate|].
    destruct (openai_dispatch_owned h0 _ _ _ _ _ _ _ _
                (Ho1 : owned h0 (OpenAI.d_store (OpenAI.Build_dispatchState _ conv h1 _)) _) Ed)
      as (Hod & gen1 & Held & Hgen1).
    simpl in Held.
    destruct (OpenAI.d_pending d) as [|p ps].
    + apply (IH _ (gen0 ++ MsgToolCall {| tcm_Role := RoleToolCall;
                                          tcm_ToolCalls := coreCalls |} :: gen1)).
      * exact Hod.
      * simpl. rewrite Held, Hel1, Hel, <- !app_assoc. reflexivity.
      * apply Forall_app. split; [exact Hgen|]. constructor; [exact eq_refl|exact Hgen1].
    + destruct (append_slice (OpenAI.d_store d) _ _) as [msgs h2] eqn:Ec.
      simpl. intros [= <-]. simpl.
      assert (Hne : elems (OpenAI.d_store d) (OpenAI.d_conversation d) <> [])
        by (rewrite Held, Hel1; destruct (elems _ _); discriminate).
      destruct (copy_owned h0 _ _ _ _ _ Hod eq_refl Hne Ec) as (Ho2 & Hel2 & Hnn).
      split; [exact Ho2|]. split; [exact Hnn|].
      exists (gen0 ++ MsgToolCall {| tcm_Role := RoleToolCall;
                                     tcm_ToolCalls := coreCalls |} :: gen1).
      rewrite Hel2, Held, Hel1, Hel, <- !app_assoc. split; [reflexivity|].
      apply Forall_app. split; [exact Hgen|]. constructor; [exact eq_refl|exact Hgen1].
Qed.

End Conversation.

Section ConversationOpenAI.
Context `{GoRuntime} `{!OpenAI.Decoders}.

Arguments OpenAI.dispatch : simpl never.
Arguments OpenAI.toCoreToolCalls : simpl never.

Lemma openai_chatLoop_preserves B a req sT cT m h0 n : forall st,
owned h0 (OpenAI.ls_store B st) (OpenAI.ls_conversation B st) ->
preserves h0 (run_store (OpenAI.chatLoop B a req sT cT m n st)).
Proof.
induction n as [|n IH]; intros st Ho; [apply Ho|].
simpl.
destruct (post B _ _ _) as [[response|err] w]; [|apply Ho].
destruct (OpenAI.resp_Choices response) as [|choice choices]; [apply Ho|].
match goal with |- context [match ?r with Ok _ => _ | Err _ => _ end] =>
  destruct r as [reasoning|]; [|apply Ho] end.
destruct (OpenAI.rm_ToolCalls _) as [|tc tcs] eqn:Etc.
- destruct (OpenAI.parseAssistantChoice choice) as [text|]; [|apply Ho].
  match goal with |- context [match ?r with Ok _ => _ | Err _ => _ end] =>
    destruct r as [text'|]; [|apply Ho] end.
  destruct (append_slice _ _ _) as [conv h1] eqn:Ea.
  destruct (append_owned _ _ _ _ _ _ Ho Ea) as [Ho1 Hel1].
  destruct (append_slice h1 _ _) as [msgs h2] eqn:Ec.
  simpl.
  destruct (append_owned h0 h1 nil_slice _ _ _
              (owned_nil _ _ (proj2 (proj2 Ho1))) Ec) as [Ho2 _].
  apply Ho2.
- simpl. destruct (OpenAI.toCoreToolCalls _) as [coreCalls|]; [|apply Ho].
  destruct (append_slice _ _ _) as [conv h1] eqn:Ea.
  destruct (append_owned _ _ _ _ _ _ Ho Ea) as [Ho1 Hel1].
  destruct (OpenAI.dispatch _ _ _ _ _ _) as [e d] eqn:Ed.
  destruct (openai_dispatch_owned h0 _ _ _ _ _ _ _ _
              (Ho1 : owned h0 (OpenAI.d_store (OpenAI.Build_dispatchState _ conv h1 _)) _) Ed)
    as (Hod & _).
  destruct e as [e|]; [apply Hod|].
  destruct (OpenAI.d_pending d) as [|p ps].
  + apply IH. exact Hod.
  + destruct (append_slice (OpenAI.d_store d) _ _) as [msgs h2] eqn:Ec.
    simpl.
    destruct (append_owned h0 _ nil_slice _ _ _
                (owned_nil _ _ (proj2 (proj2 Hod))) Ec) as [Ho2 _].
    apply Ho2.
Qed.

Lemma openai_Chat_conversation B a params h w :
input_ok h params ->
preserves h (run_store (OpenAI.Chat B a params h w))
/\ conversation_law h (input_messages h params) (OpenAI.Chat B a params h w).
Proof.
intros Hin. unfold OpenAI.Chat.
destruct (OpenAI.validate a) as [a'|];
  [|split; [apply preserves_refl | intros r; discriminate]].
destruct (OpenAI.buildRequestTemplate _ _ _) as [[[[[req msgs] sT] cT] m]|];
  [|split; [apply preserves_refl | intros r; discriminate]].
destruct (cloneCoreMessages h params) as [conv h1] eqn:Ec.
destruct (cloneCoreMessages_spec _ _ _ _ Hin Ec) as [Ho Hel].
split.
- apply openai_chatLoop_preserves. exact Ho.
- apply (openai_chatLoop_conversation _ _ _ _ _ _ _ _ _ _ []).
  + exact Ho.
  + simpl. rewrite Hel. now rewrite app_nil_r.
  + constructor.
Qed.

End ConversationOpenAI.

(** A run that ends with an error in a store that keeps the caller's
    arrays. *)
Ltac run_failed Ho := split; [apply Ho | intros ?; simpl; discriminate].

Section ConversationClaude.
Context `{GoRuntime} `{!Claude.Decoders}.

Lemma claude_dispatch_owned h0 sT cT coreCalls uses : forall idx d e d',
owned h0 (Claude.d_store d) (Claude.d_conversation d) ->
Claude.dispatch sT cT coreCalls idx uses d = (e, d') ->
owned h0 (Claude.d_store d') (Claude.d_conversation d')
/\ exists gen,
     elems (Claude.d_store d') (Claude.d_conversation d')
     = elems (Claude.d_store d) (Claude.d_conversation d) ++ gen
     /\ Forall generated_turn gen.
Proof.
induction uses as [|use rest IH]; intros idx d e d' Ho Hd; simpl in Hd.
- injection Hd as <- <-. split; [exact Ho|]. exists []. now rewrite app_nil_r.
- destruct (sT !! _) as [tool|].
  + destruct (coreCalls !! idx) as [coreCall|];
      [|injection Hd as <- <-; split; [exact Ho|]; exists []; now rewrite app_nil_r].
    destruct (st_Handler tool) as [handler|];
      [|injection Hd as <- <-; split; [exact Ho|]; exists []; now rewrite app_nil_r].
    destruct (handler _) as [res callErr].
    destruct (append_slice _ _ _) as [conv h1] eqn:Ea.
    destruct (append_owned _ _ _ _ _ _ Ho Ea) as [Ho1 Hel1].
    apply IH in Hd; [|exact Ho1]. destruct Hd as (Ho' & gen & Hel & Hgen).
    split; [exact Ho'|]. eexists (_ :: gen). simpl in Hel. rewrite Hel, Hel1.
    rewrite <- app_assoc. split; [reflexivity|].
    constructor; [exact eq_refl | exact Hgen].
  + destruct (decide _);
      [|injection Hd as <- <-; split; [exact Ho|]; exists []; now rewrite app_nil_r].
    destruct (coreCalls !! idx) as [coreCall|];
      [|injection Hd as <- <-; split; [exact Ho|]; exists []; now rewrite app_nil_r].
    apply IH in Hd; [exact Hd | exact Ho].
Qed.

Arguments Claude.dispatch : simpl never.
Arguments Claude.toCoreToolCalls : simpl never.
Arguments Claude.extractToolUses : simpl never.

Lemma claude_chatLoop_conversation B a req sT cT m h0 input n : forall st gen0,
owned h0 (Claude.ls_store B st) (Claude.ls_conversation B st) ->
elems (Claude.ls_store B st) (Claude.ls_conversation B st) = input ++ gen0 ->
Forall generated_turn gen0 ->
preserves h0 (run_store (Claude.chatLoop B a req sT cT m n st))
/\ conversation_law h0 input (Claude.chatLoop B a req sT cT m n st).
Proof.
induction n as [|n IH]; intros st gen0 Ho Hel Hgen; [run_failed Ho|].
simpl.
destruct (post B _ _ _) as [[response|err] w]; [|run_failed Ho].
destruct (Claude.extractToolUses _) as [|tu tus] eqn:Etu.
- destruct (append_slice _ _ _) as [conv h1] eqn:Ea.
  destruct (append_owned _ _ _ _ _ _ Ho Ea) as [Ho1 Hel1].
  destruct (append_slice h1 _ _) as [msgs h2] eqn:Ec.
  assert (Hne : elems h1 conv <> []) by (rewrite Hel1; now destruct (elems _ _)).
  destruct (copy_owned h0 h1 conv _ _ _ Ho1 eq_refl Hne Ec) as (Ho2 & Hel2 & Hnn).
  split; [apply Ho2|]. intros result. simpl. intros [= <-]. simpl.
  split; [exact Ho2|]. split; [exact Hnn|].
  eexists (gen0 ++ [_]).
  rewrite Hel2, Hel1, Hel, <- app_assoc. split; [reflexivity|].
  apply Forall_app. split; [exact Hgen|]. constructor; [exact eq_refl|constructor].
- simpl.
  destruct (append_slice _ _ _) as [conv h1] eqn:Ea.
  destruct (append_owned _ _ _ _ _ _ Ho Ea) as [Ho1 Hel1].
  destruct (Claude.dispatch _ _ _ _ _ _) as [e d] eqn:Ed.
  destruct (claude_dispatch_owned h0 _ _ _ _ _ _ _ _
              (Ho1 : owned h0 (Claude.d_store (Claude.Build_dispatchState _ conv h1 _)) _) Ed)
    as (Hod & gen1 & Held & Hgen1).
  simpl in Held.
  destruct e as [e|]; [run_failed Hod|].
  destruct (Claude.d_pending d) as [|p ps].
  + eapply (IH _ (gen0 ++ _ :: gen1)).
    * exact Hod.
    * simpl. rewrite Held, Hel1, Hel, <- !app_assoc. reflexivity.
    * apply Forall_app. split; [exact Hgen|]. constructor; [exact eq_refl|exact Hgen1].
  + destruct (append_slice (Claude.d_store d) _ _) as [msgs h2] eqn:Ec.
    assert (Hne : elems (Claude.d_store d) (Claude.d_conversation d) <> [])
      by (rewrite Held, Hel1; destruct (elems _ _); discriminate).
    destruct (copy_owned h0 _ _ _ _ _ Hod eq_refl Hne Ec) as (Ho2 & Hel2 & Hnn).
    split; [apply Ho2|]. intros result. simpl. intros [= <-]. simpl.
    split; [exact Ho2|]. split; [exact Hnn|].
    eexists (gen0 ++ _ :: gen1).
    rewrite Hel2, Held, Hel1, Hel, <- !app_assoc. split; [reflexivity|].
    apply Forall_app. split; [exact Hgen|]. constructor; [exact eq_refl|exact Hgen1].
Qed.

Lemma claude_Chat_conversation B a params h w :
input_ok h params ->
preserves h (run_store (Claude.Chat B a params h w))
/\ conversation_law h (input_messages h params) (Claude.Chat B a params h w).
Proof.
intros Hin. unfold Claude.Chat.
destruct (Claude.validate a) as [a'|];
  [|split; [apply preserves_refl | intros r; discriminate]].
destruct (Claude.buildRequestTemplate _ _ _) as [[[[[req msgs] sT] cT] m]|];
  [|split; [apply preserves_refl | intros r; discriminate]].
destruct (cloneCoreMessages h params) as [conv h1] eqn:Ec.
destruct (cloneCoreMessages_spec _ _ _ _ Hin Ec) as [Ho Hel].
apply (claude_chatLoop_conversation _ _ _ _ _ _ _ _ _ _ []).
- exact Ho.
- simpl. rewrite Hel. now rewrite app_nil_r.
- constructor.
Qed.

End ConversationClaude.

Section ConversationOllama.
Context `{GoRuntime} `{!Ollama.Decoders}.

Lemma ollama_dispatch_owned h0 sT cT coreCalls : forall d e d',
owned h0 (Ollama.d_store d) (Ollama.d_conversation d) ->
Ollama.dispatch sT cT coreCalls d = (e, d') ->
owned h0 (Ollama.d_store d') (Ollama.d_conversation d')
/\ exists gen,
     elems (Ollama.d_store d') (Ollama.d_conversation d')
     = elems (Ollama.d_store d) (Ollama.d_conversation d) ++ gen
     /\ Forall generated_turn gen.
Proof.
induction coreCalls as [|call rest IH]; intros d e d' Ho Hd; simpl in Hd.
- injection Hd as <- <-. split; [exact Ho|]. exists []. now rewrite app_nil_r.
- destruct (sT !! _) as [tool|].
  + destruct (st_Handler tool) as [handler|];
      [|injection Hd as <- <-; split; [exact Ho|]; exists []; now rewrite app_nil_r].
    destruct (handler _) as [res callErr].
    destruct (append_slice _ _ _) as [conv h1] eqn:Ea.
    destruct (append_owned _ _ _ _ _ _ Ho Ea) as [Ho1 Hel1].
    apply IH in Hd; [|exact Ho1]. destruct Hd as (Ho' & gen & Hel & Hgen).
    split; [exact Ho'|]. eexists (_ :: gen). simpl in Hel. rewrite Hel, Hel1.
    rewrite <- app_assoc. split; [reflexivity|].
    constructor; [exact eq_refl | exact Hgen].
  + destruct (decide _);
      [|injection Hd as <- <-; split; [exact Ho|]; exists []; now rewrite app_nil_r].
    apply IH in Hd; [exact Hd | exact Ho].
Qed.

Arguments Ollama.dispatch : simpl never.
Arguments Ollama.toCoreToolCalls : simpl never.

Lemma ollama_chatLoop_conversation B a req sT cT m h0 input n : forall st gen0,
owned h0 (Ollama.ls_store B st) (Ollama.ls_conversation B st) ->
elems (Ollama.ls_store B st) (Ollama.ls_conversation B st) = input ++ gen0 ->
Forall generated_turn gen0 ->
preserves h0 (run_store (Ollama.chatLoop B a req sT cT m n st))
/\ conversation_law h0 input (Ollama.chatLoop B a req sT cT m n st).
Proof.
induction n as [|n IH]; intros st gen0 Ho Hel Hgen; [run_failed Ho|].
simpl.
destruct (post B _ _ _) as [[response|err] w]; [|run_failed Ho].
destruct (Ollama.m_ToolCalls _) as [|tc tcs] eqn:Etc.
- destruct (append_slice _ _ _) as [conv h1] eqn:Ea.
  destruct (append_owned _ _ _ _ _ _ Ho Ea) as [Ho1 Hel1].
  destruct (append_slice h1 _ _) as [msgs h2] eqn:Ec.
  assert (Hne : elems h1 conv <> []) by (rewrite Hel1; now destruct (elems _ _)).
  destruct (copy_owned h0 h1 conv _ _ _ Ho1 eq_refl Hne Ec) as (Ho2 & Hel2 & Hnn).
  split; [apply Ho2|]. intros result. simpl. intros [= <-]. simpl.
  split; [exact Ho2|]. split; [exact Hnn|].
  eexists (gen0 ++ [_]).
  rewrite Hel2, Hel1, Hel, <- app_assoc. split; [reflexivity|].
  apply Forall_app. split; [exact Hgen|]. constructor; [exact eq_refl|constructor].
- simpl. destruct (Ollama.toCoreToolCalls _) as [coreCalls|]; [|run_failed Ho].
  assert (exists gent conv0 hh,
    (if negb (String.eqb (TrimSpace (Ollama.m_Content (Ollama.resp_Message response))) "")
     then append_slice (Ollama.ls_store B st) (Ollama.ls_conversation B st)
            [MsgText {| tm_Role := RoleAssistant;
                        tm_Content := Ollama.m_Content (Ollama.resp_Message response) |}]
     else (Ollama.ls_conversation B st, Ollama.ls_store B st)) = (conv0, hh)
    /\ owned h0 hh conv0 /\ elems hh conv0 = input ++ gen0 ++ gent
    /\ Forall generated_turn gent) as (gent & conv0 & hh & -> & Ho0 & Hel0 & Hgent).
  { destruct (negb _).
    - destruct (append_slice _ _ _) as [conv0 hh] eqn:Ea0.
      destruct (append_owned _ _ _ _ _ _ Ho Ea0) as [Ho0 Hel0].
      eexists [_], conv0, hh. split; [reflexivity|]. split; [exact Ho0|].
      rewrite Hel0, Hel, <- app_assoc. split; [reflexivity|].
      constructor; [exact eq_refl|constructor].
    - exists [], (Ollama.ls_conversation B st), (Ollama.ls_store B st).
      split; [reflexivity|]. split; [exact Ho|]. rewrite app_nil_r.
      split; [exact Hel|constructor]. }
  destruct (append_slice _ _ _) as [conv h1] eqn:Ea.
  destruct (append_owned _ _ _ _ _ _ Ho0 Ea) as [Ho1 Hel1].
  destruct (Ollama.dispatch _ _ _ _) as [e d] eqn:Ed.
  destruct (ollama_dispatch_owned h0 _ _ _ _ _ _
              (Ho1 : owned h0 (Ollama.d_store (Ollama.Build_dispatchState _ conv h1 _)) _) Ed)
    as (Hod & gen1 & Held & Hgen1).
  simpl in Held.
  assert (Hall : Forall generated_turn
            (gen0 ++ gent ++ MsgToolCall {| tcm_Role := RoleToolCall;
                                           tcm_ToolCalls := coreCalls |} :: gen1)).
  { apply Forall_app. split; [exact Hgen|]. apply Forall_app. split; [exact Hgent|].
    constructor; [exact eq_refl|exact Hgen1]. }
  assert (Hels : elems (Ollama.d_store d) (Ollama.d_conversation d)
                 = input ++ gen0 ++ gent
                   ++ MsgToolCall {| tcm_Role := RoleToolCall;
                                     tcm_ToolCalls := coreCalls |} :: gen1).
  { rewrite Held, Hel1, Hel0, <- !app_assoc. reflexivity. }
  destruct e as [e|]; [run_failed Hod|].
  destruct (Ollama.d_pending d) as [|p ps].
  + eapply IH; [exact Hod | exact Hels | exact Hall].
  + destruct (append_slice (Ollama.d_store d) _ _) as [msgs h2] eqn:Ec.
    assert (Hne : elems (Ollama.d_store d) (Ollama.d_conversation d) <> []).
    { rewrite Hels. destruct input, gen0, gent; discriminate. }
    destruct (copy_owned h0 _ _ _ _ _ Hod eq_refl Hne Ec) as (Ho2 & Hel2 & Hnn).
    split; [apply Ho2|]. intros result. simpl. intros [= <-]. simpl.
    split; [exact Ho2|]. split; [exact Hnn|].
    eexists. rewrite Hel2. split; [exact Hels | exact Hall].
Qed.

Lemma ollama_Chat_conversation B a params h w :
input_ok h params ->
preserves h (run_store (Ollama.Chat B a params h w))
/\ conversation_law h (input_messages h params) (Ollama.Chat B a params h w).
Proof.
intros Hin. unfold Ollama.Chat.
destruct (Ollama.validate a) as [a'|];
  [|split; [apply preserves_refl | intros r; discriminate]].
destruct (Ollama.buildRequestTemplate _ _ _) as [[[[[req msgs] sT] cT] m]|];
  [|split; [apply preserves_refl | intros r; discriminate]].
destruct (cloneCoreMessages h params) as [conv h1] eqn:Ec.
destruct (cloneCoreMessages_spec _ _ _ _ Hin Ec) as [Ho Hel].
apply (ollama_chatLoop_conversation _ _ _ _ _ _ _ _ _ _ []).
- exact Ho.
- simpl. rewrite Hel. now rewrite app_nil_r.
- constructor.
Qed.

End ConversationOllama.

Section ChatMessages.
Context `{GoRuntime} `{!OpenAI.Decoders} `{!Claude.Decoders} `{!Ollama.Decoders}.

Lemma chat_messages_law_intro {W R} h params (run : chatRun W R) :
input_ok h params ->
preserves h (run_store run)
/\ conversation_law h (input_messages h params) run ->
chat_messages_law h params run.
Proof.
intros Hin [Hp Hc]. split; [|exact Hc]. split; [exact Hp|].
destruct params as [p|]; [|reflexivity]. simpl in *.
now apply elems_preserved.
Qed.

(** C10: [Chat] does not modify [params.Messages], and the [Messages]
  of its result are in a freshly allocated array (one the caller's
  store does not have) that reads as the input messages followed by
  the turns generated during the call; this holds for the three
  adapters. *)
Theorem C10_chat_messages_fresh (h : store) (params : option ChatParams) :
input_ok h params ->
(forall B a w, chat_messages_law h params (OpenAI.Chat B a params h w))
/\ (forall B a w, chat_messages_law h params (Claude.Chat B a params h w))
/\ (forall B a w, chat_messages_law h params (Ollama.Chat B a params h w)).
Proof.
intros Hin. split; [|split]; intros B a w; apply chat_messages_law_intro; try exact Hin.
- apply openai_Chat_conversation, Hin.
- apply claude_Chat_conversation, Hin.
- apply ollama_Chat_conversation, Hin.
Qed.

End ChatMessages.

(** ** Handing client calls to the caller *)

Section Handoff.
Context `{GoRuntime} `{!OpenAI.Decoders} `{!Claude.Decoders} `{!Ollama.Decoders}.

Lemma append_elems h s xs s' h' :
slice_ok h s -> append_slice h s xs = (s', h') ->
slice_ok h' s' /\ elems h' s' = elems h s ++ xs.
Proof.
intros Hok Ha. destruct (append_slice_spec _ _ _ _ _ Hok Ha) as (Hs1 & Hs2 & _).
split; [exact Hs1|exact Hs2].
Qed.


Lemma claude_toCoreToolCalls_uses content :
Claude.toCoreToolCalls (Claude.extractToolUses content)
= map (fun block => {| tc_ID := Claude.cb_ID block; tc_Name := Claude.cb_Name block;
                       tc_Arguments := Claude.cb_Input block |})
      (Claude.extractToolUses content).
Proof.
unfold Claude.toCoreToolCalls, Claude.extractToolUses. f_equal.
induction content as [|b bs IH]; [reflexivity|].
rewrite filter_cons. destruct (decide _) as [Hb|Hb]; [|exact IH].
rewrite filter_cons. destruct (decide _) as [_|Hn]; [|contradiction].
now rewrite IH.
Qed.


End Handoff.

(** ** Calls of tools that are not registered *)

Section Unregistered.
Context `{GoRuntime} `{!OpenAI.Decoders} `{!Claude.Decoders} `{!Ollama.Decoders}.

Lemma openai_dispatch_unregistered sT cT coreCalls call calls :
call ∈ calls ->
sT !! OpenAI.tcf_Name (OpenAI.ctc_Function call) = None ->
OpenAI.tcf_Name (OpenAI.ctc_Function call) ∉ cT ->
forall idx d, exists e d', OpenAI.dispatch sT cT coreCalls idx calls d = (Some e, d').
Proof.
intros Hin Hs Hc. induction calls as [|c rest IH]; [inversion Hin|].
intros idx d. simpl.
apply elem_of_cons in Hin as [<-|Hin'].
- rewrite Hs. destruct (decide _) as [Hy|_]; [contradiction|]. eauto.
- specialize (IH Hin'). clear Hs Hc.
  destruct (sT !! _) as [tool|].
  + destruct (coreCalls !! idx); [|eauto].
    destruct (st_Handler tool) as [handler|]; [|eauto].
    destruct (handler _). destruct (append_slice _ _ _). apply IH.
  + destruct (decide _); [|eauto].
    destruct (coreCalls !! idx); [|eauto]. apply IH.
Qed.

Lemma claude_dispatch_unregistered sT cT coreCalls use uses :
use ∈ uses ->
sT !! Claude.cb_Name use = None ->
Claude.cb_Name use ∉ cT ->
forall idx d, exists e d', Claude.dispatch sT cT coreCalls idx uses d = (Some e, d').
Proof.
intros Hin Hs Hc. induction uses as [|c rest IH]; [inversion Hin|].
intros idx d. simpl.
apply elem_of_cons in Hin as [<-|Hin'].
- rewrite Hs. destruct (decide _) as [Hy|_]; [contradiction|]. eauto.
- specialize (IH Hin'). clear Hs Hc.
  destruct (sT !! _) as [tool|].
  + destruct (coreCalls !! idx); [|eauto].
    destruct (st_Handler tool) as [handler|]; [|eauto].
    destruct (handler _). destruct (append_slice _ _ _). apply IH.
  + destruct (decide _); [|eauto].
    destruct (coreCalls !! idx); [|eauto]. apply IH.
Qed.

Lemma ollama_dispatch_unregistered sT cT call coreCalls :
call ∈ coreCalls ->
sT !! tc_Name call = None ->
tc_Name call ∉ cT ->
forall d, exists e d', Ollama.dispatch sT cT coreCalls d = (Some e, d').
Proof.
intros Hin Hs Hc. induction coreCalls as [|c rest IH]; [inversion Hin|].
intros d. simpl.
apply elem_of_cons in Hin as [<-|Hin'].
- rewrite Hs. destruct (decide _) as [Hy|_]; [contradiction|]. eauto.
- specialize (IH Hin'). clear Hs Hc.
  destruct (sT !! _) as [tool|].
  + destruct (st_Handler tool) as [handler|]; [|eauto].
    destruct (handler _). destruct (append_slice _ _ _). apply IH.
  + destruct (decide _); [|eauto]. apply IH.
Qed.

(** The core calls of Ollama keep every call of the response, under
  its trimmed name. *)
Lemma ollama_toCoreToolCalls_names call calls : forall i out,
Ollama.toCoreToolCalls_loop i calls = Ok out ->
call ∈ calls ->
exists k, k ∈ out
  /\ tc_Name k = TrimSpace (Ollama.tcf_Name (Ollama.otc_Function call)).
Proof.
induction calls as [|c rest IH]; intros i out Hl Hin; [inversion Hin|].
simpl in Hl.
destruct (String.eqb _ "") eqn:En; [discriminate|].
destruct (Ollama.normalizeToolArguments _) as [args|]; [|discriminate].
destruct (Ollama.toCoreToolCalls_loop _ rest) as [out'|] eqn:Er; [|discriminate].
simpl in Hl. injection Hl as <-.
apply elem_of_cons in Hin as [->|Hr].
- eexists. split; [apply elem_of_cons; now left|reflexivity].
- destruct (IH _ _ Er Hr) as (k & Hk & Hn). exists k. split; [apply elem_of_cons; now right|exact Hn].
Qed.

(** C4: when the assistant turn holds a tool call whose name is
  neither a registered server tool nor a registered client tool,
  [Chat] returns an error and sends no request after the one that
  brought the call; the call is never skipped.  The three parts are
  the adapters of OpenAI, Claude and Ollama (whose tools are looked
  up under the trimmed name of the call). *)
Theorem C4_unregistered_tool_aborts :
(forall B a req sT cT m n st response w choice choices call,
   post B (OpenAI.ls_world B st) a
     (OpenAI.withMessages req (OpenAI.ls_messages B st) false) = (Ok response, w) ->
   OpenAI.resp_Choices response = choice :: choices ->
   call ∈ OpenAI.rm_ToolCalls (OpenAI.ch_Message choice) ->
   sT !! OpenAI.tcf_Name (OpenAI.ctc_Function call) = None ->
   OpenAI.tcf_Name (OpenAI.ctc_Function call) ∉ cT ->
   aborted_after (OpenAI.chatLoop B a req sT cT m (S n) st)
     (OpenAI.ls_sent B st
      ++ [OpenAI.withMessages req (OpenAI.ls_messages B st) false]))
/\ (forall B a req sT cT m n st response w use,
   post B (Claude.ls_world B st) a
     (Claude.withMessages req (Claude.ls_messages B st) false) = (Ok response, w) ->
   use ∈ Claude.extractToolUses (Claude.resp_Content response) ->
   sT !! Claude.cb_Name use = None ->
   Claude.cb_Name use ∉ cT ->
   aborted_after (Claude.chatLoop B a req sT cT m (S n) st)
     (Claude.ls_sent B st
      ++ [Claude.withMessages req (Claude.ls_messages B st) false]))
/\ (forall B a req sT cT m n st response w call,
   post B (Ollama.ls_world B st) a
     (Ollama.withMessages req (Ollama.ls_messages B st) false) = (Ok response, w) ->
   call ∈ Ollama.m_ToolCalls (Ollama.resp_Message response) ->
   sT !! TrimSpace (Ollama.tcf_Name (Ollama.otc_Function call)) = None ->
   TrimSpace (Ollama.tcf_Name (Ollama.otc_Function call)) ∉ cT ->
   aborted_after (Ollama.chatLoop B a req sT cT m (S n) st)
     (Ollama.ls_sent B st
      ++ [Ollama.withMessages req (Ollama.ls_messages B st) false])).
Proof.
split; [|split].
- intros B a req sT cT m n st response w choice choices call Hpost Hch Hin Hs Hc.
  cbn [OpenAI.chatLoop]. rewrite Hpost, Hch.
  destruct (OpenAI.choiceReasoning _ _) as [reasoning|e]; [|split; [reflexivity|eauto]].
  destruct (OpenAI.rm_ToolCalls _) as [|tc tcs] eqn:Etc; [inversion Hin|].
  cbn zeta.
  destruct (OpenAI.toCoreToolCalls _) as [coreCalls|e]; [|split; [reflexivity|eauto]].
  destruct (append_slice _ _ _) as [conv h1].
  match goal with |- context [OpenAI.dispatch _ _ _ ?i _ ?d] =>
    destruct (openai_dispatch_unregistered sT cT coreCalls call (tc :: tcs)
                Hin Hs Hc i d) as (e & d' & ->) end.
  split; [reflexivity|eauto].
- intros B a req sT cT m n st response w use Hpost Hin Hs Hc.
  cbn [Claude.chatLoop]. rewrite Hpost.
  destruct (Claude.extractToolUses _) as [|tu tus] eqn:Etu; [inversion Hin|].
  cbn zeta.
  destruct (append_slice _ _ _) as [conv h1].
  match goal with |- context [Claude.dispatch _ _ ?cc ?i _ ?d] =>
    destruct (claude_dispatch_unregistered sT cT cc use (tu :: tus)
                Hin Hs Hc i d) as (e & d' & ->) end.
  split; [reflexivity|eauto].
- intros B a req sT cT m n st response w call Hpost Hin Hs Hc.
  cbn [Ollama.chatLoop]. rewrite Hpost.
  destruct (Ollama.m_ToolCalls _) as [|tc tcs] eqn:Etc; [inversion Hin|].
  cbn zeta.
  destruct (Ollama.toCoreToolCalls _) as [coreCalls|e] eqn:Ecc;
    [|split; [reflexivity|eauto]].
  destruct (ollama_toCoreToolCalls_names _ _ _ _ Ecc Hin) as (k & Hk & Hn).
  rewrite <- Hn in Hs, Hc.
  destruct (if negb _ then _ else _) as [conv0 hh].
  destruct (append_slice _ _ _) as [conv h1].
  match goal with |- context [Ollama.dispatch _ _ _ ?d] =>
    destruct (ollama_dispatch_unregistered sT cT k coreCalls Hk Hs Hc d)
      as (e & d' & ->) end.
  split; [reflexivity|eauto].
Qed.

End Unregistered.

(** ** Handlers that fail *)

Section SentRequests.
Context `{GoRuntime} `{!OpenAI.Decoders} `{!Claude.Decoders} `{!Ollama.Decoders}.

Ltac sent_done := exists []; cbn; now rewrite ?app_nil_r.

Lemma openai_chatLoop_sent_prefix B a req sT cT m n : forall st,
exists more, run_sent (OpenAI.chatLoop B a req sT cT m n st)
             = OpenAI.ls_sent B st ++ more.
Proof.
induction n as [|n IH]; intros st; [sent_done|].
cbn [OpenAI.chatLoop].
destruct (post B _ _ _) as [[response|err] w]; [|eexists [_]; reflexivity].
destruct (OpenAI.resp_Choices response) as [|choice choices]; [eexists [_]; reflexivity|].
destruct (OpenAI.choiceReasoning _ _); [|eexists [_]; reflexivity].
destruct (OpenAI.rm_ToolCalls _) as [|tc tcs].
- destruct (OpenAI.parseAssistantChoice choice); [|eexists [_]; reflexivity].
  match goal with |- context [match ?r with Ok _ => _ | Err _ => _ end] =>
    destruct r; [|eexists [_]; reflexivity] end.
  destruct (append_slice _ _ _). destruct (append_slice _ _ _).
  eexists [_]; reflexivity.
- cbn zeta. destruct (OpenAI.toCoreToolCalls _); [|eexists [_]; reflexivity].
  destruct (append_slice _ _ _).
  destruct (OpenAI.dispatch _ _ _ _ _ _) as [[e|] d]; [eexists [_]; reflexivity|].
  destruct (OpenAI.d_pending d).
  + match goal with |- context [OpenAI.chatLoop _ _ _ _ _ _ _ ?s] =>
      destruct (IH s) as [more ->] end.
    cbn. rewrite <- app_assoc. eexists (_ :: more). reflexivity.
  + destruct (append_slice _ _ _). eexists [_]; reflexivity.
Qed.

Lemma openai_chatLoop_sends_next B a req sT cT m n st :
sends_next (OpenAI.chatLoop B a req sT cT m (S n) st) (OpenAI.ls_sent B st)
  (OpenAI.withMessages req (OpenAI.ls_messages B st) false).
Proof.
unfold sends_next. cbn [OpenAI.chatLoop].
destruct (post B _ _ _) as [[response|err] w]; [|eexists; reflexivity].
destruct (OpenAI.resp_Choices response) as [|choice choices]; [eexists; reflexivity|].
destruct (OpenAI.choiceReasoning _ _); [|eexists; reflexivity].
destruct (OpenAI.rm_ToolCalls _) as [|tc tcs].
- destruct (OpenAI.parseAssistantChoice choice); [|eexists; reflexivity].
  match goal with |- context [match ?r with Ok _ => _ | Err _ => _ end] =>
    destruct r; [|eexists; reflexivity] end.
  destruct (append_slice _ _ _). destruct (append_slice _ _ _).
  eexists; reflexivity.
- cbn zeta. destruct (OpenAI.toCoreToolCalls _); [|eexists; reflexivity].
  destruct (append_slice _ _ _).
  destruct (OpenAI.dispatch _ _ _ _ _ _) as [[e|] d]; [eexists; reflexivity|].
  destruct (OpenAI.d_pending d).
  + match goal with |- context [OpenAI.chatLoop _ _ _ _ _ _ ?k ?s] =>
      destruct (openai_chatLoop_sent_prefix B a req sT cT m k s) as [more ->] end.
    cbn. rewrite <- app_assoc. eexists. reflexivity.
  + destruct (append_slice _ _ _). eexists; reflexivity.
Qed.

Lemma claude_chatLoop_sent_prefix B a req sT cT m n : forall st,
exists more, run_sent (Claude.chatLoop B a req sT cT m n st)
             = Claude.ls_sent B st ++ more.
Proof.
induction n as [|n IH]; intros st; [sent_done|].
cbn [Claude.chatLoop].
destruct (post B _ _ _) as [[response|err] w]; [|eexists [_]; reflexivity].
destruct (Claude.extractToolUses _) as [|tu tus].
- destruct (append_slice _ _ _). destruct (append_slice _ _ _).
  eexists [_]; reflexivity.
- cbn zeta. destruct (append_slice _ _ _).
  destruct (Claude.dispatch _ _ _ _ _ _) as [[e|] d]; [eexists [_]; reflexivity|].
  destruct (Claude.d_pending d).
  + match goal with |- context [Claude.chatLoop _ _ _ _ _ _ _ ?s] =>
      destruct (IH s) as [more ->] end.
    cbn. rewrite <- app_assoc. eexists (_ :: more). reflexivity.
  + destruct (append_slice _ _ _). eexists [_]; reflexivity.
Qed.

Lemma claude_chatLoop_sends_next B a req sT cT m n st :
sends_next (Claude.chatLoop B a req sT cT m (S n) st) (Claude.ls_sent B st)
  (Claude.withMessages req (Claude.ls_messages B st) false).
Proof.
unfold sends_next. cbn [Claude.chatLoop].
destruct (post B _ _ _) as [[response|err] w]; [|eexists; reflexivity].
destruct (Claude.extractToolUses _) as [|tu tus].
- destruct (append_slice _ _ _). destruct (append_slice _ _ _).
  eexists; reflexivity.
- cbn zeta. destruct (append_slice _ _ _).
  destruct (Claude.dispatch _ _ _ _ _ _) as [[e|] d]; [eexists; reflexivity|].
  destruct (Claude.d_pending d).
  + match goal with |- context [Claude.chatLoop _ _ _ _ _ _ ?k ?s] =>
      destruct (claude_chatLoop_sent_prefix B a req sT cT m k s) as [more ->] end.
    cbn. rewrite <- app_assoc. eexists. reflexivity.
  + destruct (append_slice _ _ _). eexists; reflexivity.
Qed.

Lemma ollama_chatLoop_sent_prefix B a req sT cT m n : forall st,
exists more, run_sent (Ollama.chatLoop B a req sT cT m n st)
             = Ollama.ls_sent B st ++ more.
Proof.
induction n as [|n IH]; intros st; [sent_done|].
cbn [Ollama.chatLoop].
destruct (post B _ _ _) as [[response|err] w]; [|eexists [_]; reflexivity].
destruct (Ollama.m_ToolCalls _) as [|tc tcs].
- destruct (append_slice _ _ _). destruct (append_slice _ _ _).
  eexists [_]; reflexivity.
- cbn zeta. destruct (Ollama.toCoreToolCalls _); [|eexists [_]; reflexivity].
  destruct (if negb _ then _ else _). destruct (append_slice _ _ _).
  destruct (Ollama.dispatch _ _ _ _) as [[e|] d]; [eexists [_]; reflexivity|].
  destruct (Ollama.d_pending d).
  + match goal with |- context [Ollama.chatLoop _ _ _ _ _ _ _ ?s] =>
      destruct (IH s) as [more ->] end.
    cbn. rewrite <- app_assoc. eexists (_ :: more). reflexivity.
  + destruct (append_slice _ _ _). eexists [_]; reflexivity.
Qed.

Lemma ollama_chatLoop_sends_next B a req sT cT m n st :
sends_next (Ollama.chatLoop B a req sT cT m (S n) st) (Ollama.ls_sent B st)
  (Ollama.withMessages req (Ollama.ls_messages B st) false).
Proof.
unfold sends_next. cbn [Ollama.chatLoop].
destruct (post B _ _ _) as [[response|err] w]; [|eexists; reflexivity].
destruct (Ollama.m_ToolCalls _) as [|tc tcs].
- destruct (append_slice _ _ _). destruct (append_slice _ _ _).
  eexists; reflexivity.
- cbn zeta. destruct (Ollama.toCoreToolCalls _); [|eexists; reflexivity].
  destruct (if negb _ then _ else _). destruct (append_slice _ _ _).
  destruct (Ollama.dispatch _ _ _ _) as [[e|] d]; [eexists; reflexivity|].
  destruct (Ollama.d_pending d).
  + match goal with |- context [Ollama.chatLoop _ _ _ _ _ _ ?k ?s] =>
      destruct (ollama_chatLoop_sent_prefix B a req sT cT m k s) as [more ->] end.
    cbn. rewrite <- app_assoc. eexists. reflexivity.
  + destruct (append_slice _ _ _). eexists; reflexivity.
Qed.

End SentRequests.

Section HandlerErrors.
Context `{GoRuntime} `{!OpenAI.Decoders} `{!Claude.Decoders} `{!Ollama.Decoders}.


End HandlerErrors.

(** ** The end of a stream *)

Section StreamEnd.
Context `{GoRuntime} `{!OpenAI.Decoders} `{!Claude.Decoders} `{!Ollama.Decoders}.

Lemma ends_once_spec chunks :
ends_once chunks = true <->
exists pre last, chunks = pre ++ [last] /\ terminal last = true /\ open_chunks pre.
Proof.
unfold open_chunks. induction chunks as [|c rest IH]; simpl.
- split; [discriminate|]. intros (pre & last & E & _). now destruct pre.
- destruct rest as [|c' rest'].
  + split.
    * intros Ht. exists [], c. now repeat split.
    * intros (pre & last & E & Ht & _). destruct pre as [|p [|? ?]]; try discriminate.
      now injection E as ->.
  + rewrite andb_true_iff, IH. split.
    * intros [Hc (pre & last & E & Ht & Hp)]. exists (c :: pre), last.
      rewrite E. simpl. rewrite Hc. now repeat split.
    * intros (pre & last & E & Ht & Hp). destruct pre as [|p pre]; [now destruct rest'|].
      injection E as <- E. simpl in Hp. apply andb_true_iff in Hp as [Hc Hp].
      split; [exact Hc|]. now exists pre, last.
Qed.

Lemma ends_once_app pre chunks :
open_chunks pre -> ends_once chunks = true -> ends_once (pre ++ chunks) = true.
Proof.
unfold open_chunks. induction pre as [|c pre IH]; simpl; [easy|].
intros Hp He. apply andb_true_iff in Hp as [Hc Hp].
specialize (IH Hp He). destruct (pre ++ chunks) eqn:E; [discriminate|].
now rewrite Hc.
Qed.

Lemma open_chunks_app xs ys : open_chunks xs -> open_chunks ys -> open_chunks (xs ++ ys).
Proof. unfold open_chunks. rewrite forallb_app. now intros -> ->. Qed.

Lemma chunksOfMessage_open m : open_chunks (chunksOfMessage m).
Proof.
assert (Hc : forall t, open_chunks
          (map (fun c =>
             {| sc_Type := StreamChunkToolCall; sc_Role := "";
                sc_Delta := ""; sc_Content := "";
                sc_Reasoning := ""; sc_ToolCall := Some c; sc_ToolCallID := "";
                sc_FinishReason := ""; sc_Usage := None; sc_Error := "" |})
             (tcm_ToolCalls t))).
{ intros t. induction (tcm_ToolCalls t); [reflexivity|exact IHl]. }
destruct m as [t|[t|]|?|[?|]|t|[t|]|t|[t|]|]; simpl; try reflexivity;
  try apply Hc; destruct (String.eqb _ _); reflexivity.
Qed.

Lemma emitChunksFromResult_open h params r : open_chunks (emitChunksFromResult h params r).
Proof.
destruct r as [r|]; [|reflexivity]. unfold emitChunksFromResult.
apply open_chunks_app; [destruct (negb _); reflexivity|].
induction (drop _ _) as [|m ms IH]; [reflexivity|].
simpl. apply open_chunks_app; [apply chunksOfMessage_open | exact IH].
Qed.

Lemma replayChunks_ends h params r : ends_once (replayChunks h params r) = true.
Proof.
destruct r as [r|e]; [|reflexivity]. unfold replayChunks.
apply ends_once_app; [apply emitChunksFromResult_open | reflexivity].
Qed.

Lemma openai_streamChoices_chunks rawChoices choices : forall idx ss out r,
OpenAI.streamChoices rawChoices idx choices ss = (out, r) ->
match r with
| Some _ => open_chunks out
| None => ends_once out = true
end.
Proof.
induction choices as [|choice rest IH]; intros idx ss out r; simpl.
- now intros [= <- <-].
- unfold OpenAI.streamChoice1.
  match goal with |- context [match ?x with Ok _ => _ | Err _ => _ end] =>
    destruct x as [reasoning|e] end; [|now intros [= <- <-]].
  set (out1 := if Nat.ltb _ _ then _ else _).
  assert (Ho1 : open_chunks out1) by (subst out1; destruct (Nat.ltb _ _); reflexivity).
  destruct (OpenAI.parseStreamChoiceText choice) as [deltaText|e];
    [|intros [= <- <-]; now apply ends_once_app].
  match goal with |- context [match ?x with Ok _ => _ | Err _ => _ end] =>
    destruct x as [deltaText'|e] end; [|intros [= <- <-]; now apply ends_once_app].
  destruct (String.eqb deltaText' "").
  + destruct (OpenAI.streamChoices _ _ _ _) as [out' r'] eqn:E.
    intros [= <- <-]. specialize (IH _ _ _ _ E). destruct r'.
    * now apply open_chunks_app.
    * now apply ends_once_app.
  + destruct (OpenAI.streamChoices _ _ _ _) as [out' r'] eqn:E.
    intros [= <- <-]. specialize (IH _ _ _ _ E).
    assert (Ho2 : open_chunks (out1 ++ [contentChunk deltaText'
                                          (OpenAI.ss_content ss +:+ deltaText')]))
      by (apply open_chunks_app; [exact Ho1|reflexivity]).
    destruct r'.
    * now apply open_chunks_app.
    * now apply ends_once_app.
Qed.

Lemma openai_streamLines_ends lines readErr : forall ss,
ends_once (OpenAI.streamLines lines readErr ss) = true.
Proof.
induction lines as [|text rest IH]; intros ss; simpl.
- now destruct readErr.
- destruct (_ || _ || _); [apply IH|].
  destruct (String.eqb _ "[DONE]"); [reflexivity|].
  destruct (OpenAI.unmarshalStreamEvent _) as [event|e]; [|reflexivity].
  destruct (OpenAI.streamChoices _ _ _ _) as [out r] eqn:E.
  pose proof (openai_streamChoices_chunks _ _ _ _ _ _ E) as Hc.
  destruct r; [|exact Hc]. apply ends_once_app; [exact Hc|apply IH].
Qed.

Lemma claude_streamDelta1_open delta ss :
open_chunks (fst (Claude.streamDelta1 delta ss)).
Proof.
unfold Claude.streamDelta1. destruct (_ && _); [reflexivity|].
destruct (String.eqb _ "thinking_delta"); [|reflexivity].
simpl. destruct (Nat.ltb _ _); reflexivity.
Qed.

Lemma claude_streamLines_ends lines readErr : forall ss,
ends_once (Claude.streamLines lines readErr ss) = true.
Proof.
induction lines as [|text rest IH]; intros ss; simpl.
- now destruct readErr.
- destruct (_ || _ || _); [apply IH|].
  destruct (_ || _); [apply IH|].
  destruct (Claude.unmarshalStreamEvent _) as [event|e]; [|reflexivity].
  destruct (if String.eqb (Claude.ev_Type event) "error" then _ else _);
    [reflexivity|].
  match goal with |- context [let '(_, _) := ?x in _] =>
    assert (Ho : open_chunks (fst x))
      by (destruct (if String.eqb _ _ then _ else _);
          [apply claude_streamDelta1_open|reflexivity]);
    destruct x as [out ss'] end.
  simpl in Ho.
  destruct (String.eqb _ "message_stop"); apply ends_once_app; auto.
Qed.

Lemma ollama_streamEvent1_open event ss :
open_chunks (fst (Ollama.streamEvent1 event ss)).
Proof.
unfold Ollama.streamEvent1.
destruct (Reconciler.appendStreamSegment _ _) as [nextReasoning reasoningDelta].
destruct (Reconciler.appendStreamSegment _ _) as [nextContent delta].
simpl. apply open_chunks_app; destruct (negb _); reflexivity.
Qed.

Lemma ollama_streamLines_ends lines readErr : forall ss,
ends_once (Ollama.streamLines lines readErr ss) = true.
Proof.
induction lines as [|text rest IH]; intros ss; simpl.
- now destruct readErr.
- destruct (String.eqb _ ""); [apply IH|].
  destruct (Ollama.unmarshalChatResponse _) as [event|e]; [|reflexivity].
  pose proof (ollama_streamEvent1_open event ss) as Ho.
  destruct (Ollama.streamEvent1 event ss) as [out ss'].
  simpl in Ho.
  destruct (Ollama.resp_Done event); apply ends_once_app; auto.
Qed.

(** C8: when [ChatStream] returns a channel, the chunks sent on it
  before it is closed end with a [Done] or an [Error] chunk, and no
  chunk before the last one is a [Done] or an [Error]: there is
  exactly one terminal chunk, it is the last one, and no [Done]
  follows an [Error].  This holds for the three adapters, on the
  live path and on the replay path. *)
Theorem C8_stream_ends_once :
(forall B a params h w chunks,
   sr_chunks (OpenAI.ChatStream B a params h w) = Ok chunks ->
   ends_once chunks = true)
/\ (forall B a params h w chunks,
   sr_chunks (Claude.ChatStream B a params h w) = Ok chunks ->
   ends_once chunks = true)
/\ (forall B a params h w chunks,
   sr_chunks (Ollama.ChatStream B a params h w) = Ok chunks ->
   ends_once chunks = true).
Proof.
split; [|split]; intros B a params h w chunks.
- unfold OpenAI.ChatStream.
  destruct (OpenAI.validate a) as [a'|]; [|discriminate].
  destruct (OpenAI.buildRequestTemplate _ _ _) as [[[[[req msgs] sT] cT] m]|];
    [|discriminate].
  destruct (simulated _ _ _).
  + intros [= <-]. apply replayChunks_ends.
  + destruct (openStream B _ _ _) as [opened w']. intros [= <-].
    destruct opened; try reflexivity. apply openai_streamLines_ends.
- unfold Claude.ChatStream.
  destruct (Claude.validate a) as [a'|]; [|discriminate].
  destruct (Claude.buildRequestTemplate _ _ _) as [[[[[req msgs] sT] cT] m]|];
    [|discriminate].
  destruct (simulated _ _ _).
  + intros [= <-]. apply replayChunks_ends.
  + destruct (openStream B _ _ _) as [opened w']. intros [= <-].
    destruct opened; try reflexivity. apply claude_streamLines_ends.
- unfold Ollama.ChatStream.
  destruct (Ollama.validate a) as [a'|]; [|discriminate].
  destruct (Ollama.buildRequestTemplate _ _ _) as [[[[[req msgs] sT] cT] m]|];
    [|discriminate].
  destruct (simulated _ _ _).
  + intros [= <-]. apply replayChunks_ends.
  + destruct (openStream B _ _ _) as [opened w']. intros [= <-].
    destruct opened; try reflexivity. apply ollama_streamLines_ends.
Qed.

End StreamEnd.

(** ** The theorems at work on examples *)

Section Examples.
Import Example.
#[local] Existing Instance runtime.
#[local] Existing Instance openaiDecoders.
#[local] Existing Instance claudeDecoders.
#[local] Existing Instance ollamaDecoders.

Lemma callerStore_ok messages tools loops :
input_ok (callerStore messages) (Some (request messages tools loops)).
Proof.
split; [reflexivity|]. exists messages. split; [reflexivity|]. simpl. lia.
Qed.

(** The fragments of the reconciler's test: a stale prefix of the
  snapshot is absorbed. *)
Lemma C1_reconciler_round_trip_witness :
HasPrefix "The user asks" "The user" = true
/\ Reconciler.appendStreamSegment "The user asks" "The user" = ("The user asks", "").
Proof.
split; [reflexivity|].
apply (proj2 C1_reconciler_round_trip "The user asks" "The user"). reflexivity.
Defined.


Lemma C8_stream_ends_once_witness :
ends_once
  [reasoningChunk "first thought" "first thought";
   contentChunk "hello" "hello";
   reasoningChunk "second thought"
     ("first thought" +:+ String "010"%char "second thought");
   doneChunk "stop" ("first thought" +:+ String "010"%char "second thought") None]
= true.
Proof.
apply (proj1 C8_stream_ends_once (openaiBackend twoThoughts) (Some openaiAdapter)
         (Some (request userSaysHi [] 0)) (callerStore userSaysHi) []).
vm_compute. reflexivity.
Defined.

Lemma C10_chat_messages_fresh_witness :
chat_messages_law (callerStore userSaysHi) (Some (request userSaysHi [] 0))
  (OpenAI.Chat (openaiBackend []) (Some openaiAdapter)
     (Some (request userSaysHi [] 0)) (callerStore userSaysHi)
     [openaiReply "hello" []]).
Proof.
apply (proj1 (C10_chat_messages_fresh (callerStore userSaysHi)
                (Some (request userSaysHi [] 0))
                (callerStore_ok userSaysHi [] 0))).
Defined.

End Examples.

Section LoopExamples.
Import Example.
#[local] Existing Instance runtime.
#[local] Existing Instance openaiDecoders.
#[local] Existing Instance claudeDecoders.
#[local] Existing Instance ollamaDecoders.


(** The assistant calls a tool nobody registered: [Chat] fails after
  the one request. *)
Lemma C4_unregistered_tool_aborts_witness :
aborted_after
  (OpenAI.chatLoop (openaiBackend []) openaiAdapter openaiTemplate
     serverTable clientTable 8%Z 8
     (openaiStart [openaiReply "" [openaiCall "call_1" "clock";
                                   openaiCall "call_9" "missing"]]))
  ([] ++ [OpenAI.withMessages openaiTemplate [] false]).
Proof.
eapply (proj1 C4_unregistered_tool_aborts (openaiBackend []) openaiAdapter
          openaiTemplate serverTable clientTable 8%Z 7
          (openaiStart [openaiReply "" [openaiCall "call_1" "clock";
                                        openaiCall "call_9" "missing"]])
          _ _ _ _ (openaiCall "call_9" "missing")).
- reflexivity.
- reflexivity.
- apply elem_of_cons. right. apply elem_of_cons. left. reflexivity.
- vm_compute. reflexivity.
- intros Hin. apply elem_of_singleton in Hin. discriminate Hin.
Defined.


End LoopExamples.

(** ** System messages *)

Section SystemMessages.
Context `{GoRuntime} `{!Claude.Decoders}.










End SystemMessages.

Section SystemExamples.
Import Example.
#[local] Existing Instance runtime.
#[local] Existing Instance openaiDecoders.
#[local] Existing Instance claudeDecoders.
#[local] Existing Instance ollamaDecoders.



End SystemExamples.

(** ** Deltas and cumulative fields *)

Section Deltas.
Context `{GoRuntime} `{!OpenAI.Decoders} `{!Claude.Decoders} `{!Ollama.Decoders}.

Lemma chunks_of_app kind xs ys :
chunks_of kind (xs ++ ys) = chunks_of kind xs ++ chunks_of kind ys.
Proof. apply List.filter_app. Qed.

Lemma deltas_app kind xs ys :
deltas kind (xs ++ ys) = deltas kind xs ++ deltas kind ys.
Proof. unfold deltas. now rewrite chunks_of_app, map_app. Qed.

Lemma last_app_cases {A} (xs ys : list A) :
last (xs ++ ys) = match last ys with Some y => Some y | None => last xs end.
Proof.
destruct ys as [|y ys] using rev_ind.
- now rewrite app_nil_r.
- now rewrite app_assoc, !last_snoc.
Qed.

Lemma content_from_app before xs ys :
content_from before (xs ++ ys) = content_from (content_from before xs) ys.
Proof.
unfold content_from. rewrite chunks_of_app, last_app_cases.
now destruct (last (chunks_of _ ys)).
Qed.

Lemma reasoning_from_app before xs ys :
reasoning_from before (xs ++ ys) = reasoning_from (reasoning_from before xs) ys.
Proof.
unfold reasoning_from. rewrite chunks_of_app, last_app_cases.
now destruct (last (chunks_of _ ys)).
Qed.

Lemma extends_content_app before xs ys :
extends_content before xs ->
extends_content (content_from before xs) ys ->
extends_content before (xs ++ ys).
Proof.
unfold extends_content. intros Hx Hy.
rewrite content_from_app, Hy, Hx, deltas_app, concat_all_app.
now rewrite append_assoc.
Qed.

Lemma extends_content_nil before : extends_content before [].
Proof. unfold extends_content. simpl. now rewrite append_empty_r. Qed.

Lemma extends_content_chunk before delta :
extends_content before [contentChunk delta (before +:+ delta)].
Proof. unfold extends_content. simpl. now rewrite append_empty_r. Qed.

Lemma extends_content_other before chunks :
chunks_of StreamChunkContent chunks = [] -> extends_content before chunks.
Proof.
unfold extends_content, content_from, deltas. intros ->. simpl.
now rewrite append_empty_r.
Qed.

Lemma content_from_other before chunks :
chunks_of StreamChunkContent chunks = [] -> content_from before chunks = before.
Proof. unfold content_from. now intros ->. Qed.

Lemma content_law_of_extends chunks : extends_content "" chunks -> content_law chunks.
Proof.
unfold extends_content, content_law, final_content, content_from.
intros ->. now rewrite append_nil_l.
Qed.

Lemma openai_streamChoice1_content rawChoices idx choice ss out r :
OpenAI.streamChoice1 rawChoices idx choice ss = (out, r) ->
extends_content (OpenAI.ss_content ss) out
/\ forall ss', r = Some ss' ->
     OpenAI.ss_content ss' = content_from (OpenAI.ss_content ss) out.
Proof.
unfold OpenAI.streamChoice1.
match goal with |- context [match ?x with Ok _ => _ | Err _ => _ end] =>
  destruct x as [reasoning|e] end;
  [|intros [= <- <-]; split; [now apply extends_content_other|discriminate]].
set (out1 := if Nat.ltb _ _ then _ else _).
assert (Ho1 : chunks_of StreamChunkContent out1 = [])
  by (subst out1; destruct (Nat.ltb _ _); reflexivity).
assert (Herr : forall e, chunks_of StreamChunkContent (out1 ++ [errorChunk e]) = [])
  by (intros e; rewrite chunks_of_app, Ho1; reflexivity).
destruct (OpenAI.parseStreamChoiceText choice) as [deltaText|e];
  [|intros [= <- <-]; split; [now apply extends_content_other|discriminate]].
match goal with |- context [match ?x with Ok _ => _ | Err _ => _ end] =>
  destruct x as [deltaText'|e] end;
  [|intros [= <- <-]; split; [now apply extends_content_other|discriminate]].
destruct (String.eqb deltaText' ""); intros [= <- <-].
- split; [now apply extends_content_other|].
  intros ss' [= <-]. simpl. now rewrite content_from_other.
- split.
  + apply extends_content_app; [now apply extends_content_other|].
    rewrite content_from_other by exact Ho1. apply extends_content_chunk.
  + intros ss' [= <-]. simpl. rewrite content_from_app. reflexivity.
Qed.

Lemma openai_streamChoices_content rawChoices choices : forall idx ss out r,
OpenAI.streamChoices rawChoices idx choices ss = (out, r) ->
extends_content (OpenAI.ss_content ss) out
/\ forall ss', r = Some ss' ->
     OpenAI.ss_content ss' = content_from (OpenAI.ss_content ss) out.
Proof.
induction choices as [|choice rest IH]; intros idx ss out r; simpl.
- intros [= <- <-]. split; [apply extends_content_nil|]. now intros ss' [= <-].
- destruct (OpenAI.streamChoice1 _ _ _ _) as [out1 [ss1|]] eqn:E1.
  + destruct (openai_streamChoice1_content _ _ _ _ _ _ E1) as [Hx Hx'].
    specialize (Hx' _ eq_refl).
    destruct (OpenAI.streamChoices _ _ rest ss1) as [out2 r2] eqn:E2.
    intros [= <- <-]. destruct (IH _ _ _ _ E2) as [Hy Hy'].
    rewrite Hx' in Hy, Hy'. split.
    * now apply extends_content_app.
    * intros ss' ->. rewrite content_from_app. now apply Hy'.
  + intros [= <- <-].
    destruct (openai_streamChoice1_content _ _ _ _ _ _ E1) as [Hx _].
    split; [exact Hx|discriminate].
Qed.

Lemma openai_streamLines_content lines readErr : forall ss,
extends_content (OpenAI.ss_content ss) (OpenAI.streamLines lines readErr ss).
Proof.
induction lines as [|text rest IH]; intros ss; simpl.
- destruct readErr; now apply extends_content_other.
- destruct (_ || _ || _); [apply IH|].
  destruct (String.eqb _ "[DONE]"); [now apply extends_content_other|].
  destruct (OpenAI.unmarshalStreamEvent _) as [event|e];
    [|now apply extends_content_other].
  destruct (OpenAI.streamChoices _ _ _ _) as [out r] eqn:E.
  destruct (openai_streamChoices_content _ _ _ _ _ _ E) as [Hc Hr]. simpl in Hc, Hr.
  destruct r as [ss'|]; [|exact Hc].
  apply extends_content_app; [exact Hc|]. rewrite <- (Hr _ eq_refl). apply IH.
Qed.

Lemma claude_streamDelta1_content delta ss :
extends_content (Claude.ss_content ss) (fst (Claude.streamDelta1 delta ss))
/\ Claude.ss_content (snd (Claude.streamDelta1 delta ss))
   = content_from (Claude.ss_content ss) (fst (Claude.streamDelta1 delta ss)).
Proof.
unfold Claude.streamDelta1. destruct (_ && _); simpl.
- split; [apply extends_content_chunk|reflexivity].
- destruct (String.eqb _ "thinking_delta"); simpl.
  + assert (Ho : chunks_of StreamChunkContent
                   (if Nat.ltb (length (Claude.ss_reasoningParts ss))
                         (length (appendReasoningPart (Claude.ss_reasoningParts ss)
                            (TrimSpace (nonEmpty (Claude.sd_Thinking delta)
                                                 (Claude.sd_Text delta)))))
                    then [reasoningChunk
                            (TrimSpace (nonEmpty (Claude.sd_Thinking delta)
                                                 (Claude.sd_Text delta)))
                            (joinReasoningParts
                               (appendReasoningPart (Claude.ss_reasoningParts ss)
                                  (TrimSpace (nonEmpty (Claude.sd_Thinking delta)
                                                       (Claude.sd_Text delta)))))]
                    else []) = [])
      by (destruct (Nat.ltb _ _); reflexivity).
    split; [now apply extends_content_other|now rewrite content_from_other].
  + split; [apply extends_content_nil|reflexivity].
Qed.

Lemma claude_streamLines_content lines readErr : forall ss,
extends_content (Claude.ss_content ss) (Claude.streamLines lines readErr ss).
Proof.
induction lines as [|text rest IH]; intros ss; simpl.
- destruct readErr; now apply extends_content_other.
- destruct (_ || _ || _); [apply IH|].
  destruct (_ || _); [apply IH|].
  destruct (Claude.unmarshalStreamEvent _) as [event|e];
    [|now apply extends_content_other].
  destruct (if String.eqb (Claude.ev_Type event) "error" then _ else _);
    [now apply extends_content_other|].
  set (ss1 := match Claude.ev_Usage event with Some _ => _ | None => ss end).
  assert (Hss1 : Claude.ss_content ss1 = Claude.ss_content ss)
    by (subst ss1; now destruct (Claude.ev_Usage event)).
  rewrite <- Hss1.
  match goal with |- context [let '(_, _) := ?x in _] =>
    assert (Hx : extends_content (Claude.ss_content ss1) (fst x)
                 /\ Claude.ss_content (snd x)
                    = content_from (Claude.ss_content ss1) (fst x))
      by (destruct (if String.eqb _ _ then _ else _);
          [apply claude_streamDelta1_content
          |split; [apply extends_content_nil|reflexivity]]);
    destruct x as [out ss'] end.
  simpl in Hx. destruct Hx as [Hc Hs].
  destruct (String.eqb _ "message_stop"); apply extends_content_app; try exact Hc.
  + now apply extends_content_other.
  + rewrite <- Hs. apply IH.
Qed.

Lemma ollama_streamEvent1_content event ss :
extends_content (Ollama.ss_content ss) (fst (Ollama.streamEvent1 event ss))
/\ Ollama.ss_content (snd (Ollama.streamEvent1 event ss))
   = content_from (Ollama.ss_content ss) (fst (Ollama.streamEvent1 event ss)).
Proof.
unfold Ollama.streamEvent1.
destruct (Reconciler.appendStreamSegment (Ollama.ss_reasoning ss) _)
  as [nextReasoning reasoningDelta].
pose proof (appendStreamSegment_next (Ollama.ss_content ss)
              (Ollama.m_Content (Ollama.resp_Message event))) as Hn.
destruct (Reconciler.appendStreamSegment (Ollama.ss_content ss) _)
  as [nextContent delta].
simpl in *.
assert (Ho : chunks_of StreamChunkContent
               (if negb (String.eqb reasoningDelta "")
                then [reasoningChunk reasoningDelta (TrimSpace nextReasoning)]
                else []) = []) by (destruct (negb _); reflexivity).
destruct (String.eqb delta "") eqn:Ed; simpl.
- apply String.eqb_eq in Ed. subst delta. rewrite append_empty_r in Hn. subst.
  rewrite app_nil_r.
  split; [now apply extends_content_other|now rewrite content_from_other].
- subst nextContent. split.
  + apply extends_content_app; [now apply extends_content_other|].
    rewrite content_from_other by exact Ho. apply extends_content_chunk.
  + rewrite content_from_app. reflexivity.
Qed.

Lemma ollama_streamLines_content lines readErr : forall ss,
extends_content (Ollama.ss_content ss) (Ollama.streamLines lines readErr ss).
Proof.
induction lines as [|text rest IH]; intros ss; simpl.
- destruct readErr; now apply extends_content_other.
- destruct (String.eqb _ ""); [apply IH|].
  destruct (Ollama.unmarshalChatResponse _) as [event|e];
    [|now apply extends_content_other].
  destruct (ollama_streamEvent1_content event ss) as [Hc Hs].
  destruct (Ollama.streamEvent1 event ss) as [out ss'].
  simpl in Hc, Hs.
  destruct (Ollama.resp_Done event); apply extends_content_app; try exact Hc.
  + now apply extends_content_other.
  + rewrite <- Hs. apply IH.
Qed.

End Deltas.

Section ReasoningDeltas.
Context `{GoRuntime} `{!OpenAI.Decoders} `{!Claude.Decoders} `{!Ollama.Decoders}.

Lemma extends_parts_app f parts xs ys :
extends_parts f parts xs ->
extends_parts f (parts ++ map f (deltas StreamChunkReasoning xs)) ys ->
extends_parts f parts (xs ++ ys).
Proof.
unfold extends_parts. intros Hx Hy.
now rewrite reasoning_from_app, Hx, Hy, deltas_app, map_app, app_assoc.
Qed.

Lemma extends_parts_other f parts chunks :
chunks_of StreamChunkReasoning chunks = [] -> extends_parts f parts chunks.
Proof.
unfold extends_parts, reasoning_from, deltas. intros ->. simpl.
now rewrite app_nil_r.
Qed.

Lemma deltas_other kind chunks : chunks_of kind chunks = [] -> deltas kind chunks = [].
Proof. unfold deltas. now intros ->. Qed.

Lemma appendReasoningPart_cases parts reasoning :
(Nat.ltb (length parts) (length (appendReasoningPart parts reasoning)) = true
 /\ appendReasoningPart parts reasoning = parts ++ [TrimSpace reasoning])
\/ (Nat.ltb (length parts) (length (appendReasoningPart parts reasoning)) = false
    /\ appendReasoningPart parts reasoning = parts).
Proof.
unfold appendReasoningPart.
assert (Hg : Nat.ltb (length parts) (length (parts ++ [TrimSpace reasoning])) = true)
  by (apply Nat.ltb_lt; rewrite length_app; simpl; lia).
assert (Hs : Nat.ltb (length parts) (length parts) = false) by apply Nat.ltb_irrefl.
destruct (String.eqb _ ""); [right; now split|].
destruct (last parts) as [p|]; [|left; now split].
destruct (String.eqb p _); [right|left]; now split.
Qed.

Lemma openai_streamChoice1_reasoning rawChoices idx choice ss out r :
OpenAI.streamChoice1 rawChoices idx choice ss = (out, r) ->
extends_parts id (OpenAI.ss_reasoningParts ss) out
/\ forall ss', r = Some ss' ->
     OpenAI.ss_reasoningParts ss'
     = OpenAI.ss_reasoningParts ss ++ map id (deltas StreamChunkReasoning out).
Proof.
unfold OpenAI.streamChoice1.
match goal with |- context [match ?x with Ok _ => _ | Err _ => _ end] =>
  destruct x as [reasoning|e] end;
  [|intros [= <- <-]; split; [now apply extends_parts_other|discriminate]].
set (out1 := if Nat.ltb _ _ then _ else _).
assert (Ho1 : extends_parts id (OpenAI.ss_reasoningParts ss) out1
              /\ appendReasoningPart (OpenAI.ss_reasoningParts ss) reasoning
                 = OpenAI.ss_reasoningParts ss
                   ++ map id (deltas StreamChunkReasoning out1)).
{ subst out1.
  destruct (appendReasoningPart_cases (OpenAI.ss_reasoningParts ss) reasoning)
    as [[-> Hp]|[-> Hp]]; rewrite Hp.
  - split; reflexivity.
  - split; [now apply extends_parts_other|now rewrite app_nil_r]. }
destruct Ho1 as [Ho1 Hparts].
assert (Hend : forall c, chunks_of StreamChunkReasoning [c] = [] ->
          extends_parts id (OpenAI.ss_reasoningParts ss) (out1 ++ [c])
          /\ deltas StreamChunkReasoning (out1 ++ [c])
             = deltas StreamChunkReasoning out1).
{ intros c Hc. split.
  - apply extends_parts_app; [exact Ho1|now apply extends_parts_other].
  - now rewrite deltas_app, (deltas_other _ [c] Hc), app_nil_r. }
destruct (OpenAI.parseStreamChoiceText choice) as [deltaText|e];
  [|intros [= <- <-]; split; [now apply Hend|discriminate]].
match goal with |- context [match ?x with Ok _ => _ | Err _ => _ end] =>
  destruct x as [deltaText'|e] end;
  [|intros [= <- <-]; split; [now apply Hend|discriminate]].
destruct (String.eqb deltaText' ""); intros [= <- <-].
- split; [exact Ho1|]. now intros ss' [= <-].
- destruct (Hend (contentChunk deltaText' (OpenAI.ss_content ss +:+ deltaText'))
              eq_refl) as [He Hd].
  split; [exact He|]. intros ss' [= <-]. simpl. now rewrite Hd.
Qed.

Lemma openai_streamChoices_reasoning rawChoices choices : forall idx ss out r,
OpenAI.streamChoices rawChoices idx choices ss = (out, r) ->
extends_parts id (OpenAI.ss_reasoningParts ss) out
/\ forall ss', r = Some ss' ->
     OpenAI.ss_reasoningParts ss'
     = OpenAI.ss_reasoningParts ss ++ map id (deltas StreamChunkReasoning out).
Proof.
induction choices as [|choice rest IH]; intros idx ss out r; simpl.
- intros [= <- <-]. split; [now apply extends_parts_other|].
  intros ss' [= <-]. simpl. now rewrite app_nil_r.
- destruct (OpenAI.streamChoice1 _ _ _ _) as [out1 [ss1|]] eqn:E1.
  + destruct (openai_streamChoice1_reasoning _ _ _ _ _ _ E1) as [Hx Hx'].
    specialize (Hx' _ eq_refl).
    destruct (OpenAI.streamChoices _ _ rest ss1) as [out2 r2] eqn:E2.
    intros [= <- <-]. destruct (IH _ _ _ _ E2) as [Hy Hy'].
    rewrite Hx' in Hy, Hy'. split.
    * now apply extends_parts_app.
    * intros ss' ->. rewrite (Hy' _ eq_refl), deltas_app, map_app, app_assoc.
      reflexivity.
  + intros [= <- <-].
    destruct (openai_streamChoice1_reasoning _ _ _ _ _ _ E1) as [Hx _].
    split; [exact Hx|discriminate].
Qed.

Lemma openai_streamLines_reasoning lines readErr : forall ss,
extends_parts id (OpenAI.ss_reasoningParts ss) (OpenAI.streamLines lines readErr ss).
Proof.
induction lines as [|text rest IH]; intros ss; simpl.
- destruct readErr; now apply extends_parts_other.
- destruct (_ || _ || _); [apply IH|].
  destruct (String.eqb _ "[DONE]"); [now apply extends_parts_other|].
  destruct (OpenAI.unmarshalStreamEvent _) as [event|e];
    [|now apply extends_parts_other].
  destruct (OpenAI.streamChoices _ _ _ _) as [out r] eqn:E.
  destruct (openai_streamChoices_reasoning _ _ _ _ _ _ E) as [Hc Hr]. simpl in Hc, Hr.
  destruct r as [ss'|]; [|exact Hc].
  apply extends_parts_app; [exact Hc|]. rewrite <- (Hr _ eq_refl). apply IH.
Qed.

Lemma claude_streamDelta1_reasoning delta ss :
extends_parts TrimSpace (Claude.ss_reasoningParts ss)
  (fst (Claude.streamDelta1 delta ss))
/\ Claude.ss_reasoningParts (snd (Claude.streamDelta1 delta ss))
   = Claude.ss_reasoningParts ss
     ++ map TrimSpace (deltas StreamChunkReasoning (fst (Claude.streamDelta1 delta ss))).
Proof.
unfold Claude.streamDelta1. destruct (_ && _); simpl.
- split; [now apply extends_parts_other|now rewrite app_nil_r].
- destruct (String.eqb _ "thinking_delta"); simpl.
  + destruct (appendReasoningPart_cases (Claude.ss_reasoningParts ss)
                (TrimSpace (nonEmpty (Claude.sd_Thinking delta) (Claude.sd_Text delta))))
      as [[-> Hp]|[-> Hp]]; rewrite Hp.
    * split; reflexivity.
    * split; [now apply extends_parts_other|now rewrite app_nil_r].
  + split; [now apply extends_parts_other|now rewrite app_nil_r].
Qed.

Lemma claude_streamLines_reasoning lines readErr : forall ss,
extends_parts TrimSpace (Claude.ss_reasoningParts ss)
  (Claude.streamLines lines readErr ss).
Proof.
induction lines as [|text rest IH]; intros ss; simpl.
- destruct readErr; now apply extends_parts_other.
- destruct (_ || _ || _); [apply IH|].
  destruct (_ || _); [apply IH|].
  destruct (Claude.unmarshalStreamEvent _) as [event|e];
    [|now apply extends_parts_other].
  destruct (if String.eqb (Claude.ev_Type event) "error" then _ else _);
    [now apply extends_parts_other|].
  set (ss1 := match Claude.ev_Usage event with Some _ => _ | None => ss end).
  assert (Hss1 : Claude.ss_reasoningParts ss1 = Claude.ss_reasoningParts ss)
    by (subst ss1; now destruct (Claude.ev_Usage event)).
  rewrite <- Hss1.
  match goal with |- context [let '(_, _) := ?x in _] =>
    assert (Hx : extends_parts TrimSpace (Claude.ss_reasoningParts ss1) (fst x)
                 /\ Claude.ss_reasoningParts (snd x)
                    = Claude.ss_reasoningParts ss1
                      ++ map TrimSpace (deltas StreamChunkReasoning (fst x)))
      by (destruct (if String.eqb _ _ then _ else _);
          [apply claude_streamDelta1_reasoning
          |split; [now apply extends_parts_other|simpl; now rewrite app_nil_r]]);
    destruct x as [out ss'] end.
  simpl in Hx. destruct Hx as [Hc Hs].
  destruct (String.eqb _ "message_stop"); apply extends_parts_app; try exact Hc.
  + now apply extends_parts_other.
  + rewrite <- Hs. apply IH.
Qed.

End ReasoningDeltas.

Section TrimmedReasoning.
Context `{GoRuntime} `{!OpenAI.Decoders} `{!Claude.Decoders} `{!Ollama.Decoders}.

Lemma extends_trimmed_app before xs ys :
extends_trimmed before xs ->
extends_trimmed (before +:+ concat_all (deltas StreamChunkReasoning xs)) ys ->
extends_trimmed before (xs ++ ys).
Proof.
unfold extends_trimmed. intros Hx Hy.
now rewrite reasoning_from_app, Hx, Hy, deltas_app, concat_all_app, append_assoc.
Qed.

Lemma extends_trimmed_other before chunks :
chunks_of StreamChunkReasoning chunks = [] -> extends_trimmed before chunks.
Proof.
unfold extends_trimmed, reasoning_from, deltas. intros ->. simpl.
now rewrite append_empty_r.
Qed.

Lemma ollama_streamEvent1_reasoning event ss :
extends_trimmed (Ollama.ss_reasoning ss) (fst (Ollama.streamEvent1 event ss))
/\ Ollama.ss_reasoning (snd (Ollama.streamEvent1 event ss))
   = Ollama.ss_reasoning ss
     +:+ concat_all (deltas StreamChunkReasoning (fst (Ollama.streamEvent1 event ss))).
Proof.
unfold Ollama.streamEvent1.
pose proof (appendStreamSegment_next (Ollama.ss_reasoning ss)
              (TrimSpace (Ollama.m_Thinking (Ollama.resp_Message event)))) as Hn.
destruct (Reconciler.appendStreamSegment (Ollama.ss_reasoning ss) _)
  as [nextReasoning reasoningDelta].
destruct (Reconciler.appendStreamSegment (Ollama.ss_content ss) _)
  as [nextContent delta].
simpl in *.
set (out2 := if negb (String.eqb delta "") then _ else _).
assert (Ho : chunks_of StreamChunkReasoning out2 = [])
  by (subst out2; destruct (negb _); reflexivity).
clearbody out2.
destruct (String.eqb reasoningDelta "") eqn:Ed; simpl.
- apply String.eqb_eq in Ed. subst reasoningDelta. rewrite append_empty_r in Hn.
  subst nextReasoning.
  split; [now apply extends_trimmed_other|].
  now rewrite (deltas_other _ _ Ho), append_empty_r.
- subst nextReasoning.
  split.
  + unfold extends_trimmed, reasoning_from, deltas.
    change (chunks_of StreamChunkReasoning (?c :: out2))
      with (c :: chunks_of StreamChunkReasoning out2).
    rewrite Ho. simpl. now rewrite append_empty_r.
  + unfold deltas.
    change (chunks_of StreamChunkReasoning (?c :: out2))
      with (c :: chunks_of StreamChunkReasoning out2).
    rewrite Ho. simpl. now rewrite append_empty_r.
Qed.

Lemma ollama_streamLines_reasoning lines readErr : forall ss,
extends_trimmed (Ollama.ss_reasoning ss) (Ollama.streamLines lines readErr ss).
Proof.
induction lines as [|text rest IH]; intros ss; simpl.
- destruct readErr; now apply extends_trimmed_other.
- destruct (String.eqb _ ""); [apply IH|].
  destruct (Ollama.unmarshalChatResponse _) as [event|e];
    [|now apply extends_trimmed_other].
  destruct (ollama_streamEvent1_reasoning event ss) as [Hc Hs].
  destruct (Ollama.streamEvent1 event ss) as [out ss'].
  simpl in Hc, Hs.
  destruct (Ollama.resp_Done event); apply extends_trimmed_app; try exact Hc.
  + now apply extends_trimmed_other.
  + rewrite <- Hs. apply IH.
Qed.

End TrimmedReasoning.

(** ** What the chunks of a stream add up to *)

Section StreamLaws.
Context `{GoRuntime} `{!OpenAI.Decoders} `{!Claude.Decoders} `{!Ollama.Decoders}.

(** On the live path of [ChatStream] the deltas of the content
  chunks, put together in order, are the [Content] of the last
  content chunk, in the three adapters. *)
Theorem live_content_deltas :
(forall opened, content_law (OpenAI.liveChunks opened))
/\ (forall opened, content_law (Claude.liveChunks opened))
/\ (forall opened, content_law (Ollama.liveChunks opened)).
Proof.
split; [|split]; intros opened; apply content_law_of_extends;
  destruct opened as [e|e|e|msg|lines readErr]; try (now apply extends_content_other).
- apply (openai_streamLines_content lines readErr
           {| OpenAI.ss_content := ""; OpenAI.ss_reasoningParts := [];
              OpenAI.ss_finishReason := ""; OpenAI.ss_usage := None |}).
- apply (claude_streamLines_content lines readErr
           {| Claude.ss_content := ""; Claude.ss_reasoningParts := [];
              Claude.ss_usage := None |}).
- apply (ollama_streamLines_content lines readErr
           {| Ollama.ss_content := ""; Ollama.ss_reasoning := "";
              Ollama.ss_finishReason := ""; Ollama.ss_usage := None |}).
Qed.

(** On the live path of the OpenAI and Claude adapters the
  [Reasoning] of the last reasoning chunk is not the concatenation
  of the reasoning deltas but [joinReasoningParts] of them: the
  deltas (trimmed once more in the Claude adapter) joined by line
  feeds, and trimmed. *)
Theorem live_reasoning_joined :
(forall opened,
   final_reasoning (OpenAI.liveChunks opened)
   = joinReasoningParts (deltas StreamChunkReasoning (OpenAI.liveChunks opened)))
/\ (forall opened,
   final_reasoning (Claude.liveChunks opened)
   = joinReasoningParts
       (map TrimSpace (deltas StreamChunkReasoning (Claude.liveChunks opened)))).
Proof.
split; intros opened.
- assert (He : extends_parts id [] (OpenAI.liveChunks opened)).
  { destruct opened as [e|e|e|msg|lines readErr];
      try (now apply extends_parts_other).
    apply (openai_streamLines_reasoning lines readErr
             {| OpenAI.ss_content := ""; OpenAI.ss_reasoningParts := [];
                OpenAI.ss_finishReason := ""; OpenAI.ss_usage := None |}). }
  unfold extends_parts in He. simpl in He. rewrite map_id in He. exact He.
- assert (He : extends_parts TrimSpace [] (Claude.liveChunks opened)).
  { destruct opened as [e|e|e|msg|lines readErr];
      try (now apply extends_parts_other).
    apply (claude_streamLines_reasoning lines readErr
             {| Claude.ss_content := ""; Claude.ss_reasoningParts := [];
                Claude.ss_usage := None |}). }
  exact He.
Qed.

(** On the live path of the Ollama adapter the [Reasoning] of the
  last reasoning chunk is the concatenation of the reasoning deltas,
  trimmed. *)
Theorem ollama_live_reasoning_trimmed opened :
final_reasoning (Ollama.liveChunks opened)
= match deltas StreamChunkReasoning (Ollama.liveChunks opened) with
  | [] => ""
  | ds => TrimSpace (concat_all ds)
  end.
Proof.
assert (He : extends_trimmed "" (Ollama.liveChunks opened)).
{ destruct opened as [e|e|e|msg|lines readErr]; try (now apply extends_trimmed_other).
  apply (ollama_streamLines_reasoning lines readErr
           {| Ollama.ss_content := ""; Ollama.ss_reasoning := "";
              Ollama.ss_finishReason := ""; Ollama.ss_usage := None |}). }
unfold extends_trimmed in He. rewrite append_nil_l in He.
unfold final_reasoning, reasoning_from, deltas in *.
destruct (chunks_of StreamChunkReasoning (Ollama.liveChunks opened)) as [|c cs] eqn:E;
  [reflexivity|].
destruct (last (c :: cs)) as [l|] eqn:El; [exact He|].
apply last_None in El. discriminate El.
Qed.

Lemma chunksOfMessage_kinds m :
chunks_of StreamChunkReasoning (chunksOfMessage m) = []
/\ Forall (fun c => sc_Delta c = sc_Content c)
          (chunks_of StreamChunkContent (chunksOfMessage m)).
Proof.
assert (Hc : forall calls,
  chunks_of StreamChunkReasoning
    (map (fun c =>
       {| sc_Type := StreamChunkToolCall; sc_Role := "";
          sc_Delta := ""; sc_Content := "";
          sc_Reasoning := ""; sc_ToolCall := Some c; sc_ToolCallID := "";
          sc_FinishReason := ""; sc_Usage := None; sc_Error := "" |}) calls) = []
  /\ chunks_of StreamChunkContent
    (map (fun c =>
       {| sc_Type := StreamChunkToolCall; sc_Role := "";
          sc_Delta := ""; sc_Content := "";
          sc_Reasoning := ""; sc_ToolCall := Some c; sc_ToolCallID := "";
          sc_FinishReason := ""; sc_Usage := None; sc_Error := "" |}) calls) = []).
{ induction calls as [|c cs IH]; [now split|exact IH]. }
destruct m as [t|[t|]|?|[?|]|t|[t|]|t|[t|]|]; simpl;
  try (split; [reflexivity|constructor]);
  try (destruct (Hc (tcm_ToolCalls t)) as [-> ->]; split; [reflexivity|constructor]);
  destruct (String.eqb _ _); split; try reflexivity; repeat constructor.
Qed.

Lemma replayed_kinds ms :
chunks_of StreamChunkReasoning (concat (map chunksOfMessage ms)) = []
/\ Forall (fun c => sc_Delta c = sc_Content c)
          (chunks_of StreamChunkContent (concat (map chunksOfMessage ms))).
Proof.
induction ms as [|m ms [IHr IHc]]; [split; [reflexivity|constructor]|].
simpl. rewrite !chunks_of_app, IHr.
destruct (chunksOfMessage_kinds m) as [-> Hc].
split; [reflexivity|]. apply Forall_app. now split.
Qed.

(** The replay path of [ChatStream] sends whole turns: at most one
  reasoning chunk, whose [Delta] is its [Reasoning], so the
  reasoning deltas add up to the final [Reasoning]; and content
  chunks whose [Delta] is their [Content], one for each assistant
  text of the result, so the content deltas add up to the final
  [Content] when there is at most one of them. *)
Theorem replay_sends_whole_turns h params r :
reasoning_law (replayChunks h params r)
/\ Forall (fun c => sc_Delta c = sc_Content c)
          (chunks_of StreamChunkContent (replayChunks h params r))
/\ (length (chunks_of StreamChunkContent (replayChunks h params r)) <= 1 ->
    content_law (replayChunks h params r)).
Proof.
assert (Hc : Forall (fun c => sc_Delta c = sc_Content c)
               (chunks_of StreamChunkContent (replayChunks h params r))).
{ destruct r as [r|e]; [|constructor]. unfold replayChunks, emitChunksFromResult.
  rewrite !chunks_of_app. apply Forall_app. split; [|constructor].
  apply Forall_app. split; [destruct (negb _); constructor|].
  apply replayed_kinds. }
split; [|split; [exact Hc|]].
- destruct r as [r|e]; [|reflexivity].
  unfold reasoning_law, final_reasoning, deltas, replayChunks, emitChunksFromResult.
  rewrite !chunks_of_app.
  rewrite (proj1 (replayed_kinds _)). simpl. rewrite !app_nil_r.
  destruct (negb _); [|reflexivity]. simpl. now rewrite append_empty_r.
- unfold content_law, final_content, deltas. intros Hlen.
  destruct (chunks_of StreamChunkContent (replayChunks h params r)) as [|c [|c' cs]];
    [reflexivity| |simpl in Hlen; lia].
  apply Forall_cons in Hc as [Hc _]. simpl. now rewrite append_empty_r.
Qed.

End StreamLaws.

(** ** The number of requests of one call *)

Section RequestBound.
Context `{GoRuntime} `{!OpenAI.Decoders} `{!Claude.Decoders} `{!Ollama.Decoders}.

Lemma openai_chatLoop_bound B a req sT cT m n : forall st,
length (run_sent (OpenAI.chatLoop B a req sT cT m n st))
<= length (OpenAI.ls_sent B st) + n.
Proof.
induction n as [|n IH]; intros st; [simpl; lia|].
cbn [OpenAI.chatLoop].
assert (Hone : length (OpenAI.ls_sent B st
                       ++ [OpenAI.withMessages req (OpenAI.ls_messages B st) false])
               <= length (OpenAI.ls_sent B st) + S n)
  by (rewrite length_app; simpl; lia).
destruct (post B _ _ _) as [[response|err] w]; [|exact Hone].
destruct (OpenAI.resp_Choices response) as [|choice choices]; [exact Hone|].
destruct (OpenAI.choiceReasoning _ _); [|exact Hone].
destruct (OpenAI.rm_ToolCalls _) as [|tc tcs].
- destruct (OpenAI.parseAssistantChoice choice); [|exact Hone].
  match goal with |- context [match ?r with Ok _ => _ | Err _ => _ end] =>
    destruct r; [|exact Hone] end.
  destruct (append_slice _ _ _). destruct (append_slice _ _ _). exact Hone.
- cbn zeta. destruct (OpenAI.toCoreToolCalls _); [|exact Hone].
  destruct (append_slice _ _ _).
  destruct (OpenAI.dispatch _ _ _ _ _ _) as [[e|] d]; [exact Hone|].
  destruct (OpenAI.d_pending d).
  + etransitivity; [apply IH|]. cbn. rewrite length_app. simpl. lia.
  + destruct (append_slice _ _ _). exact Hone.
Qed.

Lemma claude_chatLoop_bound B a req sT cT m n : forall st,
length (run_sent (Claude.chatLoop B a req sT cT m n st))
<= length (Claude.ls_sent B st) + n.
Proof.
induction n as [|n IH]; intros st; [simpl; lia|].
cbn [Claude.chatLoop].
assert (Hone : length (Claude.ls_sent B st
                       ++ [Claude.withMessages req (Claude.ls_messages B st) false])
               <= length (Claude.ls_sent B st) + S n)
  by (rewrite length_app; simpl; lia).
destruct (post B _ _ _) as [[response|err] w]; [|exact Hone].
destruct (Claude.extractToolUses _) as [|tu tus].
- destruct (append_slice _ _ _). destruct (append_slice _ _ _). exact Hone.
- cbn zeta. destruct (append_slice _ _ _).
  destruct (Claude.dispatch _ _ _ _ _ _) as [[e|] d]; [exact Hone|].
  destruct (Claude.d_pending d).
  + etransitivity; [apply IH|]. cbn. rewrite length_app. simpl. lia.
  + destruct (append_slice _ _ _). exact Hone.
Qed.

Lemma ollama_chatLoop_bound B a req sT cT m n : forall st,
length (run_sent (Ollama.chatLoop B a req sT cT m n st))
<= length (Ollama.ls_sent B st) + n.
Proof.
induction n as [|n IH]; intros st; [simpl; lia|].
cbn [Ollama.chatLoop].
assert (Hone : length (Ollama.ls_sent B st
                       ++ [Ollama.withMessages req (Ollama.ls_messages B st) false])
               <= length (Ollama.ls_sent B st) + S n)
  by (rewrite length_app; simpl; lia).
destruct (post B _ _ _) as [[response|err] w]; [|exact Hone].
destruct (Ollama.m_ToolCalls _) as [|tc tcs].
- destruct (append_slice _ _ _). destruct (append_slice _ _ _). exact Hone.
- cbn zeta. destruct (Ollama.toCoreToolCalls _); [|exact Hone].
  destruct (if negb _ then _ else _). destruct (append_slice _ _ _).
  destruct (Ollama.dispatch _ _ _ _) as [[e|] d]; [exact Hone|].
  destruct (Ollama.d_pending d).
  + etransitivity; [apply IH|]. cbn. rewrite length_app. simpl. lia.
  + destruct (append_slice _ _ _). exact Hone.
Qed.

Lemma maxLoops_range params hasServerTools :
(1 <= maxLoops params hasServerTools)%Z.
Proof.
unfold maxLoops. destruct hasServerTools; simpl; [|lia].
destruct params as [p|]; [|unfold defaultMaxAgenticLoops; lia].
destruct (0 <? cp_MaxAgenticLoops p)%Z eqn:E;
  [apply Z.ltb_lt in E; lia|unfold defaultMaxAgenticLoops; lia].
Qed.

(** A call of [Chat] sends at least one request once its parameters
  convert, and never more than [maxLoops] allows: one without server
  tools, [MaxAgenticLoops] (8 when that is not positive) with them.
  The three parts are the adapters of OpenAI, Claude and Ollama. *)
Theorem chat_requests_bounded :
(forall B a a' params h w req msgs sT cT m,
   OpenAI.validate a = Ok a' ->
   OpenAI.buildRequestTemplate a' h params = Ok (req, msgs, sT, cT, m) ->
   m = maxLoops params (negb (Nat.eqb (size sT) 0))
   /\ 1 <= length (run_sent (OpenAI.Chat B a params h w)) <= Z.to_nat m)
/\ (forall B a a' params h w req msgs sT cT m,
   Claude.validate a = Ok a' ->
   Claude.buildRequestTemplate a' h params = Ok (req, msgs, sT, cT, m) ->
   m = maxLoops params (negb (Nat.eqb (size sT) 0))
   /\ 1 <= length (run_sent (Claude.Chat B a params h w)) <= Z.to_nat m)
/\ (forall B a a' params h w req msgs sT cT m,
   Ollama.validate a = Ok a' ->
   Ollama.buildRequestTemplate a' h params = Ok (req, msgs, sT, cT, m) ->
   m = maxLoops params (negb (Nat.eqb (size sT) 0))
   /\ 1 <= length (run_sent (Ollama.Chat B a params h w)) <= Z.to_nat m).
Proof.
split; [|split]; intros B a a' params h w req msgs sT cT m Hv Hb.
- assert (Hm : m = maxLoops params (negb (Nat.eqb (size sT) 0))).
  { revert Hb. unfold OpenAI.buildRequestTemplate.
    destruct (OpenAI.toChatMessages h params); [|discriminate].
    destruct (OpenAI.toChatTools params) as [[[tools s] c]|]; [|discriminate].
    now intros [= _ _ <- _ <-]. }
  split; [exact Hm|].
  pose proof (maxLoops_range params (negb (Nat.eqb (size sT) 0))) as Hr.
  rewrite <- Hm in Hr.
  unfold OpenAI.Chat. rewrite Hv, Hb.
  destruct (cloneCoreMessages h params) as [conv h1].
  destruct (Z.to_nat m) as [|n] eqn:En; [lia|]. split.
  + match goal with |- context [OpenAI.chatLoop _ _ _ _ _ _ _ ?s] =>
      destruct (openai_chatLoop_sends_next B a' req sT cT m n s) as [more ->] end.
    simpl. lia.
  + etransitivity; [apply openai_chatLoop_bound|]. simpl. lia.
- assert (Hm : m = maxLoops params (negb (Nat.eqb (size sT) 0))).
  { revert Hb. unfold Claude.buildRequestTemplate.
    destruct (Claude.toMessagesAndSystem h params); [|discriminate].
    destruct (toTools _ params) as [[[tools s] c]|]; [|discriminate].
    now intros [= _ _ <- _ <-]. }
  split; [exact Hm|].
  pose proof (maxLoops_range params (negb (Nat.eqb (size sT) 0))) as Hr.
  rewrite <- Hm in Hr.
  unfold Claude.Chat. rewrite Hv, Hb.
  destruct (cloneCoreMessages h params) as [conv h1].
  destruct (Z.to_nat m) as [|n] eqn:En; [lia|]. split.
  + match goal with |- context [Claude.chatLoop _ _ _ _ _ _ _ ?s] =>
      destruct (claude_chatLoop_sends_next B a' req sT cT m n s) as [more ->] end.
    simpl. lia.
  + etransitivity; [apply claude_chatLoop_bound|]. simpl. lia.
- assert (Hm : m = maxLoops params (negb (Nat.eqb (size sT) 0))).
  { revert Hb. unfold Ollama.buildRequestTemplate.
    destruct (Ollama.toMessages h params); [|discriminate].
    destruct (toTools _ params) as [[[tools s] c]|]; [|discriminate].
    simpl. destruct (Ollama.formatFromOutput _); [|discriminate].
    now intros [= _ _ <- _ <-]. }
  split; [exact Hm|].
  pose proof (maxLoops_range params (negb (Nat.eqb (size sT) 0))) as Hr.
  rewrite <- Hm in Hr.
  unfold Ollama.Chat. rewrite Hv, Hb.
  destruct (cloneCoreMessages h params) as [conv h1].
  destruct (Z.to_nat m) as [|n] eqn:En; [lia|]. split.
  + match goal with |- context [Ollama.chatLoop _ _ _ _ _ _ _ ?s] =>
      destruct (ollama_chatLoop_sends_next B a' req sT cT m n s) as [more ->] end.
    simpl. lia.
  + etransitivity; [apply ollama_chatLoop_bound|]. simpl. lia.
Qed.

End RequestBound.

(** ** The calls handed to the caller *)

Section PendingCalls.
Context `{GoRuntime} `{!OpenAI.Decoders} `{!Claude.Decoders} `{!Ollama.Decoders}.

Lemma openai_toCoreToolCalls_lookup calls : forall coreCalls,
OpenAI.toCoreToolCalls calls = Ok coreCalls ->
length coreCalls = length calls
/\ forall i call k, calls !! i = Some call -> coreCalls !! i = Some k ->
     tc_ID k = OpenAI.ctc_ID call
     /\ tc_Name k = OpenAI.tcf_Name (OpenAI.ctc_Function call).
Proof.
induction calls as [|c rest IH]; intros coreCalls; simpl.
- intros [= <-]. split; [reflexivity|]. intros i call k Hc. destruct i; discriminate.
- destruct (OpenAI.parseToolArguments _) as [args|]; [|discriminate].
  destruct (OpenAI.toCoreToolCalls rest) as [out|] eqn:Er; [|discriminate].
  simpl. intros [= <-]. destruct (IH _ eq_refl) as [Hl Hi].
  split; [simpl; now rewrite Hl|].
  intros [|i] call k; simpl.
  + intros [= <-] [= <-]. now split.
  + apply Hi.
Qed.

Lemma openai_dispatch_pending sT cT coreCalls calls : forall idx d e d',
(forall j call k, calls !! j = Some call -> coreCalls !! (idx + j) = Some k ->
   tc_Name k = OpenAI.tcf_Name (OpenAI.ctc_Function call)) ->
Forall (client_call sT cT) (OpenAI.d_pending d) ->
OpenAI.dispatch sT cT coreCalls idx calls d = (e, d') ->
Forall (client_call sT cT) (OpenAI.d_pending d').
Proof.
induction calls as [|call rest IH]; intros idx d e d' Hn Hp; simpl.
- now intros [= <- <-].
- assert (Hn' : forall j c k, rest !! j = Some c -> coreCalls !! (S idx + j) = Some k ->
                  tc_Name k = OpenAI.tcf_Name (OpenAI.ctc_Function c)).
  { intros j c k Hc Hk. apply (Hn (S j) c k Hc). now rewrite Nat.add_succ_r. }
  destruct (sT !! _) as [tool|] eqn:Es.
  + destruct (coreCalls !! idx) as [coreCall|]; [|now intros [= <- <-]].
    destruct (st_Handler tool) as [handler|]; [|now intros [= <- <-]].
    destruct (handler _). destruct (append_slice _ _ _).
    apply IH; [exact Hn'|exact Hp].
  + destruct (decide _) as [Hin|]; [|now intros [= <- <-]].
    destruct (coreCalls !! idx) as [coreCall|] eqn:Ek; [|now intros [= <- <-]].
    apply IH; [exact Hn'|]. simpl. apply Forall_app. split; [exact Hp|].
    constructor; [|constructor].
    assert (Hk : tc_Name coreCall = OpenAI.tcf_Name (OpenAI.ctc_Function call))
      by (apply (Hn 0 call coreCall eq_refl); now rewrite Nat.add_0_r).
    unfold client_call. rewrite Hk. now split.
Qed.

Lemma openai_chatLoop_shape B a req sT cT m n : forall st r,
run_result (OpenAI.chatLoop B a req sT cT m n st) = Ok r ->
handoff_shape sT cT r.
Proof.
induction n as [|n IH]; intros st r; [discriminate|].
cbn [OpenAI.chatLoop].
destruct (post B _ _ _) as [[response|err] w]; [|discriminate].
destruct (OpenAI.resp_Choices response) as [|choice choices]; [discriminate|].
destruct (OpenAI.choiceReasoning _ _); [|discriminate].
destruct (OpenAI.rm_ToolCalls _) as [|tc tcs].
- destruct (OpenAI.parseAssistantChoice choice); [|discriminate].
  match goal with |- context [match ?x with Ok _ => _ | Err _ => _ end] =>
    destruct x; [|discriminate] end.
  destruct (append_slice _ _ _). destruct (append_slice _ _ _).
  intros [= <-]. split; [constructor|]. intros Hne. now contradiction Hne.
- cbn zeta. destruct (OpenAI.toCoreToolCalls _) as [coreCalls|] eqn:Ec; [|discriminate].
  destruct (append_slice _ _ _).
  destruct (OpenAI.dispatch _ _ _ _ _ _) as [[e|] d] eqn:Ed; [discriminate|].
  apply openai_dispatch_pending in Ed; [|
    intros j call k Hc Hk; now apply (proj2 (openai_toCoreToolCalls_lookup _ _ Ec) j)
    |constructor].
  destruct (OpenAI.d_pending d) as [|p ps] eqn:Ep.
  + apply IH.
  + destruct (append_slice _ _ _). intros [= <-]. split; [exact Ed|]. now split.
Qed.

Lemma lookup_map {A B} (f : A -> B) (l : list A) : forall i x y,
l !! i = Some x -> map f l !! i = Some y -> y = f x.
Proof.
induction l as [|a l IH]; intros [|i] x y; simpl; try discriminate.
- now intros [= <-] [= <-].
- apply IH.
Qed.

Lemma claude_dispatch_pending sT cT coreCalls uses : forall idx d e d',
(forall j use k, uses !! j = Some use -> coreCalls !! (idx + j) = Some k ->
   tc_Name k = Claude.cb_Name use) ->
Forall (client_call sT cT) (Claude.d_pending d) ->
Claude.dispatch sT cT coreCalls idx uses d = (e, d') ->
Forall (client_call sT cT) (Claude.d_pending d').
Proof.
induction uses as [|use rest IH]; intros idx d e d' Hn Hp; simpl.
- now intros [= <- <-].
- assert (Hn' : forall j c k, rest !! j = Some c -> coreCalls !! (S idx + j) = Some k ->
                  tc_Name k = Claude.cb_Name c).
  { intros j c k Hc Hk. apply (Hn (S j) c k Hc). now rewrite Nat.add_succ_r. }
  destruct (sT !! _) as [tool|] eqn:Es.
  + destruct (coreCalls !! idx) as [coreCall|]; [|now intros [= <- <-]].
    destruct (st_Handler tool) as [handler|]; [|now intros [= <- <-]].
    destruct (handler _). destruct (append_slice _ _ _).
    apply IH; [exact Hn'|exact Hp].
  + destruct (decide _) as [Hin|]; [|now intros [= <- <-]].
    destruct (coreCalls !! idx) as [coreCall|] eqn:Ek; [|now intros [= <- <-]].
    apply IH; [exact Hn'|]. simpl. apply Forall_app. split; [exact Hp|].
    constructor; [|constructor].
    assert (Hk : tc_Name coreCall = Claude.cb_Name use)
      by (apply (Hn 0 use coreCall eq_refl); now rewrite Nat.add_0_r).
    unfold client_call. rewrite Hk. now split.
Qed.

Lemma claude_chatLoop_shape B a req sT cT m n : forall st r,
run_result (Claude.chatLoop B a req sT cT m n st) = Ok r ->
handoff_shape sT cT r.
Proof.
induction n as [|n IH]; intros st r; [discriminate|].
cbn [Claude.chatLoop].
destruct (post B _ _ _) as [[response|err] w]; [|discriminate].
pose proof (claude_toCoreToolCalls_uses (Claude.resp_Content response)) as Hcore.
destruct (Claude.extractToolUses _) as [|tu tus].
- destruct (append_slice _ _ _). destruct (append_slice _ _ _).
  intros [= <-]. split; [constructor|]. intros Hne. now contradiction Hne.
- cbn zeta. rewrite Hcore. destruct (append_slice _ _ _).
  destruct (Claude.dispatch _ _ _ _ _ _) as [[e|] d] eqn:Ed; [discriminate|].
  apply claude_dispatch_pending in Ed; [| |constructor].
  + destruct (Claude.d_pending d) as [|p ps] eqn:Ep.
    * apply IH.
    * destruct (append_slice _ _ _). intros [= <-]. split; [exact Ed|]. now split.
  + intros j use k Hu Hk. change (0 + j) with j in Hk.
    now rewrite (lookup_map _ _ _ _ _ Hu Hk).
Qed.

Lemma ollama_dispatch_pending sT cT coreCalls : forall d e d',
Forall (client_call sT cT) (Ollama.d_pending d) ->
Ollama.dispatch sT cT coreCalls d = (e, d') ->
Forall (client_call sT cT) (Ollama.d_pending d').
Proof.
induction coreCalls as [|call rest IH]; intros d e d' Hp; simpl.
- now intros [= <- <-].
- destruct (sT !! _) as [tool|] eqn:Es.
  + destruct (st_Handler tool) as [handler|]; [|now intros [= <- <-]].
    destruct (handler _). destruct (append_slice _ _ _).
    apply IH. exact Hp.
  + destruct (decide _) as [Hin|]; [|now intros [= <- <-]].
    apply IH. simpl. apply Forall_app. split; [exact Hp|].
    constructor; [now split|constructor].
Qed.

Lemma ollama_chatLoop_shape B a req sT cT m n : forall st r,
run_result (Ollama.chatLoop B a req sT cT m n st) = Ok r ->
handoff_shape sT cT r.
Proof.
induction n as [|n IH]; intros st r; [discriminate|].
cbn [Ollama.chatLoop].
destruct (post B _ _ _) as [[response|err] w]; [|discriminate].
destruct (Ollama.m_ToolCalls _) as [|tc tcs].
- destruct (append_slice _ _ _). destruct (append_slice _ _ _).
  intros [= <-]. split; [constructor|]. intros Hne. now contradiction Hne.
- cbn zeta. destruct (Ollama.toCoreToolCalls _) as [coreCalls|]; [|discriminate].
  destruct (if negb _ then _ else _). destruct (append_slice _ _ _).
  destruct (Ollama.dispatch _ _ _ _) as [[e|] d] eqn:Ed; [discriminate|].
  apply ollama_dispatch_pending in Ed; [|constructor].
  destruct (Ollama.d_pending d) as [|p ps] eqn:Ep.
  + apply IH.
  + destruct (append_slice _ _ _). intros [= <-]. split; [exact Ed|]. now split.
Qed.

(** When [Chat] succeeds, every tool call of its result names a
  registered client tool and no server tool: the calls of server
  tools were run and are never handed back; and a result with tool
  calls has the finish reason [tool_calls] and an empty text.  The
  three parts are the adapters of OpenAI, Claude and Ollama. *)
Theorem chat_hands_back_client_calls :
(forall B a a' params h w req msgs sT cT m r,
   OpenAI.validate a = Ok a' ->
   OpenAI.buildRequestTemplate a' h params = Ok (req, msgs, sT, cT, m) ->
   run_result (OpenAI.Chat B a params h w) = Ok r ->
   handoff_shape sT cT r)
/\ (forall B a a' params h w req msgs sT cT m r,
   Claude.validate a = Ok a' ->
   Claude.buildRequestTemplate a' h params = Ok (req, msgs, sT, cT, m) ->
   run_result (Claude.Chat B a params h w) = Ok r ->
   handoff_shape sT cT r)
/\ (forall B a a' params h w req msgs sT cT m r,
   Ollama.validate a = Ok a' ->
   Ollama.buildRequestTemplate a' h params = Ok (req, msgs, sT, cT, m) ->
   run_result (Ollama.Chat B a params h w) = Ok r ->
   handoff_shape sT cT r).
Proof.
split; [|split]; intros B a a' params h w req msgs sT cT m r Hv Hb.
- unfold OpenAI.Chat. rewrite Hv, Hb.
  destruct (cloneCoreMessages h params). apply openai_chatLoop_shape.
- unfold Claude.Chat. rewrite Hv, Hb.
  destruct (cloneCoreMessages h params). apply claude_chatLoop_shape.
- unfold Ollama.Chat. rewrite Hv, Hb.
  destruct (cloneCoreMessages h params). apply ollama_chatLoop_shape.
Qed.

End PendingCalls.

(** ** The tables of registered tools *)

Section ToolTables.
Context `{GoRuntime}.

Lemma register_ok acc name definition sT cT seen :
acc_ok acc ->
td_Name definition = name -> name <> "" ->
name ∉ tt_seenNames acc ->
(forall n, n ∈ seen <-> n = name \/ n ∈ tt_seenNames acc) ->
(forall n, is_Some (sT !! n) \/ n ∈ cT
           <-> n = name \/ is_Some (tt_serverTools acc !! n) \/ n ∈ tt_clientTools acc) ->
(forall n, n ∈ cT -> sT !! n = None) ->
(forall n tool, sT !! n = Some tool -> st_Name tool = n /\ st_Handler tool <> None) ->
acc_ok {| tt_tools := tt_tools acc ++ [definition]; tt_serverTools := sT;
          tt_clientTools := cT; tt_seenNames := seen |}.
Proof.
intros [(Hnd & Hne & Hdef & Hdis & Hsrv) Hseen] Hname Hnz Hnew Hs Hcov Hd Hh.
assert (Hin : forall n, n ∈ map td_Name (tt_tools acc ++ [definition])
                        <-> n = name \/ n ∈ map td_Name (tt_tools acc)).
{ intros n. rewrite map_app, elem_of_app. simpl. rewrite Hname, list_elem_of_singleton.
  tauto. }
split; [split; [|split; [|split; [|split]]]|]; simpl.
- rewrite map_app. simpl. apply NoDup_app. split; [exact Hnd|]. split.
  + intros n Hn Hn'. apply list_elem_of_singleton in Hn'. subst n.
    rewrite Hname in Hn. apply Hnew. now apply Hseen.
  + apply NoDup_singleton.
- apply Forall_app. split; [exact Hne|]. constructor; [now rewrite Hname|constructor].
- intros n. rewrite Hin, Hcov, Hdef. tauto.
- exact Hd.
- exact Hh.
- intros n. rewrite Hin, Hs, Hseen. tauto.
Qed.

Lemma registerServer_ok pkg i t acc acc' :
acc_ok acc -> registerServer pkg i t acc = Ok acc' ->
acc_ok acc' /\ length (tt_tools acc') = S (length (tt_tools acc)).
Proof.
intros Hok. unfold registerServer, newServerTool.
destruct (String.eqb (TrimSpace (st_Name t)) "") eqn:En; [discriminate|].
destruct (st_Handler t) as [handler|] eqn:Eh; [|discriminate].
simpl. unfold assertNewToolName.
destruct (decide _) as [|Hnew]; [discriminate|]. simpl. intros [= <-].
apply String.eqb_neq in En.
split; [|simpl; rewrite length_app; simpl; lia].
pose proof Hok as [(Hnd & Hne & Hdef & Hdis & Hsrv) Hseen].
apply (register_ok acc (TrimSpace (st_Name t))); try assumption; try reflexivity.
- intros n. rewrite elem_of_union, elem_of_singleton. tauto.
- intros n. rewrite lookup_insert_is_Some.
  destruct (decide (TrimSpace (st_Name t) = n)) as [<-|Hn]; [tauto|].
  split; [intros [[?|[_ ?]]|?]|intros [?|[?|?]]]; subst; tauto.
- intros n Hn. rewrite lookup_insert_ne; [now apply Hdis|].
  intros <-. apply Hnew, Hseen, Hdef. now right.
- intros n tool. destruct (decide (TrimSpace (st_Name t) = n)) as [<-|Hn].
  + rewrite lookup_insert_eq. intros [= <-]. simpl. split; [reflexivity|].
    discriminate.
  + rewrite lookup_insert_ne by exact Hn. apply Hsrv.
Qed.

Lemma registerClient_ok pkg i t acc acc' :
acc_ok acc -> registerClient pkg i t acc = Ok acc' ->
acc_ok acc' /\ length (tt_tools acc') = S (length (tt_tools acc)).
Proof.
intros Hok. unfold registerClient, newClientTool.
destruct (String.eqb (TrimSpace (ct_Name t)) "") eqn:En; [discriminate|].
simpl. unfold assertNewToolName.
destruct (decide _) as [|Hnew]; [discriminate|]. simpl. intros [= <-].
apply String.eqb_neq in En.
split; [|simpl; rewrite length_app; simpl; lia].
pose proof Hok as [(Hnd & Hne & Hdef & Hdis & Hsrv) Hseen].
apply (register_ok acc (TrimSpace (ct_Name t))); try assumption; try reflexivity.
- intros n. rewrite elem_of_union, elem_of_singleton. tauto.
- intros n. rewrite elem_of_union, elem_of_singleton. tauto.
- intros n Hn. apply elem_of_union in Hn as [Hn|Hn]; [|now apply Hdis].
  apply elem_of_singleton in Hn. subst n.
  destruct (tt_serverTools acc !! TrimSpace (ct_Name t)) eqn:E; [|reflexivity].
  exfalso. apply Hnew, Hseen, Hdef. left. now rewrite E.
Qed.

Lemma toTools_loop_ok pkg tools : forall i acc acc',
acc_ok acc -> toTools_loop pkg i tools acc = Ok acc' ->
acc_ok acc' /\ length (tt_tools acc') = length (tt_tools acc) + length tools.
Proof.
induction tools as [|union rest IH]; intros i acc acc' Hok; simpl.
- intros [= <-]. split; [exact Hok|lia].
- match goal with |- context [match ?x with Ok _ => _ | Err _ => _ end] =>
    destruct x as [acc1|] eqn:E1 end; [|discriminate].
  intros Hl.
  assert (H1 : acc_ok acc1 /\ length (tt_tools acc1) = S (length (tt_tools acc))).
  { destruct union as [t|[t|]|t|[t|]|]; try discriminate;
      first [now apply (registerServer_ok pkg i t) | now apply (registerClient_ok pkg i t)]. }
  destruct H1 as [Hok1 Hlen1].
  destruct (IH _ _ _ Hok1 Hl) as [Hok' Hlen']. split; [exact Hok'|lia].
Qed.

(** When the tools of a request register, there is one definition for
  each tool, in order; the names, once trimmed, are not empty and
  all different; a name is a server tool or a client tool, never
  both; and every server tool is stored under its name with a
  handler.  So a tool without a name or without a handler, a nil
  tool and a name used twice make the request fail. *)
Theorem toTools_tables pkg params tools sT cT :
toTools pkg params = Ok (tools, sT, cT) ->
tables_ok tools sT cT
/\ length tools = match params with Some p => length (cp_Tools p) | None => 0 end.
Proof.
assert (Hempty : tables_ok [] (∅ : gmap string ServerTool) (∅ : gset string)).
{ split; [constructor|]. split; [constructor|]. split; [|split].
  - intros n. split; [intros Hn; inversion Hn|].
    intros [[x Hx]|Hn]; [now rewrite lookup_empty in Hx|now apply not_elem_of_empty in Hn].
  - intros n _. apply lookup_empty.
  - intros n tool Hn. now rewrite lookup_empty in Hn. }
unfold toTools. destruct params as [p|]; [|intros [= <- <- <-]; now split].
destruct (cp_Tools p) as [|t ts] eqn:Et; [intros [= <- <- <-]; now split|].
destruct (toTools_loop _ _ _ _) as [acc|] eqn:El; [|discriminate].
simpl. intros [= <- <- <-].
apply toTools_loop_ok in El as [[Hok _] Hlen]; [split; [exact Hok|exact Hlen]|].
split; [exact Hempty|]. intros n. simpl. split; intros Hn; [|inversion Hn].
now apply not_elem_of_empty in Hn.
Qed.

End ToolTables.

(** ** The errors of the tool loop *)

Section DispatchErrors.
Context `{GoRuntime} `{!OpenAI.Decoders} `{!Claude.Decoders} `{!Ollama.Decoders}.

Lemma openai_dispatch_error sT cT coreCalls calls :
(forall name tool, sT !! name = Some tool -> st_Handler tool <> None) ->
forall idx d e d',
idx + length calls <= length coreCalls ->
OpenAI.dispatch sT cT coreCalls idx calls d = (Some e, d') ->
exists call, call ∈ calls
  /\ sT !! OpenAI.tcf_Name (OpenAI.ctc_Function call) = None
  /\ (OpenAI.tcf_Name (OpenAI.ctc_Function call) ∉ cT)
  /\ e = ("openai: tool " +:+ Quote (OpenAI.tcf_Name (OpenAI.ctc_Function call))
         +:+ " was requested but not registered").
Proof.
intros Hh. induction calls as [|call rest IH]; intros idx d e d' Hlen; simpl.
- discriminate.
- simpl in Hlen.
  assert (Hk : is_Some (coreCalls !! idx)) by (apply lookup_lt_is_Some; lia).
  destruct Hk as [k Hk]. rewrite Hk.
  assert (Hrest : forall d0, OpenAI.dispatch sT cT coreCalls (S idx) rest d0 = (Some e, d') ->
            exists c, c ∈ call :: rest
              /\ sT !! OpenAI.tcf_Name (OpenAI.ctc_Function c) = None
              /\ (OpenAI.tcf_Name (OpenAI.ctc_Function c) ∉ cT)
              /\ e = ("openai: tool " +:+ Quote (OpenAI.tcf_Name (OpenAI.ctc_Function c))
                     +:+ " was requested but not registered")).
  { intros d0 Hd. destruct (IH (S idx) d0 e d') as (c & Hc & Hrest); [lia|exact Hd|].
    exists c. split; [apply elem_of_cons; now right|exact Hrest]. }
  destruct (sT !! _) as [tool|] eqn:Es.
  + destruct (st_Handler tool) as [handler|] eqn:Eh;
      [|now destruct (Hh _ _ Es)].
    destruct (handler _). destruct (append_slice _ _ _). apply Hrest.
  + destruct (decide _) as [Hin|Hout]; [apply Hrest|].
    intros [= <- <-]. exists call. split; [apply elem_of_cons; now left|].
    now repeat split.
Qed.

Lemma claude_dispatch_error sT cT coreCalls uses :
(forall name tool, sT !! name = Some tool -> st_Handler tool <> None) ->
forall idx d e d',
idx + length uses <= length coreCalls ->
Claude.dispatch sT cT coreCalls idx uses d = (Some e, d') ->
exists use, use ∈ uses
  /\ sT !! Claude.cb_Name use = None
  /\ (Claude.cb_Name use ∉ cT)
  /\ e = ("claude: tool " +:+ Quote (Claude.cb_Name use)
         +:+ " was requested but not registered").
Proof.
intros Hh. induction uses as [|use rest IH]; intros idx d e d' Hlen; simpl.
- discriminate.
- simpl in Hlen.
  assert (Hk : is_Some (coreCalls !! idx)) by (apply lookup_lt_is_Some; lia).
  destruct Hk as [k Hk]. rewrite Hk.
  assert (Hrest : forall d0, Claude.dispatch sT cT coreCalls (S idx) rest d0 = (Some e, d') ->
            exists c, c ∈ use :: rest
              /\ sT !! Claude.cb_Name c = None
              /\ (Claude.cb_Name c ∉ cT)
              /\ e = ("claude: tool " +:+ Quote (Claude.cb_Name c)
                     +:+ " was requested but not registered")).
  { intros d0 Hd. destruct (IH (S idx) d0 e d') as (c & Hc & Hrest); [lia|exact Hd|].
    exists c. split; [apply elem_of_cons; now right|exact Hrest]. }
  destruct (sT !! _) as [tool|] eqn:Es.
  + destruct (st_Handler tool) as [handler|] eqn:Eh;
      [|now destruct (Hh _ _ Es)].
    destruct (handler _). destruct (append_slice _ _ _). apply Hrest.
  + destruct (decide _) as [Hin|Hout]; [apply Hrest|].
    intros [= <- <-]. exists use. split; [apply elem_of_cons; now left|].
    now repeat split.
Qed.

Lemma ollama_dispatch_error sT cT coreCalls :
(forall name tool, sT !! name = Some tool -> st_Handler tool <> None) ->
forall d e d',
Ollama.dispatch sT cT coreCalls d = (Some e, d') ->
exists call, call ∈ coreCalls
  /\ sT !! tc_Name call = None
  /\ (tc_Name call ∉ cT)
  /\ e = ("ollama: tool " +:+ Quote (tc_Name call)
         +:+ " was requested but not registered").
Proof.
intros Hh d e d'. revert d. induction coreCalls as [|call rest IH]; intros d; simpl.
- discriminate.
- assert (Hrest : forall d0, Ollama.dispatch sT cT rest d0 = (Some e, d') ->
            exists c, c ∈ call :: rest
              /\ sT !! tc_Name c = None /\ (tc_Name c ∉ cT)
              /\ e = ("ollama: tool " +:+ Quote (tc_Name c)
                     +:+ " was requested but not registered")).
  { intros d0 Hd. destruct (IH d0 Hd) as (c & Hc & Hrest).
    exists c. split; [apply elem_of_cons; now right|exact Hrest]. }
  destruct (sT !! _) as [tool|] eqn:Es.
  + destruct (st_Handler tool) as [handler|] eqn:Eh;
      [|now destruct (Hh _ _ Es)].
    destruct (handler _). destruct (append_slice _ _ _). apply Hrest.
  + destruct (decide _) as [Hin|Hout]; [apply Hrest|].
    intros [= <- <-]. exists call. split; [apply elem_of_cons; now left|].
    now repeat split.
Qed.

(** With the tables [toTools] builds and the core calls the adapter
  derives from the assistant's turn, the loop over the tool calls
  fails in one way only: on a call whose name is neither a server
  tool nor a client tool, with the error that names it.  The index
  into the core calls is always in range and a server tool always
  has its handler. *)
Theorem tool_loop_fails_on_unregistered_only tools sT cT :
tables_ok tools sT cT ->
(forall calls coreCalls d e d',
   OpenAI.toCoreToolCalls calls = Ok coreCalls ->
   OpenAI.dispatch sT cT coreCalls 0 calls d = (Some e, d') ->
   exists call, call ∈ calls
     /\ sT !! OpenAI.tcf_Name (OpenAI.ctc_Function call) = None
     /\ (OpenAI.tcf_Name (OpenAI.ctc_Function call) ∉ cT)
     /\ e = ("openai: tool " +:+ Quote (OpenAI.tcf_Name (OpenAI.ctc_Function call))
             +:+ " was requested but not registered"))
/\ (forall content d e d',
   Claude.dispatch sT cT (Claude.toCoreToolCalls (Claude.extractToolUses content)) 0
     (Claude.extractToolUses content) d = (Some e, d') ->
   exists use, use ∈ Claude.extractToolUses content
     /\ sT !! Claude.cb_Name use = None
     /\ (Claude.cb_Name use ∉ cT)
     /\ e = ("claude: tool " +:+ Quote (Claude.cb_Name use)
             +:+ " was requested but not registered"))
/\ (forall coreCalls d e d',
   Ollama.dispatch sT cT coreCalls d = (Some e, d') ->
   exists call, call ∈ coreCalls
     /\ sT !! tc_Name call = None
     /\ (tc_Name call ∉ cT)
     /\ e = ("ollama: tool " +:+ Quote (tc_Name call)
             +:+ " was requested but not registered")).
Proof.
intros (_ & _ & _ & _ & Hsrv).
assert (Hh : forall name tool, sT !! name = Some tool -> st_Handler tool <> None)
  by (intros name tool Hn; apply (Hsrv _ _ Hn)).
split; [|split].
- intros calls coreCalls d e d' Hc. apply (openai_dispatch_error _ _ _ _ Hh).
  rewrite (proj1 (openai_toCoreToolCalls_lookup _ _ Hc)). simpl. lia.
- intros content d e d'. apply (claude_dispatch_error _ _ _ _ Hh).
  rewrite claude_toCoreToolCalls_uses, length_map. simpl. lia.
- intros coreCalls d e d'. apply (ollama_dispatch_error _ _ _ Hh).
Qed.

End DispatchErrors.

(** ** Converting the messages of a request *)

Section Conversions.
Context `{GoRuntime} `{!OpenAI.Decoders} `{!Ollama.Decoders}.

Lemma openai_toChatMessage_role union message :
OpenAI.toChatMessage union = Ok message -> OpenAI.msg_Role message <> "".
Proof.
assert (Ht : forall role content, OpenAI.newTextChatMessage role content = Ok message ->
               OpenAI.msg_Role message <> "").
{ intros role content. unfold OpenAI.newTextChatMessage.
  destruct (String.eqb _ "") eqn:E; [discriminate|]. intros [= <-].
  now apply String.eqb_neq in E. }
assert (Hc : forall role parts, OpenAI.newContentChatMessage role parts = Ok message ->
               OpenAI.msg_Role message <> "").
{ intros role parts. unfold OpenAI.newContentChatMessage.
  destruct (String.eqb _ "") eqn:E; [discriminate|].
  destruct (OpenAI.toChatContentParts parts); [|discriminate]. intros [= <-].
  now apply String.eqb_neq in E. }
assert (Ha : forall role calls,
               OpenAI.newAssistantToolCallChatMessage role calls = Ok message ->
               OpenAI.msg_Role message <> "").
{ intros role calls. unfold OpenAI.newAssistantToolCallChatMessage.
  destruct (_ && _); [discriminate|].
  destruct (OpenAI.toChatToolCalls calls); [|discriminate]. now intros [= <-]. }
assert (Hr : forall role id content,
               OpenAI.newToolResultChatMessage role id content = Ok message ->
               OpenAI.msg_Role message <> "").
{ intros role id content. unfold OpenAI.newToolResultChatMessage.
  destruct (_ && _); [discriminate|].
  destruct (String.eqb _ ""); [discriminate|]. now intros [= <-]. }
destruct union as [m|[m|]|m|[m|]|m|[m|]|m|[m|]|]; simpl; try discriminate; eauto.
Qed.

Lemma ollama_normalizeRole_role role n :
Ollama.normalizeRole role = Ok n -> ollama_role n /\ (n = "tool" \/ n <> "tool").
Proof.
unfold Ollama.normalizeRole, ollama_role.
destruct (String.eqb _ "") eqn:E0; [discriminate|].
destruct (String.eqb _ RoleSystem) eqn:E1; simpl.
{ intros [= <-]. apply String.eqb_eq in E1. rewrite E1. split; [tauto|right; discriminate]. }
destruct (String.eqb _ RoleUser) eqn:E2; simpl.
{ intros [= <-]. apply String.eqb_eq in E2. rewrite E2. split; [tauto|right; discriminate]. }
destruct (String.eqb _ RoleAssistant) eqn:E3; simpl.
{ intros [= <-]. apply String.eqb_eq in E3. rewrite E3. split; [tauto|right; discriminate]. }
destruct (_ || _); [|discriminate]. intros [= <-]. split; [tauto|now left].
Qed.

Lemma ollama_toMessage_role union message :
Ollama.toMessage union = Ok message -> ollama_role (Ollama.m_Role message).
Proof.
assert (Ht : forall role content, Ollama.textMessage role content = Ok message ->
               ollama_role (Ollama.m_Role message)).
{ intros role content. unfold Ollama.textMessage.
  destruct (Ollama.normalizeRole role) as [n|] eqn:En; [|discriminate].
  simpl. intros [= <-]. apply (ollama_normalizeRole_role _ _ En). }
assert (Hc : forall role parts, Ollama.contentMessage role parts = Ok message ->
               ollama_role (Ollama.m_Role message)).
{ intros role parts. unfold Ollama.contentMessage.
  destruct (Ollama.normalizeRole role) as [n|] eqn:En; [|discriminate].
  simpl. destruct (String.eqb n "tool"); [discriminate|].
  destruct (Ollama.contentAndImages parts); [|discriminate].
  simpl. intros [= <-]. apply (ollama_normalizeRole_role _ _ En). }
assert (Ha : forall role calls,
               Ollama.assistantToolCallMessage role calls = Ok message ->
               ollama_role (Ollama.m_Role message)).
{ intros role calls. unfold Ollama.assistantToolCallMessage.
  destruct (_ && _); [discriminate|].
  destruct (Ollama.toToolCalls calls); [|discriminate]. intros [= <-].
  unfold ollama_role. simpl. tauto. }
assert (Hr : forall role id name content,
               Ollama.toolResultMessage role id name content = Ok message ->
               ollama_role (Ollama.m_Role message)).
{ intros role id name content. unfold Ollama.toolResultMessage.
  destruct (_ && _); [discriminate|].
  destruct (String.eqb _ ""); [discriminate|]. intros [= <-].
  unfold ollama_role. simpl. tauto. }
destruct union as [m|[m|]|m|[m|]|m|[m|]|m|[m|]|]; simpl; try discriminate; eauto.
Qed.

Lemma openai_toChatMessages_loop_spec unions : forall i,
match OpenAI.toChatMessages_loop i unions with
| Ok out =>
    Forall2 (fun union message => OpenAI.toChatMessage union = Ok message) unions out
| Err e =>
    exists j union err,
      unions !! j = Some union
      /\ OpenAI.toChatMessage union = Err err
      /\ e = ("openai: invalid message at index " +:+ Itoa (Z.of_nat (i + j))
              +:+ ": " +:+ err)
      /\ forall k u, k < j -> unions !! k = Some u ->
           is_Ok (OpenAI.toChatMessage u) = true
end.
Proof.
induction unions as [|union rest IH]; intros i; simpl; [constructor|].
destruct (OpenAI.toChatMessage union) as [message|err] eqn:Eu.
- specialize (IH (S i)).
  destruct (OpenAI.toChatMessages_loop (S i) rest) as [out|e]; simpl.
  + now constructor.
  + destruct IH as (j & u & err & Hj & Hu & -> & Hbefore).
    exists (S j), u, err. split; [exact Hj|]. split; [exact Hu|].
    split; [now rewrite Nat.add_succ_r|].
    intros [|k] u' Hk; simpl; [intros [= <-]; now rewrite Eu|].
    apply Hbefore. lia.
- exists 0, union, err. split; [reflexivity|]. split; [exact Eu|].
  split; [now rewrite Nat.add_0_r|]. intros k u Hk. lia.
Qed.

Lemma ollama_toMessages_loop_spec unions : forall i,
match Ollama.toMessages_loop i unions with
| Ok out =>
    Forall2 (fun union message => Ollama.toMessage union = Ok message) unions out
| Err e =>
    exists j union err,
      unions !! j = Some union
      /\ Ollama.toMessage union = Err err
      /\ e = ("ollama: invalid message at index " +:+ Itoa (Z.of_nat (i + j))
              +:+ ": " +:+ err)
      /\ forall k u, k < j -> unions !! k = Some u ->
           is_Ok (Ollama.toMessage u) = true
end.
Proof.
induction unions as [|union rest IH]; intros i; simpl; [constructor|].
destruct (Ollama.toMessage union) as [message|err] eqn:Eu.
- specialize (IH (S i)).
  destruct (Ollama.toMessages_loop (S i) rest) as [out|e]; simpl.
  + now constructor.
  + destruct IH as (j & u & err & Hj & Hu & -> & Hbefore).
    exists (S j), u, err. split; [exact Hj|]. split; [exact Hu|].
    split; [now rewrite Nat.add_succ_r|].
    intros [|k] u' Hk; simpl; [intros [= <-]; now rewrite Eu|].
    apply Hbefore. lia.
- exists 0, union, err. split; [reflexivity|]. split; [exact Eu|].
  split; [now rewrite Nat.add_0_r|]. intros k u Hk. lia.
Qed.

(** The OpenAI and Ollama adapters convert the messages of a request
  one for one and in order; a converted message of the OpenAI
  adapter never has an empty role, one of the Ollama adapter has the
  role system, user, assistant or tool.  When the conversion fails
  without parameters the error says so; otherwise the error names
  the index of the first message that does not convert and carries
  the error of that message. *)
Theorem messages_convert_in_order h params :
match OpenAI.toChatMessages h params with
| Ok out =>
    Forall2 (fun union message => OpenAI.toChatMessage union = Ok message)
      (input_messages h params) out
    /\ Forall (fun m => OpenAI.msg_Role m <> "") out
| Err e =>
    (params = None /\ e = "openai: chat params are required")
    \/ exists i union err,
         input_messages h params !! i = Some union
         /\ OpenAI.toChatMessage union = Err err
         /\ e = ("openai: invalid message at index " +:+ Itoa (Z.of_nat i)
                 +:+ ": " +:+ err)
         /\ forall k u, k < i -> input_messages h params !! k = Some u ->
              is_Ok (OpenAI.toChatMessage u) = true
end
/\ match Ollama.toMessages h params with
   | Ok out =>
       Forall2 (fun union message => Ollama.toMessage union = Ok message)
         (input_messages h params) out
       /\ Forall (fun m => ollama_role (Ollama.m_Role m)) out
   | Err e =>
       (params = None /\ e = "ollama: chat params are required")
       \/ exists i union err,
            input_messages h params !! i = Some union
            /\ Ollama.toMessage union = Err err
            /\ e = ("ollama: invalid message at index " +:+ Itoa (Z.of_nat i)
                    +:+ ": " +:+ err)
            /\ forall k u, k < i -> input_messages h params !! k = Some u ->
                 is_Ok (Ollama.toMessage u) = true
   end.
Proof.
split.
- destruct params as [p|]; simpl; [|left; now split].
  pose proof (openai_toChatMessages_loop_spec (elems h (cp_Messages p)) 0) as Hl.
  destruct (OpenAI.toChatMessages_loop 0 _) as [out|e]; [|right; exact Hl].
  split; [exact Hl|]. clear -Hl.
  induction Hl as [|u m us ms Hm _ IH]; constructor; [|exact IH].
  apply (openai_toChatMessage_role _ _ Hm).
- destruct params as [p|]; simpl; [|left; now split].
  pose proof (ollama_toMessages_loop_spec (elems h (cp_Messages p)) 0) as Hl.
  destruct (Ollama.toMessages_loop 0 _) as [out|e]; [|right; exact Hl].
  split; [exact Hl|]. clear -Hl.
  induction Hl as [|u m us ms Hm _ IH]; constructor; [|exact IH].
  apply (ollama_toMessage_role _ _ Hm).
Qed.

End Conversions.

(** ** The lines of a stream *)

Section StreamLines.
Context `{GoRuntime} `{!OpenAI.Decoders} `{!Claude.Decoders} `{!Ollama.Decoders}.

Lemma openai_streamLines_skip text rest readErr ss :
openai_skips text = true ->
OpenAI.streamLines (text :: rest) readErr ss = OpenAI.streamLines rest readErr ss.
Proof. unfold openai_skips. simpl. now intros ->. Qed.

Lemma openai_streamLines_kept lines readErr : forall ss,
OpenAI.streamLines (List.filter (fun t => negb (openai_skips t)) lines) readErr ss
= OpenAI.streamLines lines readErr ss.
Proof.
induction lines as [|text rest IH]; intros ss; [reflexivity|].
cbn [List.filter]. destruct (openai_skips text) eqn:Es; cbn [negb].
- now rewrite openai_streamLines_skip.
- unfold openai_skips in Es. cbn [OpenAI.streamLines]. cbv zeta. rewrite Es.
  destruct (String.eqb _ "[DONE]"); [reflexivity|].
  destruct (OpenAI.unmarshalStreamEvent _); [|reflexivity].
  destruct (OpenAI.streamChoices _ _ _ _) as [out [ss'|]]; [|reflexivity].
  now rewrite IH.
Qed.

Lemma claude_streamLines_kept lines readErr : forall ss,
Claude.streamLines (List.filter (fun t => negb (claude_skips t)) lines) readErr ss
= Claude.streamLines lines readErr ss.
Proof.
induction lines as [|text rest IH]; intros ss; [reflexivity|].
cbn [List.filter]. destruct (claude_skips text) eqn:Es; cbn [negb];
  unfold claude_skips, openai_skips in Es; cbv zeta in Es.
- rewrite IH. cbn [Claude.streamLines]. cbv zeta.
  apply orb_true_iff in Es as [E|E]; rewrite E; [reflexivity|].
  now destruct (_ || _ || _).
- apply orb_false_iff in Es as [E1 E2].
  cbn [Claude.streamLines]. cbv zeta. rewrite E1, E2.
  destruct (Claude.unmarshalStreamEvent _); [|reflexivity].
  destruct (if String.eqb _ "error" then _ else _); [reflexivity|].
  match goal with |- context [let '(_, _) := ?x in _] => destruct x as [out ss'] end.
  destruct (String.eqb _ "message_stop"); [reflexivity|]. now rewrite IH.
Qed.

Lemma ollama_streamLines_kept lines readErr : forall ss,
Ollama.streamLines (List.filter (fun t => negb (ollama_skips t)) lines) readErr ss
= Ollama.streamLines lines readErr ss.
Proof.
induction lines as [|text rest IH]; intros ss; [reflexivity|].
cbn [List.filter]. unfold ollama_skips at 1.
cbn [Ollama.streamLines]. cbv zeta.
destruct (String.eqb _ "") eqn:E1; cbn [negb]; [apply IH|].
cbn [Ollama.streamLines]. cbv zeta. rewrite E1.
destruct (Ollama.unmarshalChatResponse _); [|reflexivity].
destruct (Ollama.streamEvent1 _ _) as [out ss'].
destruct (Ollama.resp_Done _); [reflexivity|]. now rewrite IH.
Qed.

(** The lines an adapter passes over leave no trace: a stream reads
  the same with them and without them.  These are blank lines,
  comments and lines that are not data lines in the OpenAI adapter,
  the same and data lines with an empty payload or the payload
  [[DONE]] in the Claude adapter, and blank lines in the Ollama
  adapter. *)
Theorem stream_passes_over_idle_lines lines readErr :
(forall ss,
   OpenAI.streamLines (List.filter (fun t => negb (openai_skips t)) lines) readErr ss
   = OpenAI.streamLines lines readErr ss)
/\ (forall ss,
   Claude.streamLines (List.filter (fun t => negb (claude_skips t)) lines) readErr ss
   = Claude.streamLines lines readErr ss)
/\ (forall ss,
   Ollama.streamLines (List.filter (fun t => negb (ollama_skips t)) lines) readErr ss
   = Ollama.streamLines lines readErr ss).
Proof.
split; [|split].
- apply openai_streamLines_kept.
- apply claude_streamLines_kept.
- apply ollama_streamLines_kept.
Qed.

(** The OpenAI adapter stops reading at the data line [[DONE]]: the
  lines after it, and an error of the reader after it, change
  nothing in the chunks. *)
Theorem openai_stream_stops_at_done before text after readErr :
openai_done text = true ->
forall ss,
  OpenAI.streamLines (before ++ text :: after) readErr ss
  = OpenAI.streamLines (before ++ [text]) None ss.
Proof.
unfold openai_done, openai_skips. intros Hd.
apply andb_true_iff in Hd as [Hk Hd]. apply negb_true_iff in Hk.
assert (Hbase : forall ss, OpenAI.streamLines (text :: after) readErr ss
                           = OpenAI.streamLines [text] None ss)
  by (intros ss; cbn [OpenAI.streamLines]; cbv zeta; now rewrite Hk, Hd).
clear Hk Hd.
induction before as [|line rest IH]; intros ss.
- apply Hbase.
- rewrite <- !app_comm_cons. cbn [OpenAI.streamLines]. cbv zeta.
  destruct (_ || _ || _); [apply IH|].
  destruct (String.eqb _ "[DONE]"); [reflexivity|].
  destruct (OpenAI.unmarshalStreamEvent _); [|reflexivity].
  destruct (OpenAI.streamChoices _ _ _ _) as [out [ss'|]]; [|reflexivity].
  now rewrite IH.
Qed.

End StreamLines.

(** ** The core calls of an assistant turn *)

Section CoreCalls.
Context `{GoRuntime} `{!OpenAI.Decoders} `{!Claude.Decoders} `{!Ollama.Decoders}.

Lemma ollama_toCoreToolCalls_loop_spec calls : forall i out,
Ollama.toCoreToolCalls_loop i calls = Ok out ->
Forall2 (fun call k =>
           tc_Name k = TrimSpace (Ollama.tcf_Name (Ollama.otc_Function call))
           /\ tc_Name k <> "" /\ tc_ID k <> ""
           /\ (TrimSpace (Ollama.otc_ID call) <> "" ->
               tc_ID k = TrimSpace (Ollama.otc_ID call)))
        calls out.
Proof.
induction calls as [|call rest IH]; intros i out; simpl.
- intros [= <-]. constructor.
- destruct (String.eqb (TrimSpace (Ollama.tcf_Name _)) "") eqn:En; [discriminate|].
  destruct (Ollama.normalizeToolArguments _) as [args|]; [|discriminate].
  destruct (Ollama.toCoreToolCalls_loop _ rest) as [out'|] eqn:Er; [|discriminate].
  simpl. intros [= <-]. constructor; [|now apply (IH (S i))].
  simpl. apply String.eqb_neq in En. split; [reflexivity|]. split; [exact En|].
  destruct (String.eqb (TrimSpace (Ollama.otc_ID call)) "") eqn:Ei.
  + apply String.eqb_eq in Ei. split; [discriminate|]. intros Hne. now contradiction Hne.
  + apply String.eqb_neq in Ei. now split.
Qed.

Lemma openai_toCoreToolCalls_spec calls : forall out,
OpenAI.toCoreToolCalls calls = Ok out ->
Forall2 (fun call k =>
           tc_ID k = OpenAI.ctc_ID call
           /\ tc_Name k = OpenAI.tcf_Name (OpenAI.ctc_Function call)
           /\ OpenAI.parseToolArguments (OpenAI.tcf_Arguments (OpenAI.ctc_Function call))
              = Ok (tc_Arguments k))
        calls out.
Proof.
induction calls as [|call rest IH]; intros out; simpl.
- intros [= <-]. constructor.
- destruct (OpenAI.parseToolArguments _) as [args|] eqn:Ea; [|discriminate].
  destruct (OpenAI.toCoreToolCalls rest) as [out'|]; [|discriminate].
  simpl. intros [= <-]. constructor; [now repeat split|now apply IH].
Qed.

(** The core calls an adapter derives from an assistant turn are one
  for each tool call of the turn, in order.  The OpenAI adapter
  keeps the id and the name as they are and decodes the arguments;
  without arguments (a blank text) the call gets an empty object.
  The Ollama adapter trims the name, which is then not empty, and
  gives every call an id that is not empty: its own when it has
  one. *)
Theorem core_calls_follow_the_turn :
(forall calls out,
   OpenAI.toCoreToolCalls calls = Ok out ->
   Forall2 (fun call k =>
              tc_ID k = OpenAI.ctc_ID call
              /\ tc_Name k = OpenAI.tcf_Name (OpenAI.ctc_Function call)
              /\ OpenAI.parseToolArguments
                   (OpenAI.tcf_Arguments (OpenAI.ctc_Function call))
                 = Ok (tc_Arguments k))
           calls out)
/\ (forall raw, TrimSpace raw = "" ->
      OpenAI.parseToolArguments raw = Ok (Some (anyMap ∅)))
/\ (forall calls out,
   Ollama.toCoreToolCalls calls = Ok out ->
   Forall2 (fun call k =>
              tc_Name k = TrimSpace (Ollama.tcf_Name (Ollama.otc_Function call))
              /\ tc_Name k <> "" /\ tc_ID k <> ""
              /\ (TrimSpace (Ollama.otc_ID call) <> "" ->
                  tc_ID k = TrimSpace (Ollama.otc_ID call)))
           calls out).
Proof.
split; [exact openai_toCoreToolCalls_spec|]. split.
- intros raw Hr. unfold OpenAI.parseToolArguments. now rewrite Hr.
- intros calls out. apply ollama_toCoreToolCalls_loop_spec.
Qed.

End CoreCalls.

(** ** Reasoning parts *)

Section ReasoningParts.
Context `{GoRuntime}.


End ReasoningParts.

(** ** The copy of the caller's messages *)

Section Clone.
Context `{GoRuntime}.

Lemma length_elems h s : slice_ok h s -> length (elems h s) = sl_len s.
Proof.
intros [Hlen Hok]. unfold elems, array_of.
destruct (sl_array s) as [l|].
- destruct Hok as (arr & -> & Hcap). simpl.
  rewrite length_take, length_drop. lia.
- rewrite drop_nil, take_nil. simpl. lia.
Qed.

(** [cloneCoreMessages] gives the nil slice when there are no
  messages, and otherwise a slice with the same messages, in order,
  on a new array with room for eight more; the arrays of the caller
  stay as they are. *)
Theorem cloneCoreMessages_copies h params conv h1 :
input_ok h params ->
cloneCoreMessages h params = (conv, h1) ->
elems h1 conv = input_messages h params
/\ preserves h h1
/\ fresh_for h conv
/\ (input_messages h params = [] -> conv = nil_slice /\ h1 = h)
/\ (input_messages h params <> [] ->
    sl_array conv <> None
    /\ sl_len conv = length (input_messages h params)
    /\ sl_cap conv = length (input_messages h params) + 8).
Proof.
intros Hin Hc.
destruct (cloneCoreMessages_spec _ _ _ _ Hin Hc) as [(Hok & Hfr & Hp) Hel].
split; [exact Hel|]. split; [exact Hp|]. split; [exact Hfr|].
unfold cloneCoreMessages in Hc. destruct params as [p|]; simpl in *.
- pose proof (length_elems _ _ Hin) as Hlen.
  destruct (Nat.eqb (sl_len (cp_Messages p)) 0) eqn:E.
  + injection Hc as <- <-. apply Nat.eqb_eq in E. split; [now split|].
    intros Hne. destruct (elems h (cp_Messages p)); [now contradiction Hne|].
    simpl in Hlen. lia.
  + apply Nat.eqb_neq in E. split.
    * intros Hnil. rewrite Hnil in Hlen. simpl in Hlen. lia.
    * intros _. unfold make_slice in Hc.
      assert (Hl1 : length (elems (<[fresh (dom h) := replicate (sl_len (cp_Messages p) + 8) MsgNil]> h)
                              (cp_Messages p)) = sl_len (cp_Messages p)).
      { apply length_elems. apply (slice_ok_preserved h); [exact Hin|].
        apply preserves_insert_fresh. }
      unfold append_slice in Hc.
      destruct (elems _ (cp_Messages p)) as [|x xs] eqn:Ex;
        [simpl in Hl1; lia|].
      cbn [sl_array sl_len sl_cap sl_off] in Hc.
      destruct (decide _) as [_|Hn] in Hc; [|simpl in Hn, Hl1; lia].
      injection Hc as <- <-. simpl. simpl in Hl1. rewrite Hlen.
      split; [discriminate|]. split; lia.
- injection Hc as <- <-. split; [now split|]. intros Hne. now contradiction Hne.
Qed.

End Clone.

(** ** A turn without tool calls *)

Section Answers.
Context `{GoRuntime} `{!OpenAI.Decoders} `{!Claude.Decoders} `{!Ollama.Decoders}.


End Answers.

(** ** More examples *)

Section MoreExamples.
Import Example.
#[local] Existing Instance runtime.
#[local] Existing Instance openaiDecoders.
#[local] Existing Instance claudeDecoders.
#[local] Existing Instance ollamaDecoders.

(** Replaying the greeting: one content chunk, so the deltas add up. *)
Lemma replay_sends_whole_turns_witness :
content_law (replayChunks (callerStore greeted) (Some (request userSaysHi [] 0))
               (Ok greeting)).
Proof.
apply (proj2 (proj2 (replay_sends_whole_turns (callerStore greeted)
                       (Some (request userSaysHi [] 0)) (Ok greeting)))).
vm_compute. lia.
Defined.

Lemma example_build :
exists req msgs,
  OpenAI.buildRequestTemplate openaiAdapter (callerStore userSaysHi)
    (Some (request userSaysHi exampleTools 3))
  = Ok (req, msgs, serverTable, clientTable, 3%Z).
Proof. eexists _, _. reflexivity. Qed.

Lemma example_tables :
exists tools,
  toTools "openai" (Some (request userSaysHi exampleTools 3))
  = Ok (tools, serverTable, clientTable).
Proof. eexists. reflexivity. Qed.

(** With the three tools and [MaxAgenticLoops = 3], a backend that
  keeps calling the clock gets three requests and no more. *)
Lemma chat_requests_bounded_witness :
1 <= length (run_sent (OpenAI.Chat (openaiBackend []) (Some openaiAdapter)
                         (Some (request userSaysHi exampleTools 3))
                         (callerStore userSaysHi)
                         (repeat (openaiReply "" [openaiCall "call_1" "clock"]) 5)))
  <= 3.
Proof.
destruct example_build as (req & msgs & Hb).
apply (proj2 (proj1 chat_requests_bounded (openaiBackend []) (Some openaiAdapter)
                openaiAdapter (Some (request userSaysHi exampleTools 3))
                (callerStore userSaysHi)
                (repeat (openaiReply "" [openaiCall "call_1" "clock"]) 5)
                req msgs serverTable clientTable 3%Z eq_refl Hb)).
Defined.

(** The tables of the three tools of the examples. *)
Lemma toTools_tables_witness :
exists tools, tables_ok tools serverTable clientTable /\ length tools = 3.
Proof.
destruct example_tables as [tools Ht]. exists tools.
apply (toTools_tables "openai" (Some (request userSaysHi exampleTools 3))
         tools serverTable clientTable Ht).
Defined.

(** The assistant asks for the lookup: [Chat] succeeds, and the call
  it hands back is a call of a client tool. *)
Lemma chat_hands_back_client_calls_witness :
is_Ok (run_result (OpenAI.Chat (openaiBackend []) (Some openaiAdapter)
                     (Some (request userSaysHi exampleTools 3))
                     (callerStore userSaysHi)
                     [openaiReply "" [openaiCall "call_2" "lookup"]])) = true
/\ match run_result (OpenAI.Chat (openaiBackend []) (Some openaiAdapter)
                       (Some (request userSaysHi exampleTools 3))
                       (callerStore userSaysHi)
                       [openaiReply "" [openaiCall "call_2" "lookup"]]) with
   | Ok r => handoff_shape serverTable clientTable r
   | Err _ => False
   end.
Proof.
destruct example_build as (req & msgs & Hb).
assert (Hok : is_Ok (run_result (OpenAI.Chat (openaiBackend []) (Some openaiAdapter)
                     (Some (request userSaysHi exampleTools 3))
                     (callerStore userSaysHi)
                     [openaiReply "" [openaiCall "call_2" "lookup"]])) = true)
  by (vm_compute; reflexivity).
split; [exact Hok|].
destruct (run_result _) as [r|e] eqn:Hr; [|discriminate Hok].
apply (proj1 chat_hands_back_client_calls (openaiBackend []) (Some openaiAdapter)
         openaiAdapter (Some (request userSaysHi exampleTools 3))
         (callerStore userSaysHi)
         [openaiReply "" [openaiCall "call_2" "lookup"]]
         req msgs serverTable clientTable 3%Z r eq_refl Hb Hr).
Defined.

Lemma example_tables_ok : exists tools, tables_ok tools serverTable clientTable.
Proof.
destruct example_tables as [tools Ht]. exists tools.
apply (toTools_tables _ _ _ _ _ Ht).
Qed.

(** A call of a tool that is not in the tables of the examples: the
  loop over the calls fails, and the error names the tool. *)
Lemma tool_loop_fails_on_unregistered_only_witness :
exists call,
  call ∈ [openaiCall "call_1" "clock"; openaiCall "call_9" "missing"]
  /\ serverTable !! OpenAI.tcf_Name (OpenAI.ctc_Function call) = None
  /\ (OpenAI.tcf_Name (OpenAI.ctc_Function call) ∉ clientTable)
  /\ ("openai: tool " +:+ Quote "missing" +:+ " was requested but not registered")
     = ("openai: tool " +:+ Quote (OpenAI.tcf_Name (OpenAI.ctc_Function call))
        +:+ " was requested but not registered").
Proof.
destruct example_tables_ok as [tools Hok].
eapply (proj1 (tool_loop_fails_on_unregistered_only tools serverTable clientTable Hok)
          [openaiCall "call_1" "clock"; openaiCall "call_9" "missing"] _
          {| OpenAI.d_messages := []; OpenAI.d_conversation := nil_slice;
             OpenAI.d_store := ∅; OpenAI.d_pending := [] |}).
- reflexivity.
- reflexivity.
Defined.

(** Nothing after [[DONE]] shows, not even an error of the reader. *)
Lemma openai_stream_stops_at_done_witness :
OpenAI.streamLines (["data: content:hello"] ++ "data: [DONE]" :: ["data: content:more"])
  (Some "connection reset")
  {| OpenAI.ss_content := ""; OpenAI.ss_reasoningParts := [];
     OpenAI.ss_finishReason := ""; OpenAI.ss_usage := None |}
= OpenAI.streamLines (["data: content:hello"] ++ ["data: [DONE]"]) None
    {| OpenAI.ss_content := ""; OpenAI.ss_reasoningParts := [];
       OpenAI.ss_finishReason := ""; OpenAI.ss_usage := None |}.
Proof.
apply (openai_stream_stops_at_done ["data: content:hello"] "data: [DONE]"
         ["data: content:more"] (Some "connection reset")).
vm_compute. reflexivity.
Defined.

(** The core call of a call of the clock. *)
Lemma core_calls_follow_the_turn_witness :
Forall2 (fun call k =>
           tc_ID k = OpenAI.ctc_ID call
           /\ tc_Name k = OpenAI.tcf_Name (OpenAI.ctc_Function call)
           /\ OpenAI.parseToolArguments
                (OpenAI.tcf_Arguments (OpenAI.ctc_Function call))
              = Ok (tc_Arguments k))
  [openaiCall "call_1" "clock"]
  [{| tc_ID := "call_1"; tc_Name := "clock";
      tc_Arguments := Some (VObject [] : @any runtime) |}].
Proof.
apply (proj1 core_calls_follow_the_turn [openaiCall "call_1" "clock"]).
reflexivity.
Defined.


(** The copy of the caller's one message. *)
Lemma cloneCoreMessages_copies_witness :
elems (snd (cloneCoreMessages (callerStore userSaysHi)
              (Some (request userSaysHi [] 0))))
      (fst (cloneCoreMessages (callerStore userSaysHi)
              (Some (request userSaysHi [] 0))))
= userSaysHi.
Proof.
apply (proj1 (cloneCoreMessages_copies (callerStore userSaysHi)
                (Some (request userSaysHi [] 0)) _ _
                (callerStore_ok userSaysHi [] 0)
                (surjective_pairing _))).
Defined.


End MoreExamples.

(** ** Token limits and replayed turns *)

Section Limits.
Context `{GoRuntime} `{!OpenAI.Decoders} `{!Claude.Decoders} `{!Ollama.Decoders}.

(** The Claude and Ollama adapters never send a token limit that is
  not positive: they take [MaxOutputTokens] when it is positive,
  else [MaxLength] when that is positive, else none.  The OpenAI
  adapter sends [MaxOutputTokens] as it is given, positive or not,
  and falls back on a positive [MaxLength] only without it. *)
Theorem token_limits :
(forall params v, Claude.maxTokens params = Some v -> (0 < v)%Z)
/\ (forall params v, Ollama.maxTokens params = Some v -> (0 < v)%Z)
/\ (forall params, Claude.maxTokens params = Ollama.maxTokens params)
/\ (forall p v, cp_MaxOutputTokens p = Some v ->
      OpenAI.maxTokens (Some p) = Some v
      /\ ((0 < v)%Z -> Claude.maxTokens (Some p) = Some v))
/\ (forall p, cp_MaxOutputTokens p = None ->
      OpenAI.maxTokens (Some p) = Claude.maxTokens (Some p)).
Proof.
assert (Hpos : forall params v, Claude.maxTokens params = Some v -> (0 < v)%Z).
{ intros [p|] v; simpl; [|discriminate].
  destruct (cp_MaxOutputTokens p) as [u|].
  - destruct (0 <? u)%Z eqn:Eu; [intros [= <-]; now apply Z.ltb_lt|].
    destruct (0 <? cp_MaxLength p)%Z eqn:El; [intros [= <-]; now apply Z.ltb_lt|discriminate].
  - destruct (0 <? cp_MaxLength p)%Z eqn:El; [intros [= <-]; now apply Z.ltb_lt|discriminate]. }
split; [exact Hpos|]. split; [exact Hpos|]. split; [reflexivity|]. split.
- intros p v Hv. simpl. rewrite Hv. split; [reflexivity|].
  intros Hp. apply Z.ltb_lt in Hp. now rewrite Hp.
- intros p Hn. simpl. now rewrite Hn.
Qed.

(** The replay of a result sends chunks for the turns after the
  caller's own messages only: when the messages of the result are
  the input followed by generated turns, the chunks are the
  reasoning chunk, if the result has reasoning, and the chunks of
  the generated turns, in order. *)
Theorem replay_skips_the_input h p r gen :
slice_ok h (cp_Messages p) ->
elems h (cr_Messages r) = elems h (cp_Messages p) ++ gen ->
slice_ok h (cr_Messages r) ->
emitChunksFromResult h (Some p) (Some r)
= (if negb (String.eqb (TrimSpace (cr_Reasoning r)) "")
   then [reasoningChunk (TrimSpace (cr_Reasoning r)) (TrimSpace (cr_Reasoning r))]
   else [])
  ++ concat (map chunksOfMessage gen).
Proof.
intros Hin Hel Hres. unfold emitChunksFromResult. f_equal.
pose proof (length_elems _ _ Hin) as Hl1.
pose proof (length_elems _ _ Hres) as Hl2.
rewrite Hel, length_app in Hl2.
assert (Hlt : Nat.ltb (sl_len (cr_Messages r)) (sl_len (cp_Messages p)) = false)
  by (apply Nat.ltb_ge; lia).
rewrite Hlt, Hel, <- Hl1, drop_app_length. reflexivity.
Qed.

End Limits.

Section LimitExamples.
Import Example.
#[local] Existing Instance runtime.

(** Replaying the greeting for a caller who said hi: the reasoning
  chunk and the chunk of the answer, nothing for the caller's turn. *)
Lemma replay_skips_the_input_witness :
emitChunksFromResult (callerStore greeted)
  (Some (request userSaysHi [] 0)) (Some greeting)
= [reasoningChunk "a greeting" "a greeting"]
  ++ chunksOfMessage (MsgText {| tm_Role := RoleAssistant; tm_Content := "hello" |}).
Proof.
refine (eq_trans
  (replay_skips_the_input (callerStore greeted)
     (request userSaysHi [] 0) greeting
     [MsgText {| tm_Role := RoleAssistant; tm_Content := "hello" |}] _ _ _) _).
- split; [simpl; lia|]. exists greeted. split; [reflexivity|simpl; lia].
- reflexivity.
- split; [simpl; lia|]. exists greeted. split; [reflexivity|simpl; lia].
- reflexivity.
Defined.

End LimitExamples.

(** ** What the loop over the tool calls leaves behind *)

Section Dispatched.
Context `{GoRuntime} `{!Ollama.Decoders}.

Lemma omap_cons_Some {A B} (f : A -> option B) x y l :
f x = Some y -> omap f (x :: l) = y :: omap f l.
Proof. intros Hf. simpl. now rewrite Hf. Qed.

Lemma omap_cons_None {A B} (f : A -> option B) x l :
f x = None -> omap f (x :: l) = omap f l.
Proof. intros Hf. simpl. now rewrite Hf. Qed.

(** The loop of the Ollama adapter over the tool calls of one turn,
  when it ends without an error: it has appended, in the order of
  the calls, one tool-result turn to the conversation and one
  [tool] message to the messages of the next request for each call
  of a server tool, both with the output of the handler, and it has
  collected the other calls, in order, for the caller. *)
Theorem ollama_dispatch_in_call_order sT cT coreCalls : forall d d',
slice_ok (Ollama.d_store d) (Ollama.d_conversation d) ->
Ollama.dispatch sT cT coreCalls d = (None, d') ->
elems (Ollama.d_store d') (Ollama.d_conversation d')
= elems (Ollama.d_store d) (Ollama.d_conversation d)
  ++ omap (resultTurn sT) coreCalls
/\ Ollama.d_messages d'
   = Ollama.d_messages d ++ omap (ollama_resultMessage sT) coreCalls
/\ Ollama.d_pending d' = Ollama.d_pending d ++ unserved sT coreCalls
/\ length (omap (resultTurn sT) coreCalls) + length (unserved sT coreCalls)
   = length coreCalls.
Proof.
induction coreCalls as [|call rest IH]; intros d d' Hok Hd; simpl in Hd.
- injection Hd as <-. simpl. now rewrite !app_nil_r.
- destruct (sT !! tc_Name call) as [tool|] eqn:Et.
  + destruct (st_Handler tool) as [handler|] eqn:Eh; [|discriminate].
    assert (Hs : served sT call = Some (toolOutput handler (tc_Arguments call)))
      by (unfold served; now rewrite Et, Eh).
    assert (Hu : unserved sT (call :: rest) = unserved sT rest)
      by (unfold unserved; simpl; now rewrite Et).
    rewrite Hu.
    rewrite (omap_cons_Some (resultTurn sT) call _ rest
               ltac:(unfold resultTurn; rewrite Hs; reflexivity)).
    rewrite (omap_cons_Some (ollama_resultMessage sT) call _ rest
               ltac:(unfold ollama_resultMessage; rewrite Hs; reflexivity)).
    unfold toolOutput. clear Hs.
    destruct (handler (tc_Arguments call)) as [res callErr].
    destruct (append_slice _ _ _) as [conv h1] eqn:Ea.
    destruct (append_elems _ _ _ _ _ Hok Ea) as [Hok1 He1].
    apply IH in Hd as (I1 & I2 & I3 & I4); [|exact Hok1]. simpl in I1, I2, I3.
    rewrite I1, I2, I3, He1, <- !app_assoc. simpl.
    split; [reflexivity|]. split; [reflexivity|]. split; [reflexivity|].
    now rewrite I4.
  + destruct (decide (tc_Name call ∈ cT)); [|discriminate].
    assert (Hs : served sT call = None) by (unfold served; now rewrite Et).
    assert (Hu : unserved sT (call :: rest) = call :: unserved sT rest)
      by (unfold unserved; simpl; now rewrite Et).
    rewrite Hu.
    rewrite (omap_cons_None (resultTurn sT) call rest
               ltac:(unfold resultTurn; rewrite Hs; reflexivity)).
    rewrite (omap_cons_None (ollama_resultMessage sT) call rest
               ltac:(unfold ollama_resultMessage; rewrite Hs; reflexivity)).
    apply IH in Hd as (I1 & I2 & I3 & I4); [|exact Hok]. simpl in I1, I2, I3.
    rewrite I1, I2, I3, <- !app_assoc. simpl.
    split; [reflexivity|]. split; [reflexivity|]. split; [reflexivity|].
    rewrite <- I4. lia.
Qed.

End Dispatched.

Section DispatchedExamples.
Import Example.
#[local] Existing Instance runtime.
#[local] Existing Instance ollamaDecoders.

(** A turn that calls the clock, the word list of the caller and the
  tool that fails: two tool-result turns and one call left to the
  caller. *)
Lemma ollama_dispatch_in_call_order_witness :
exists d',
  elems (Ollama.d_store d') (Ollama.d_conversation d')
  = [] ++ omap (resultTurn serverTable)
            [ {| tc_ID := "call_1"; tc_Name := "clock"; tc_Arguments := None |};
              {| tc_ID := "call_2"; tc_Name := "lookup"; tc_Arguments := None |};
              {| tc_ID := "call_3"; tc_Name := "broken"; tc_Arguments := None |} ]
  /\ Ollama.d_messages d'
     = [] ++ omap (ollama_resultMessage serverTable)
               [ {| tc_ID := "call_1"; tc_Name := "clock"; tc_Arguments := None |};
                 {| tc_ID := "call_2"; tc_Name := "lookup"; tc_Arguments := None |};
                 {| tc_ID := "call_3"; tc_Name := "broken"; tc_Arguments := None |} ]
  /\ Ollama.d_pending d'
     = [] ++ unserved serverTable
               [ {| tc_ID := "call_1"; tc_Name := "clock"; tc_Arguments := None |};
                 {| tc_ID := "call_2"; tc_Name := "lookup"; tc_Arguments := None |};
                 {| tc_ID := "call_3"; tc_Name := "broken"; tc_Arguments := None |} ]
  /\ length (omap (resultTurn serverTable)
               [ {| tc_ID := "call_1"; tc_Name := "clock"; tc_Arguments := None |};
                 {| tc_ID := "call_2"; tc_Name := "lookup"; tc_Arguments := None |};
                 {| tc_ID := "call_3"; tc_Name := "broken"; tc_Arguments := None |} ])
     + length (unserved serverTable
                 [ {| tc_ID := "call_1"; tc_Name := "clock"; tc_Arguments := None |};
                   {| tc_ID := "call_2"; tc_Name := "lookup"; tc_Arguments := None |};
                   {| tc_ID := "call_3"; tc_Name := "broken"; tc_Arguments := None |} ])
     = 3.
Proof.
eexists.
apply (ollama_dispatch_in_call_order serverTable clientTable
         [ {| tc_ID := "call_1"; tc_Name := "clock"; tc_Arguments := None |};
           {| tc_ID := "call_2"; tc_Name := "lookup"; tc_Arguments := None |};
           {| tc_ID := "call_3"; tc_Name := "broken"; tc_Arguments := None |} ]
         {| Ollama.d_messages := []; Ollama.d_conversation := nil_slice;
            Ollama.d_store := ∅; Ollama.d_pending := [] |}).
- apply slice_ok_nil.
- reflexivity.
Defined.

End DispatchedExamples.
